(** * mediagent: Bayesian belief engine and investigation workflow

    A shallow embedding of the TypeScript sources of the medical
    diagnostic agent:

    - [Bayes]: the class [BayesianDiagnosticEngine] (bayesian_engine),
      its belief store and likelihood table;
    - [Workflow]: the LangGraph state ([medical_state]), the question
      policy of [PatientQuestionAgent] in its two variants, the routing
      function [routeWorkflow] and the node [initializeCase];
    - [Debate]: [ChainOfDebate.updateDifferentialDiagnoses] and
      [ChainOfDebate.synthesizeDebateResults];
    - [Questions]: the scoring and the selection of questions of
      [PatientQuestionAgent];
    - [Graph]: the node [patientInteraction] and the edges of
      [createMedicalGraph], before and after the revision;
    - [DebateRounds]: [ChainOfDebate.orchestrateDebate] and its rounds;
    - [Analysis]: [PhysicianAgent.prepareBayesianAnalysis];
    - [Simplified]: the nodes and the edges of the simplified graph.

    Conventions.  A JavaScript [number] is modelled by an exact rational
    ([Q]); equality of numbers is [Qeq] ([==]).  IEEE rounding, NaN and
    the infinities are outside the model: where the source divides by
    zero the statements below exclude the case by a hypothesis, and the
    statements that compare the numbers of the engine carry the
    hypotheses (the table of the constructor, posteriors in [0, 1), a
    confidence in [0, 1]) and the margins under which the doubles of
    the code produce no NaN and their rounding cannot turn the
    comparison.  Strings are sequences of 8-bit characters;
    [toLowerCase] and the regular expression class \s act on the ASCII
    range.  A [Map] is an
    association list in insertion order with unique keys, as [Map.set]
    maintains it.  [Binary64] repeats the arithmetic of the update loop
    on IEEE binary64 numbers, to replay single runs as the interpreter
    computes them. *)

From Stdlib Require Import String Ascii List ZArith QArith Qminmax Qround Qabs Lia Lqa Bool.
From Stdlib Require Import DecimalString Sorted PrimFloat Permutation.
Import ListNotations.

Local Open Scope string_scope.
Local Open Scope Q_scope.

(* ================================================================== *)
(** ** JavaScript primitives used by the sources                       *)
(* ================================================================== *)

Module JsNumber.

(** [a > b], [a < b], [a >= b] on numbers. *)
Definition gtb (a b : Q) : bool := negb (Qle_bool a b).
Definition ltb (a b : Q) : bool := negb (Qle_bool b a).
Definition geb (a b : Q) : bool := Qle_bool b a.

(** [String(n)] for an integer. *)
Definition string_of_Z (n : Z) : string := NilZero.string_of_int (Z.to_int n).

(** [x.toFixed(1)]: the closest number with one fractional digit, the
    larger one on a tie. *)
Definition toFixed1 (x : Q) : string :=
  let a := Qfloor (Qabs x * 10 + (1 # 2)) in
  ((if ltb x 0 then "-" else "") ++
   string_of_Z (a / 10) ++ "." ++ string_of_Z (a mod 10))%string.

End JsNumber.

Module JsString.

Definition is_upper (c : ascii) : bool :=
  let n := nat_of_ascii c in ((65 <=? n) && (n <=? 90))%nat.

Definition lower_ascii (c : ascii) : ascii :=
  if is_upper c then ascii_of_nat (nat_of_ascii c + 32) else c.

(** [s.toLowerCase()] *)
Fixpoint toLowerCase (s : string) : string :=
  match s with
  | EmptyString => EmptyString
  | String c r => String (lower_ascii c) (toLowerCase r)
  end.

(** The class \s: tab, line feed, vertical tab, form feed, carriage
    return and space. *)
Definition is_space (c : ascii) : bool :=
  let n := nat_of_ascii c in ((n =? 32) || ((9 <=? n) && (n <=? 13)))%nat.

(** [s.replace(/\s+/g, '_')]: every maximal run of white space becomes
    one underscore.  [inRun] tells that the previous character was
    white space. *)
Fixpoint replaceSpaceRuns (inRun : bool) (s : string) : string :=
  match s with
  | EmptyString => EmptyString
  | String c r =>
    if is_space c
    then (if inRun then replaceSpaceRuns true r
          else String "_" (replaceSpaceRuns true r))
    else String c (replaceSpaceRuns false r)
  end.

(** [s.includes(sub)] *)
Fixpoint includes (s sub : string) : bool :=
  match s with
  | EmptyString => prefix sub EmptyString
  | String _ r => prefix sub s || includes r sub
  end.

Fixpoint trimStart (s : string) : string :=
  match s with
  | EmptyString => EmptyString
  | String c r => if is_space c then trimStart r else s
  end.

Fixpoint rev_string (acc s : string) : string :=
  match s with
  | EmptyString => acc
  | String c r => rev_string (String c acc) r
  end.

(** [s.trim()] *)
Definition trim (s : string) : string :=
  rev_string EmptyString (trimStart (rev_string EmptyString (trimStart s))).

(** A string is truthy when it is not empty. *)
Definition truthy (s : string) : bool :=
  match s with EmptyString => false | _ => true end.

End JsString.

(** A [Map<string, V>]: [set] on a key already present keeps the
    position of the entry, on a new key it appends. *)
Module JsMap.
Section Ops.
Context {V : Type}.

Definition t := list (string * V).

Definition empty : t := [].

Fixpoint get (m : t) (k : string) : option V :=
  match m with
  | [] => None
  | (k', v) :: r => if String.eqb k' k then Some v else get r k
  end.

Definition has (m : t) (k : string) : bool :=
  match get m k with Some _ => true | None => false end.

Fixpoint set (m : t) (k : string) (v : V) : t :=
  match m with
  | [] => [(k, v)]
  | (k', v') :: r =>
      if String.eqb k' k then (k', v) :: r else (k', v') :: set r k v
  end.

Definition entries (m : t) : list (string * V) := m.

Definition values (m : t) : list V := map snd m.

Definition keys (m : t) : list string := map fst m.
End Ops.
Arguments t : clear implicits.
End JsMap.

Module JsArray.
Section Ops.
Context {A : Type}.

(** [xs.slice(-n)]: the last [n] elements. *)
Definition sliceLast (n : nat) (xs : list A) : list A :=
  skipn (length xs - n) xs.

(** [xs[xs.length - 1]] *)
Definition lastElement (xs : list A) : option A :=
  nth_error xs (length xs - 1).

(** [xs.sort((a, b) => key(b) - key(a))]: descending by [key];
    [Array.prototype.sort] is stable, so elements with equal keys
    keep their order.  Insertion from the right: the new element is
    placed before the first element whose key is not larger. *)
Fixpoint insertDesc (key : A -> Q) (x : A) (l : list A) : list A :=
  match l with
  | [] => [x]
  | y :: r =>
      if JsNumber.gtb (key y) (key x)
      then y :: insertDesc key x r
      else x :: l
  end.

Fixpoint sortDesc (key : A -> Q) (l : list A) : list A :=
  match l with
  | [] => []
  | x :: r => insertDesc key x (sortDesc key r)
  end.

(** [xs.findIndex(p)], [None] for -1. *)
Fixpoint findIndex (p : A -> bool) (l : list A) : option nat :=
  match l with
  | [] => None
  | x :: r => if p x then Some O else option_map S (findIndex p r)
  end.

(** [xs[i] = f(xs[i])] for an index inside the array. *)
Fixpoint modifyAt (l : list A) (i : nat) (f : A -> A) : list A :=
  match l, i with
  | [], _ => []
  | x :: r, O => f x :: r
  | x :: r, S j => x :: modifyAt r j f
  end.

(** [xs[i] = v] for an index inside the array. *)
Fixpoint setAt (l : list A) (i : nat) (v : A) : list A :=
  match l, i with
  | [], _ => []
  | _ :: r, O => v :: r
  | x :: r, S j => x :: setAt r j v
  end.
End Ops.
End JsArray.


(* ================================================================== *)
(** ** The Bayesian diagnostic engine (bayesian_engine)                *)
(* ================================================================== *)

Module Bayes.

Inductive EvidenceType := symptom | test_result | demographic | history.

(** [value: string | number | boolean].  The engine consults a numeric
    value only through [String(value)], so a number is carried as that
    text. *)
Inductive EvidenceValue :=
| VString (s : string)
| VNumber (text : string)
| VBoolean (b : bool).

Record DiagnosticEvidence := mkEvidence {
  type : EvidenceType;
  name : string;
  value : EvidenceValue;
  confidence : Q;
  timestamp : Z
}.

(** [Omit<DiagnosticEvidence, 'timestamp'>] *)
Record PotentialEvidence := mkPotential {
  p_type : EvidenceType;
  p_name : string;
  p_value : EvidenceValue;
  p_confidence : Q
}.

Record BayesianDiagnosis := mkDiagnosis {
  condition : string;
  priorProbability : Q;
  posteriorProbability : Q;
  likelihood : Q;
  evidence : list DiagnosticEvidence;
  icd10Code : option string
}.

Record BayesianUpdate := mkUpdate {
  diagnosis : string;
  oldProbability : Q;
  newProbability : Q;
  u_evidence : DiagnosticEvidence;
  likelihoodRatio : Q
}.

(** The two private fields of the class. *)
Record Engine := mkEngine {
  diagnoses : JsMap.t BayesianDiagnosis;
  evidenceBase : JsMap.t (JsMap.t Q)
}.

Definition with_diagnoses (this : Engine) (d : JsMap.t BayesianDiagnosis) : Engine :=
  mkEngine d (evidenceBase this).

Definition with_evidenceBase (this : Engine) (b : JsMap.t (JsMap.t Q)) : Engine :=
  mkEngine (diagnoses this) b.

Definition with_posterior (d : BayesianDiagnosis) (p : Q) : BayesianDiagnosis :=
  mkDiagnosis (condition d) (priorProbability d) p (likelihood d) (evidence d) (icd10Code d).

Definition with_likelihood (d : BayesianDiagnosis) (l : Q) : BayesianDiagnosis :=
  mkDiagnosis (condition d) (priorProbability d) (posteriorProbability d) l (evidence d)
    (icd10Code d).

Definition with_evidence (d : BayesianDiagnosis) (e : list DiagnosticEvidence)
    : BayesianDiagnosis :=
  mkDiagnosis (condition d) (priorProbability d) (posteriorProbability d) (likelihood d) e
    (icd10Code d).

(** *** Methods as state transformers over [this] *)

Definition Eng (A : Type) : Type := Engine -> A * Engine.

Definition ret {A} (a : A) : Eng A := fun this => (a, this).

Definition bind {A B} (m : Eng A) (k : A -> Eng B) : Eng B :=
  fun this => let (a, this') := m this in k a this'.

(** Reading a field of [this]. *)
Definition gets {A} (f : Engine -> A) : Eng A := fun this => (f this, this).

(** Assigning to a field of [this], or mutating an object it holds. *)
Definition modify (f : Engine -> Engine) : Eng unit := fun this => (tt, f this).

Notation "x <- m ;; k" := (bind m (fun x => k))
  (at level 61, m at next level, right associativity).
Notation "m ;;; k" := (bind m (fun _ => k))
  (at level 61, right associativity).

(** [for (const x of xs) { ... ys.push(body x) }] *)
Fixpoint forEach {A B} (xs : list A) (body : A -> Eng B) : Eng (list B) :=
  match xs with
  | [] => ret []
  | x :: r => y <- body x ;; ys <- forEach r body ;; ret (y :: ys)
  end.

(** The same loop, with the position of each element. *)
Fixpoint forEachFrom {A B} (index : nat) (xs : list A) (body : nat -> A -> Eng B)
    : Eng (list B) :=
  match xs with
  | [] => ret []
  | x :: r => y <- body index x ;; ys <- forEachFrom (S index) r body ;; ret (y :: ys)
  end.

(** [for (const x of xs) { acc = body acc x }] *)
Fixpoint forAccum {A B} (xs : list A) (acc : B) (body : B -> A -> Eng B) : Eng B :=
  match xs with
  | [] => ret acc
  | x :: r => acc' <- body acc x ;; forAccum r acc' body
  end.

Definition run {A} (m : Eng A) (this : Engine) : A * Engine := m this.
Definition result {A} (m : Eng A) (this : Engine) : A := fst (m this).
Definition after {A} (m : Eng A) (this : Engine) : Engine := snd (m this).

(** *** The likelihood table *)

Definition setLikelihood (condition evidence : string) (likelihood : Q) : Eng unit :=
  known <- gets (fun this => JsMap.has (evidenceBase this) condition) ;;
  (if negb known
   then modify (fun this =>
          with_evidenceBase this (JsMap.set (evidenceBase this) condition JsMap.empty))
   else ret tt) ;;;
  modify (fun this =>
    match JsMap.get (evidenceBase this) condition with
    | Some inner =>
        with_evidenceBase this
          (JsMap.set (evidenceBase this) condition (JsMap.set inner evidence likelihood))
    | None => this
    end).

Definition initializeEvidenceBase : Eng unit :=
  setLikelihood "myocardial_infarction" "chest_pain_crushing" 8.0 ;;;
  setLikelihood "myocardial_infarction" "diaphoresis" 3.0 ;;;
  setLikelihood "myocardial_infarction" "nausea" 2.0 ;;;
  setLikelihood "myocardial_infarction" "troponin_elevated" 20.0 ;;;
  setLikelihood "myocardial_infarction" "age_over_65" 2.5 ;;;
  setLikelihood "myocardial_infarction" "fever" 0.3 ;;;
  setLikelihood "pneumonia" "fever" 4.0 ;;;
  setLikelihood "pneumonia" "no_fever" 0.3 ;;;
  setLikelihood "pneumonia" "cough" 5.0 ;;;
  setLikelihood "pneumonia" "shortness_of_breath" 3.0 ;;;
  setLikelihood "pneumonia" "chest_xray_infiltrate" 15.0 ;;;
  setLikelihood "pneumonia" "chest_pain_crushing" 0.2 ;;;
  setLikelihood "pneumonia" "troponin_elevated" 0.1 ;;;
  setLikelihood "gastroenteritis" "nausea" 4.0 ;;;
  setLikelihood "gastroenteritis" "vomiting" 6.0 ;;;
  setLikelihood "gastroenteritis" "diarrhea" 8.0 ;;;
  setLikelihood "gastroenteritis" "abdominal_pain" 5.0 ;;;
  setLikelihood "gastroenteritis" "fever" 2.0 ;;;
  setLikelihood "gastroenteritis" "chest_pain_crushing" 0.1 ;;;
  setLikelihood "gastroenteritis" "troponin_elevated" 0.05.

(** [new BayesianDiagnosticEngine()] *)
Definition newEngine : Engine :=
  after initializeEvidenceBase (mkEngine JsMap.empty JsMap.empty).

(** *** The belief store *)

Definition initializeDiagnosis (condition : string) (priorProbability : Q)
    (icd10Code : option string) : Eng unit :=
  modify (fun this =>
    with_diagnoses this
      (JsMap.set (diagnoses this) condition
         (mkDiagnosis condition priorProbability priorProbability 1.0 [] icd10Code))).

Definition stringOfValue (v : EvidenceValue) : string :=
  match v with
  | VString s => s
  | VNumber text => text
  | VBoolean true => "true"
  | VBoolean false => "false"
  end.

Definition generateEvidenceKey (evidence : DiagnosticEvidence) : string :=
  let normalizedName :=
    JsString.replaceSpaceRuns false (JsString.toLowerCase (name evidence)) in
  let normalizedValue := JsString.toLowerCase (stringOfValue (value evidence)) in
  match value evidence with
  | VBoolean b => if b then normalizedName else ("no_" ++ normalizedName)%string
  | v =>
      if String.eqb normalizedValue "true" || String.eqb normalizedValue "positive"
         || String.eqb normalizedValue "elevated"
      then normalizedName
      else
        match v with
        | VNumber _ => (normalizedName ++ "_" ++ normalizedValue)%string
        | _ => (normalizedName ++ "_" ++ normalizedValue)%string
        end
  end.

Definition calculateLikelihoodRatio (condition : string)
    (evidence : DiagnosticEvidence) : Eng Q :=
  let evidenceKey := generateEvidenceKey evidence in
  conditionEvidence <- gets (fun this => JsMap.get (evidenceBase this) condition) ;;
  match conditionEvidence with
  | None => ret 1.0
  | Some table =>
      match JsMap.get table evidenceKey with
      | None => ret 1.0
      | Some likelihoodRatio => ret (1 + (likelihoodRatio - 1) * confidence evidence)
      end
  end.

(** [Math.min(Math.max(x, 0.001), 0.999)] *)
Definition clamp (x : Q) : Q := Qmin (Qmax x 0.001) 0.999.

(** The odds form of the rule of Bayes, as both loops compute it. *)
Definition bayes (likelihoodRatio oldProbability : Q) : Q :=
  let oldOdds := oldProbability / (1 - oldProbability) in
  let newOdds := likelihoodRatio * oldOdds in
  newOdds / (1 + newOdds).

Definition totalProbability (ds : JsMap.t BayesianDiagnosis) : Q :=
  fold_left (fun sum diagnosis => sum + posteriorProbability diagnosis) (JsMap.values ds) 0.

Definition normalizeProbabilities : Eng unit :=
  total <- gets (fun this => totalProbability (diagnoses this)) ;;
  if JsNumber.gtb total 1.0
  then
    let normalizationFactor := 0.95 / total in
    modify (fun this =>
      with_diagnoses this
        (map (fun entry : string * BayesianDiagnosis =>
                (fst entry,
                 with_posterior (snd entry)
                   (posteriorProbability (snd entry) * normalizationFactor)))
             (diagnoses this)))
  else ret tt.

(** The entries that [Array.from(this.diagnoses.entries())] yields hold
    references to the records of the store: the record of the entry at
    position [index] is the record that the store holds at that
    position.  Reading a field of it reads the store, assigning to a
    field writes the store.  [entry] is the entry as the loop received
    it. *)
Definition readRecord {A} (index : nat) (entry : string * BayesianDiagnosis)
    (field : BayesianDiagnosis -> A) : Eng A :=
  gets (fun this => field (snd (nth index (diagnoses this) entry))).

Definition writeRecord (index : nat) (f : BayesianDiagnosis -> BayesianDiagnosis)
    : Eng unit :=
  modify (fun this =>
    with_diagnoses this
      (JsArray.modifyAt (diagnoses this) index
         (fun entry : string * BayesianDiagnosis => (fst entry, f (snd entry))))).

(** One turn of the loop of [updateWithEvidence]. *)
Definition updateEntry (evidence : DiagnosticEvidence) (index : nat)
    (entry : string * BayesianDiagnosis) : Eng BayesianUpdate :=
  let condition := fst entry in
  likelihoodRatio <- calculateLikelihoodRatio condition evidence ;;
  oldProbability <- readRecord index entry posteriorProbability ;;
  let newProbability := bayes likelihoodRatio oldProbability in
  writeRecord index (fun diagnosis => with_posterior diagnosis (clamp newProbability)) ;;;
  writeRecord index (fun diagnosis =>
    with_evidence diagnosis (Bayes.evidence diagnosis ++ [evidence])) ;;;
  writeRecord index (fun diagnosis =>
    with_likelihood diagnosis (likelihood diagnosis * likelihoodRatio)) ;;;
  stored <- readRecord index entry posteriorProbability ;;
  ret (mkUpdate condition oldProbability stored evidence likelihoodRatio).

Definition updateWithEvidence (evidence : DiagnosticEvidence) : Eng (list BayesianUpdate) :=
  entries <- gets (fun this => JsMap.entries (diagnoses this)) ;;
  updates <- forEachFrom 0 entries (updateEntry evidence) ;;
  normalizeProbabilities ;;;
  ret updates.

Definition getRankedDiagnoses : Eng (list BayesianDiagnosis) :=
  gets (fun this => JsArray.sortDesc posteriorProbability (JsMap.values (diagnoses this))).

Definition getDiagnosis (condition : string) : Eng (option BayesianDiagnosis) :=
  gets (fun this => JsMap.get (diagnoses this) condition).

Definition reset : Eng unit :=
  modify (fun this => with_diagnoses this JsMap.empty).

(** *** Entropy and information gain *)

Section InformationGain.

(** [Math.log2], which the model of numbers does not provide. *)
Variable log2 : Q -> Q.

Definition entropyOf (probabilities : list Q) : Q :=
  let total := fold_left (fun sum p => sum + p) probabilities 0 in
  fold_left
    (fun entropy prob =>
       if JsNumber.gtb prob 0
       then let normalizedProb := prob / total in
            entropy - normalizedProb * log2 normalizedProb
       else entropy)
    probabilities 0.

Definition calculateEntropy : Eng Q :=
  probabilities <-
    gets (fun this => map posteriorProbability (JsMap.values (diagnoses this))) ;;
  ret (entropyOf probabilities).

Definition calculateHypotheticalUpdates (evidence : DiagnosticEvidence)
    : Eng (list BayesianUpdate) :=
  entries <- gets (fun this => JsMap.entries (diagnoses this)) ;;
  forEach entries (fun entry : string * BayesianDiagnosis =>
    let (condition, diagnosis) := entry in
    likelihoodRatio <- calculateLikelihoodRatio condition evidence ;;
    let oldProbability := posteriorProbability diagnosis in
    let newProbability := bayes likelihoodRatio oldProbability in
    ret (mkUpdate condition oldProbability (clamp newProbability)
           evidence likelihoodRatio)).

Definition calculateEntropyFromUpdates (updates : list BayesianUpdate) : Eng Q :=
  ret (entropyOf (map newProbability updates)).

Definition calculateOutcomeProbability (_evidence : DiagnosticEvidence) : Eng Q :=
  ret 0.5.

(** [now outcome] is the reading of [new Date()] in the turn for
    [outcome]. *)
Definition calculateInformationGain (potentialEvidence : PotentialEvidence)
    (now : bool -> Z) : Eng Q :=
  currentEntropy <- calculateEntropy ;;
  expectedEntropyAfterEvidence <-
    forAccum [true; false] 0 (fun expected outcome =>
      let tempEvidence :=
        mkEvidence (p_type potentialEvidence) (p_name potentialEvidence)
          (VBoolean outcome) (p_confidence potentialEvidence) (now outcome) in
      hypotheticalUpdates <- calculateHypotheticalUpdates tempEvidence ;;
      entropyAfterEvidence <- calculateEntropyFromUpdates hypotheticalUpdates ;;
      outcomeWeight <- calculateOutcomeProbability tempEvidence ;;
      ret (expected + outcomeWeight * entropyAfterEvidence)) ;;
  ret (currentEntropy - expectedEntropyAfterEvidence).

End InformationGain.

(** *** Notions used in the statements *)

(** The base ratio of the table for a condition and an evidence, when
    the table has one. *)
Definition baseRatio (this : Engine) (condition : string)
    (evidence : DiagnosticEvidence) : option Q :=
  match JsMap.get (evidenceBase this) condition with
  | Some table => JsMap.get table (generateEvidenceKey evidence)
  | None => None
  end.

(** The posterior stored for a condition, through [getDiagnosis]. *)
Definition storedPosterior (this : Engine) (condition : string) : option Q :=
  option_map posteriorProbability (result (getDiagnosis condition) this).

(** The sum of the [newProbability] of a list of update records. *)
Definition sumNew (updates : list BayesianUpdate) : Q :=
  fold_left (fun sum u => sum + newProbability u) updates 0.

(** The ratio that [calculateLikelihoodRatio] returns. *)
Definition adjustedRatio (this : Engine) (condition : string)
    (evidence : DiagnosticEvidence) : Q :=
  result (calculateLikelihoodRatio condition evidence) this.

(** The update that the turn of the loop for an entry pushes, and the
    entry as the turn leaves it. *)
Definition updateOfTurn (this : Engine) (evidence : DiagnosticEvidence)
    (entry : string * BayesianDiagnosis) : BayesianUpdate :=
  let lr := adjustedRatio this (fst entry) evidence in
  mkUpdate (fst entry) (posteriorProbability (snd entry))
    (clamp (bayes lr (posteriorProbability (snd entry)))) evidence lr.

Definition entryAfterTurn (this : Engine) (evidence : DiagnosticEvidence)
    (entry : string * BayesianDiagnosis) : string * BayesianDiagnosis :=
  let lr := adjustedRatio this (fst entry) evidence in
  let d := snd entry in
  (fst entry,
   mkDiagnosis (condition d) (priorProbability d)
     (clamp (bayes lr (posteriorProbability d))) (likelihood d * lr)
     (Bayes.evidence d ++ [evidence]) (icd10Code d)).

(** A method that leaves every field of [this] as it found it. *)
Definition readOnly {A} (m : Eng A) : Prop := forall this, after m this = this.



(** Every tracked posterior is a probability other than 1. *)
Definition probabilistic (this : Engine) : Prop :=
  Forall (fun entry : string * BayesianDiagnosis =>
            0 <= posteriorProbability (snd entry) /\ posteriorProbability (snd entry) < 1)
         (diagnoses this).

Definition probabilisticb (this : Engine) : bool :=
  forallb (fun entry : string * BayesianDiagnosis =>
             JsNumber.geb (posteriorProbability (snd entry)) 0
             && JsNumber.ltb (posteriorProbability (snd entry)) 1)
          (diagnoses this).

(** Every ratio of a likelihood table lies between [low] and [high]. *)
Definition tableWithin (low high : Q) (table : JsMap.t (JsMap.t Q)) : bool :=
  forallb (fun row : string * JsMap.t Q =>
             forallb (fun cell : string * Q =>
                        JsNumber.geb (snd cell) low && JsNumber.geb high (snd cell))
                     (snd row))
          table.

(** The margin by which a neutral update may move a posterior: far
    above the rounding of a double, far below any move that the table
    can cause. *)
Definition roundingMargin : Q := 1 # 1000000000000.

End Bayes.


(* ================================================================== *)
(** ** The arithmetic of the update loop on binary64 numbers           *)
(* ================================================================== *)

Set Warnings "-inexact-float".

Module Binary64.

Local Open Scope float_scope.

(** [Math.max] and [Math.min] of two numbers: NaN when either is. *)
Definition max (a b : float) : float :=
  if (is_nan a || is_nan b)%bool then nan else if a <? b then b else a.

Definition min (a b : float) : float :=
  if (is_nan a || is_nan b)%bool then nan else if b <? a then b else a.

Definition clamp (x : float) : float := min (max x 0.001) 0.999.

Definition bayes (likelihoodRatio oldProbability : float) : float :=
  let oldOdds := oldProbability / (1 - oldProbability) in
  let newOdds := likelihoodRatio * oldOdds in
  newOdds / (1 + newOdds).

(** The adjustment of [calculateLikelihoodRatio]. *)
Definition adjust (likelihoodRatio confidence : float) : float :=
  1 + (likelihoodRatio - 1) * confidence.

(** [normalizeProbabilities] on the posteriors in store order. *)
Definition normalize (posteriors : list float) : list float :=
  let totalProbability := fold_left add posteriors 0 in
  if 1.0 <? totalProbability
  then
    let normalizationFactor := 0.95 / totalProbability in
    map (fun p => p * normalizationFactor) posteriors
  else posteriors.

End Binary64.


(* ================================================================== *)
(** ** Case state and workflow (medical_state, patient_question_agent,
       medical_graph)                                                  *)
(* ================================================================== *)

Module Workflow.

Inductive PhysicianRole := hypothesis | test_chooser | challenger | stewardship | checklist.

Inductive QuestionCategory :=
  cat_history | cat_symptoms | cat_examination | cat_family | cat_social
| cat_medications | cat_allergies.

Inductive Priority := high | medium | low.

Inductive DiagnosticPhase :=
  case_presentation | initial_assessment | information_gathering
| patient_interaction | test_selection | deliberation | final_diagnosis.

Definition phase_eqb (a b : DiagnosticPhase) : bool :=
  match a, b with
  | case_presentation, case_presentation
  | initial_assessment, initial_assessment
  | information_gathering, information_gathering
  | patient_interaction, patient_interaction
  | test_selection, test_selection
  | deliberation, deliberation
  | final_diagnosis, final_diagnosis => true
  | _, _ => false
  end.

Record DiagnosisHypothesis := mkHypothesis {
  condition : string;
  probability : Q;
  supportingEvidence : list string;
  reasoning : string;
  icd10Code : option string
}.

Record Demographics := mkDemographics {
  age : Q;
  gender : string;
  occupation : option string
}.

Record CaseInformation := mkCaseInformation {
  patientId : string;
  demographics : Demographics;
  chiefComplaint : string;
  historyOfPresentIllness : option string;
  pastMedicalHistory : option (list string);
  medications : option (list string);
  allergies : option (list string);
  familyHistory : option (list string);
  socialHistory : option string;
  reviewOfSystems : option (list (string * string));
  physicalExam : option (list (string * string))
}.

Record TestResult := mkTestResult {
  testType : string;
  testName : string;
  result : string;
  cost : Q;
  diagnosticValue : Q;
  requestedBy : string;
  t_timestamp : Z
}.

Record PatientQuestion := mkQuestion {
  id : string;
  requestingAgent : PhysicianRole;
  category : QuestionCategory;
  question : string;
  priority : Priority;
  q_timestamp : Z
}.

Record PatientResponse := mkResponse {
  questionId : string;
  response : string;
  r_timestamp : Z
}.

Record CostAnalysis := mkCostAnalysis {
  estimatedCost : Q;
  costBenefit : string
}.

Record AgentTurn := mkAgentTurn {
  agentRole : PhysicianRole;
  a_reasoning : string;
  recommendations : list string;
  diagnosisUpdates : option (list DiagnosisHypothesis);
  testsRequested : option (list string);
  questionsRequested : option (list PatientQuestion);
  costAnalysis : option CostAnalysis;
  biasesIdentified : option (list string)
}.

(** A [BaseMessage]: who wrote it, and its content, which is a string or
    a list of content parts. *)
Inductive Sender := Human | AI.

Inductive MessageContent := Text (s : string) | Parts (ps : list string).

Record BaseMessage := mkMessage {
  sender : Sender;
  content : MessageContent
}.

Definition AIMessage (text : string) : BaseMessage := mkMessage AI (Text text).

(** [MedicalDiagnosticStateType].  The declaration among the sources
    predates the interaction floor; [interactionRound] and
    [requiredInformationGathered] are the two fields that the graph, the
    revised question agent and the test fixtures read besides. *)
Record State := mkState {
  messages : list BaseMessage;
  differentialDiagnoses : list DiagnosisHypothesis;
  availableCaseInfo : CaseInformation;
  revealedInformation : list string;
  diagnosticTests : list TestResult;
  cumulativeCost : Q;
  costBudget : Q;
  currentPhase : DiagnosticPhase;
  debateRound : Z;
  agentTurns : list AgentTurn;
  pendingQuestions : list PatientQuestion;
  awaitingUserInput : bool;
  questionHistory : list PatientQuestion;
  userResponses : list PatientResponse;
  interactionRound : Z;
  requiredInformationGathered : list string;
  confidenceLevel : Q;
  readyForDiagnosis : bool;
  finalDiagnosis : option DiagnosisHypothesis;
  biasesDetected : list string;
  reasoningQuality : Q
}.

(** [Partial<MedicalDiagnosticStateType>], what a node returns: [None]
    is a key that the object does not have. *)
Record Update := mkUpdate {
  u_messages : option (list BaseMessage);
  u_differentialDiagnoses : option (list DiagnosisHypothesis);
  u_availableCaseInfo : option CaseInformation;
  u_revealedInformation : option (list string);
  u_diagnosticTests : option (list TestResult);
  u_cumulativeCost : option Q;
  u_costBudget : option Q;
  u_currentPhase : option DiagnosticPhase;
  u_debateRound : option Z;
  u_agentTurns : option (list AgentTurn);
  u_pendingQuestions : option (list PatientQuestion);
  u_awaitingUserInput : option bool;
  u_questionHistory : option (list PatientQuestion);
  u_userResponses : option (list PatientResponse);
  u_interactionRound : option Z;
  u_requiredInformationGathered : option (list string);
  u_confidenceLevel : option Q;
  u_readyForDiagnosis : option bool;
  (** [Some None] is the key present with the value [undefined]. *)
  u_finalDiagnosis : option (option DiagnosisHypothesis);
  u_biasesDetected : option (list string);
  u_reasoningQuality : option Q
}.

(** The object [{}]. *)
Definition noUpdate : Update :=
  mkUpdate None None None None None None None None None None None
           None None None None None None None None None None.

(** *** The channel reducers of [MedicalDiagnosticAnnotation] *)

(** [update || current] on numbers: zero is falsy. *)
Definition orNumber (current update : Q) : Q :=
  if Qeq_bool update 0 then current else update.

Definition orRound (current update : Z) : Z :=
  if (update =? 0)%Z then current else update.

(** A channel is reduced only when the returned object has its key. *)
Definition channel {A B} (reducer : A -> B -> A) (current : A) (update : option B) : A :=
  match update with
  | Some u => reducer current u
  | None => current
  end.

(** [current.concat(update)] and [[...current, ...update]] *)
Definition concat {A} (current update : list A) : list A := (current ++ update)%list.

Section Channels.

(** The reducers of the two channels whose declaration is not among the
    sources. *)
Variable reduceInteractionRound : Z -> Z -> Z.
Variable reduceRequiredInformationGathered : list string -> list string -> list string.

(** [{ ...current, ...update }] with a complete [CaseInformation] as
    update: every key of the update wins, the optional ones when they
    are present in it. *)
Definition mergeCaseInfo (current update : CaseInformation) : CaseInformation :=
  let keep {A} (c u : option A) := match u with Some _ => u | None => c end in
  mkCaseInformation
    (patientId update) (demographics update) (chiefComplaint update)
    (keep (historyOfPresentIllness current) (historyOfPresentIllness update))
    (keep (pastMedicalHistory current) (pastMedicalHistory update))
    (keep (medications current) (medications update))
    (keep (allergies current) (allergies update))
    (keep (familyHistory current) (familyHistory update))
    (keep (socialHistory current) (socialHistory update))
    (keep (reviewOfSystems current) (reviewOfSystems update))
    (keep (physicalExam current) (physicalExam update)).

Definition applyUpdate (s : State) (u : Update) : State :=
  mkState
    (channel concat (messages s) (u_messages u))
    (channel (fun _ x => x) (differentialDiagnoses s) (u_differentialDiagnoses u))
    (channel mergeCaseInfo (availableCaseInfo s) (u_availableCaseInfo u))
    (channel concat (revealedInformation s) (u_revealedInformation u))
    (channel concat (diagnosticTests s) (u_diagnosticTests u))
    (channel (fun c x => c + x) (cumulativeCost s) (u_cumulativeCost u))
    (channel orNumber (costBudget s) (u_costBudget u))
    (channel (fun _ x => x) (currentPhase s) (u_currentPhase u))
    (channel orRound (debateRound s) (u_debateRound u))
    (channel concat (agentTurns s) (u_agentTurns u))
    (channel (fun _ x => x) (pendingQuestions s) (u_pendingQuestions u))
    (channel (fun _ x => x) (awaitingUserInput s) (u_awaitingUserInput u))
    (channel concat (questionHistory s) (u_questionHistory u))
    (channel concat (userResponses s) (u_userResponses u))
    (channel reduceInteractionRound (interactionRound s) (u_interactionRound u))
    (channel reduceRequiredInformationGathered
       (requiredInformationGathered s) (u_requiredInformationGathered u))
    (channel orNumber (confidenceLevel s) (u_confidenceLevel u))
    (channel (fun _ x => x) (readyForDiagnosis s) (u_readyForDiagnosis u))
    (channel (fun c x => match x with Some _ => x | None => c end)
       (finalDiagnosis s) (u_finalDiagnosis u))
    (channel concat (biasesDetected s) (u_biasesDetected u))
    (channel orNumber (reasoningQuality s) (u_reasoningQuality u)).

End Channels.

(** *** The question policy *)

(** [recentTurns.some(turn => turn.recommendations.some(rec => ...))] *)
Definition hasInfoRequests (state : State) : bool :=
  let recentTurns := JsArray.sliceLast 2 (agentTurns state) in
  existsb (fun turn =>
    existsb (fun rec =>
      JsString.includes (JsString.toLowerCase rec) "need"
      || JsString.includes (JsString.toLowerCase rec) "require"
      || JsString.includes (JsString.toLowerCase rec) "ask"
      || JsString.includes (JsString.toLowerCase rec) "clarify")
      (recommendations turn))
    recentTurns.

Definition nonEmpty {A} (xs : list A) : bool :=
  match xs with [] => false | _ => true end.

(** [PatientQuestionAgent.shouldGenerateQuestions] of
    patient_question_agent.ts. *)
Module PatientQuestionAgent.

Definition shouldGenerateQuestions (state : State) : bool :=
  if JsNumber.ltb (confidenceLevel state) 0.6 then true
  else if (4 <? length (differentialDiagnoses state))%nat then true
  else if hasInfoRequests state then true
  else if phase_eqb (currentPhase state) information_gathering then true
  else if nonEmpty (pendingQuestions state) then false
  else false.

End PatientQuestionAgent.

(** The revision of the class that enforces the interaction floor; among
    the sources it is the second text of medical_graph_simplified.ts,
    after the simplified graph. *)
Module PatientQuestionAgentRevised.

Definition includesString (xs : list string) (x : string) : bool :=
  existsb (String.eqb x) xs.

(** [!xs || !Array.isArray(xs) || xs.length === 0] *)
Definition missingList (xs : option (list string)) : bool :=
  match xs with
  | None => true
  | Some l => negb (nonEmpty l)
  end.

Definition hasMissingEssentialInfo (state : State) : bool :=
  let caseInfo := availableCaseInfo state in
  let gathered := requiredInformationGathered state in
  if Qeq_bool (age (demographics caseInfo)) 0 then true
  else if negb (JsString.truthy (gender (demographics caseInfo)))
          || String.eqb (gender (demographics caseInfo)) "unknown" then true
  else if negb (includesString gathered "medications")
          && missingList (medications caseInfo) then true
  else if negb (includesString gathered "allergies")
          && missingList (allergies caseInfo) then true
  else if negb (includesString gathered "family_history")
          && missingList (familyHistory caseInfo) then true
  else if negb (includesString gathered "symptom_timeline")
          && match historyOfPresentIllness caseInfo with
             | None => true
             | Some hpi =>
                 negb (JsString.truthy hpi)
                 || (negb (JsString.includes (JsString.toLowerCase hpi) "started")
                     && negb (JsString.includes (JsString.toLowerCase hpi) "began"))
             end then true
  else if (2 <=? interactionRound state)%Z
          && negb (includesString gathered "symptom_severity") then true
  else false.

Definition shouldGenerateQuestions (state : State) : bool :=
  if nonEmpty (pendingQuestions state) then false
  else if (interactionRound state <? 3)%Z then true
  else if JsNumber.ltb (confidenceLevel state) 0.4 then true
  else if (4 <? length (differentialDiagnoses state))%nat then true
  else if hasMissingEssentialInfo state then true
  else if hasInfoRequests state then true
  else if phase_eqb (currentPhase state) information_gathering then true
  else if (interactionRound state <? 5)%Z
          && (2 <? length (differentialDiagnoses state))%nat then true
  else false.

End PatientQuestionAgentRevised.

(** *** Routing (medical_graph, in its revision with the interaction
        floor) *)

Inductive Node :=
  node_initialize_case | node_medical_debate | node_patient_interaction
| node_process_user_response | node_diagnostic_tools | node_final_assessment
| node_end.

(** [lastAgentTurn?.testsRequested && lastAgentTurn.testsRequested.length > 0] *)
Definition testsWereRequested (state : State) : bool :=
  match JsArray.lastElement (agentTurns state) with
  | Some lastAgentTurn =>
      match testsRequested lastAgentTurn with
      | Some tests => nonEmpty tests
      | None => false
      end
  | None => false
  end.

Section Routing.

(** [patientQuestionAgent.shouldGenerateQuestions], the method of the
    agent object that the graph module constructs. *)
Variable shouldGenerateQuestions : State -> bool.

Definition routeWorkflow (state : State) : Node :=
  if awaitingUserInput state then node_patient_interaction
  else if shouldGenerateQuestions state then node_patient_interaction
  else if readyForDiagnosis state || phase_eqb (currentPhase state) final_diagnosis then
    if (interactionRound state <? 3)%Z && JsNumber.ltb (confidenceLevel state) 0.8
    then node_patient_interaction
    else node_final_assessment
  else if JsNumber.geb (cumulativeCost state) (costBudget state) then node_final_assessment
  else if (5 <=? debateRound state)%Z then
    if (interactionRound state <? 3)%Z || shouldGenerateQuestions state
    then node_patient_interaction
    else node_final_assessment
  else if (0 <? debateRound state)%Z && (Z.rem (debateRound state) 2 =? 0)%Z
          && (interactionRound state <? 3)%Z then node_patient_interaction
  else if testsWereRequested state then node_diagnostic_tools
  else node_medical_debate.

Definition routePatientInteraction (state : State) : Node :=
  if nonEmpty (pendingQuestions state) then node_end else node_medical_debate.

Definition routeAfterUserResponse (state : State) : Node :=
  if shouldGenerateQuestions state then node_patient_interaction
  else node_medical_debate.

End Routing.

Definition routeAfterInitialization (state : State) : Node :=
  if phase_eqb (currentPhase state) patient_interaction || awaitingUserInput state
  then node_patient_interaction
  else if phase_eqb (currentPhase state) final_diagnosis || readyForDiagnosis state
  then node_final_assessment
  else node_medical_debate.

(** *** Case initialization (medical_graph) *)

(** The object that [JSON.parse] yields for the reply to the extraction
    prompt, read through the keys the code consults.  [None] is a key
    that is absent; for the array fields, a value that is not an
    array. *)
Record ParsedCase := mkParsedCase {
  j_patientId : option string;
  j_demographics : option Demographics;
  j_chiefComplaint : option string;
  j_historyOfPresentIllness : option string;
  j_pastMedicalHistory : option (list string);
  j_medications : option (list string);
  j_allergies : option (list string);
  j_familyHistory : option (list string);
  j_socialHistory : option string
}.

(** The reasoning oracle at the extraction prompt: the call throws, the
    reply does not parse, or it parses. *)
Inductive OracleReply :=
| LlmFailed
| Unparsable
| Parsed (parsed : ParsedCase).

(** [value || fallback] on an optional string: the empty string is
    falsy. *)
Definition orString (value : option string) (fallback : string) : string :=
  match value with
  | Some s => if JsString.truthy s then s else fallback
  | None => fallback
  end.

Definition orEmptyList (value : option (list string)) : list string :=
  match value with Some l => l | None => [] end.

(** [`CASE_${Date.now()}`] *)
Definition caseId (now : Z) : string := ("CASE_" ++ JsNumber.string_of_Z now)%string.

(** [!caseText || caseText.trim().length === 0] *)
Definition blank (caseText : string) : bool :=
  negb (JsString.truthy caseText)
  || (String.length (JsString.trim caseText) =? 0)%nat.

Definition defaultDemographics : Demographics := mkDemographics 45 "unknown" None.

Definition basicCaseInfo (now : Z) (caseText : string) : CaseInformation :=
  mkCaseInformation (caseId now) defaultDemographics
    (substring 0 100 caseText) (Some caseText)
    (Some []) (Some []) (Some []) (Some []) (Some "") None None.

(** [extractCaseInformation]: every failure of the oracle is caught
    inside, so the function always returns a record. *)
Definition extractCaseInformation (caseText : string) (reply : OracleReply) (now : Z)
    : CaseInformation :=
  if blank caseText then
    mkCaseInformation (caseId now) defaultDemographics
      "No case information provided" (Some "Initial case presentation")
      None None None None None None None
  else
    match reply with
    | LlmFailed => basicCaseInfo now caseText
    | Unparsable => basicCaseInfo now caseText
    | Parsed parsed =>
        mkCaseInformation
          (orString (j_patientId parsed) (caseId now))
          (match j_demographics parsed with
           | Some d => d
           | None => defaultDemographics
           end)
          (orString (j_chiefComplaint parsed) (substring 0 100 caseText))
          (Some (orString (j_historyOfPresentIllness parsed) caseText))
          (Some (orEmptyList (j_pastMedicalHistory parsed)))
          (Some (orEmptyList (j_medications parsed)))
          (Some (orEmptyList (j_allergies parsed)))
          (Some (orEmptyList (j_familyHistory parsed)))
          (Some (orString (j_socialHistory parsed) ""))
          None None
    end.

(** [typeof lastMessage?.content === 'string' ? lastMessage.content : ""] *)
Definition lastMessageText (state : State) : string :=
  match JsArray.lastElement (messages state) with
  | Some lastMessage =>
      match content lastMessage with
      | Text s => s
      | Parts _ => ""
      end
  | None => ""
  end.

Definition caseUpdate (state : State) (info : CaseInformation) (note : string) : Update :=
  mkUpdate
    (Some (messages state ++ [AIMessage note])%list)
    None (Some info) None None None (Some 1000) (Some initial_assessment)
    None None None None None None None None None None None None None.

(** The node [initializeCase].  [reply] is what the oracle answers if it
    is asked, [now] the reading of [Date.now()].  Since
    [extractCaseInformation] does not throw, the [catch] branch of the
    node has no run and is not represented. *)
Definition initializeCase (state : State) (reply : OracleReply) (now : Z) : Update :=
  if JsString.truthy (patientId (availableCaseInfo state)) then noUpdate
  else
    let caseText := lastMessageText state in
    if blank caseText then
      let fallbackCaseInfo :=
        mkCaseInformation (caseId now) defaultDemographics
          "Patient case presentation" (Some "Initial case presentation")
          (Some []) (Some []) (Some []) (Some []) (Some "") None None in
      caseUpdate state fallbackCaseInfo
        ("Case initialized: " ++ patientId fallbackCaseInfo
         ++ " - Please provide patient information")%string
    else
      let caseInfo := extractCaseInformation caseText reply now in
      caseUpdate state caseInfo
        ("Case initialized: " ++ patientId caseInfo ++ " - "
         ++ chiefComplaint caseInfo)%string.

End Workflow.


(* ================================================================== *)
(** ** The chain of debate (chain_of_debate)                            *)
(* ================================================================== *)

Module Debate.

Import Workflow.

Record DebateConfiguration := mkConfiguration {
  maxRounds : Z;
  confidenceThreshold : Q;
  costBudgetLimit : Q;
  participatingAgents : list PhysicianRole
}.

(** The defaults of the constructor. *)
Definition defaultConfiguration : DebateConfiguration :=
  mkConfiguration 2 0.8 1000 [hypothesis; test_chooser; challenger; stewardship; checklist].

Definition role_eqb (a b : PhysicianRole) : bool :=
  match a, b with
  | hypothesis, hypothesis | test_chooser, test_chooser | challenger, challenger
  | stewardship, stewardship | checklist, checklist => true
  | _, _ => false
  end.

(** [this.physicianAgents.get(role)] is defined for the participating
    roles. *)
Definition hasAgent (cfg : DebateConfiguration) (role : PhysicianRole) : bool :=
  existsb (role_eqb role) (participatingAgents cfg).

(** What a call that may throw yields. *)
Inductive Outcome (A : Type) :=
| Returned (a : A)
| Thrown (message : string).
Arguments Returned {A} a.
Arguments Thrown {A} message.

Definition mergeHypothesis (old update : DiagnosisHypothesis) : DiagnosisHypothesis :=
  mkHypothesis (condition old) (probability update)
    (supportingEvidence old ++ supportingEvidence update)%list
    (reasoning update) (icd10Code old).

Definition applyHypothesis (diagnoses : list DiagnosisHypothesis)
    (update : DiagnosisHypothesis) : list DiagnosisHypothesis :=
  match JsArray.findIndex (fun d => String.eqb (condition d) (condition update)) diagnoses with
  | Some existingIndex =>
      match nth_error diagnoses existingIndex with
      | Some old => JsArray.setAt diagnoses existingIndex (mergeHypothesis old update)
      | None => diagnoses
      end
  | None => (diagnoses ++ [update])%list
  end.

Definition updateDifferentialDiagnoses (current updates : list DiagnosisHypothesis)
    : list DiagnosisHypothesis :=
  JsArray.sortDesc probability (fold_left applyHypothesis updates current).

Definition shouldTerminateDebate (cfg : DebateConfiguration) (state : State) : bool :=
  if JsNumber.geb (confidenceLevel state) (confidenceThreshold cfg) then true
  else if JsNumber.geb (cumulativeCost state) (costBudgetLimit cfg) then true
  else if readyForDiagnosis state then true
  else false.

Definition determineNextPhase (cfg : DebateConfiguration) (state : State)
    (confidenceLevel : Q) : DiagnosticPhase :=
  if JsNumber.geb confidenceLevel (confidenceThreshold cfg) then final_diagnosis
  else
    match currentPhase state with
    | case_presentation => initial_assessment
    | initial_assessment => information_gathering
    | information_gathering => test_selection
    | test_selection => deliberation
    | deliberation =>
        if JsNumber.gtb confidenceLevel 0.6 then final_diagnosis else information_gathering
    | _ => final_diagnosis
    end.

Definition lengthQ {A} (xs : list A) : Q := inject_Z (Z.of_nat (length xs)).

Definition assessReasoningQuality (state : State) : Q :=
  let contributionScore := Qmin (lengthQ (agentTurns state) / 10) 1 in
  let diversityScore := Qmin (lengthQ (differentialDiagnoses state) / 5) 1 in
  let biasScore := Qmin (lengthQ (biasesDetected state) / 3) 1 in
  let costScore := if JsNumber.gtb (cumulativeCost state) 0 then 0.3 else 0 in
  let qualityScore :=
    0 + contributionScore * 0.3 + diversityScore * 0.2 + biasScore * 0.2 + costScore in
  Qmin qualityScore 1.

(** [synthesizeDebateResults].  [reply] is the outcome of the call of the
    checklist agent; its value is discarded by the source. *)
Definition synthesizeDebateResults (cfg : DebateConfiguration) (state : State)
    (reply : Outcome AgentTurn) : Outcome Update :=
  if negb (hasAgent cfg checklist)
  then Thrown "Checklist agent not available for synthesis"
  else
    match reply with
    | Thrown message => Thrown message
    | Returned _ =>
        let finalDiagnosis :=
          match differentialDiagnoses state with
          | top :: _ => Some top
          | [] => None
          end in
        let confidenceLevel :=
          match finalDiagnosis with
          | Some top => probability top / 100
          | None => 0
          end in
        let nextPhase := determineNextPhase cfg state confidenceLevel in
        Returned
          (mkUpdate
             (Some (messages state ++
                    [AIMessage
                       ("Debate synthesis completed. Confidence: "
                        ++ JsNumber.toFixed1 (confidenceLevel * 100) ++ "%")%string])%list)
             None None None None None None
             (Some nextPhase)
             None None None None None None None None
             (Some confidenceLevel)
             (Some (JsNumber.geb confidenceLevel (confidenceThreshold cfg)))
             (Some finalDiagnosis)
             None
             (Some (assessReasoningQuality state)))
    end.

End Debate.


(* ================================================================== *)
(** ** States and engines used as instances                            *)
(* ================================================================== *)

Module Fixtures.

Import Bayes.

(** Three conditions whose priors sum above one, and an evidence that
    the table does not know. *)
Definition crowded : Engine :=
  after (initializeDiagnosis "myocardial_infarction" 0.6 None ;;;
         initializeDiagnosis "pneumonia" 0.6 None ;;;
         initializeDiagnosis "gastroenteritis" 0.001 None) newEngine.

Definition fatigue : DiagnosticEvidence :=
  mkEvidence symptom "fatigue" (VBoolean true) 1.0 0.

(** The fixture of the engine tests, with a condition that the table
    does not mention. *)
Definition ward : Engine :=
  after (initializeDiagnosis "myocardial_infarction" 0.02 None ;;;
         initializeDiagnosis "pneumonia" 0.05 None ;;;
         initializeDiagnosis "gastroenteritis" 0.15 None ;;;
         initializeDiagnosis "migraine" 0.1 None) newEngine.

Definition fever : DiagnosticEvidence :=
  mkEvidence symptom "fever" (VBoolean true) 1.0 0.

Definition troponin (kind : EvidenceType) (observedAt : Z) : DiagnosticEvidence :=
  mkEvidence kind "troponin_elevated" (VBoolean true) 0.95 observedAt.

End Fixtures.

Module CaseFixtures.

Import Workflow Debate.

Definition someCase : CaseInformation :=
  mkCaseInformation "CASE_1700000000000" (mkDemographics 55 "male" None)
    "crushing chest pain" (Some "Pain started two hours ago")
    (Some []) (Some ["aspirin"]) (Some ["none"]) (Some ["father: infarction"])
    (Some "") None None.

Definition someQuestion : PatientQuestion :=
  mkQuestion "q_1_0" hypothesis cat_symptoms "When did the pain begin?" high 0.

(** A state in the deliberation phase, after one debate round, with no
    contribution and no diagnosis on the list. *)
Definition deliberating (pending : list PatientQuestion) (awaiting : bool)
    (cost budget confidence : Q) (ready : bool) (round : Z) : State :=
  mkState [] [] someCase [] [] cost budget deliberation 1 []
    pending awaiting [] [] round [] confidence ready None [] 0.

(** A state as the graph starts it, with the presentation of the case
    as its only message. *)
Definition presented : State :=
  mkState [mkMessage Human (Text "55-year-old male with crushing chest pain")] []
    (mkCaseInformation "" (mkDemographics 0 "" None) "" None None None None None None
       None None)
    [] [] 0 1000 case_presentation 0 [] [] false [] [] 0 [] 0 false None [] 0.

(** The list of the integration fixture, in the order in which a round
    that raises pneumonia above the infarction would leave it. *)
Definition afterRound : list DiagnosisHypothesis :=
  updateDifferentialDiagnoses
    [mkHypothesis "myocardial infarction" 70 ["chest pain"; "elevated troponin"]
       "Classic presentation with biomarker elevation" None;
     mkHypothesis "pneumonia" 15 ["age"] "Less likely given presentation" None]
    [mkHypothesis "pneumonia" 85 ["infiltrate"] "Infiltrate on the radiograph" None].

Definition debated : State :=
  mkState [] afterRound someCase [] [] 75 1000 deliberation 1 []
    [] false [] [] 0 [] 0.6 false None [] 0.8.

Definition silentTurn : AgentTurn :=
  mkAgentTurn checklist "Quality assessment completed" [] None None None None None.

End CaseFixtures.



(* ================================================================== *)
(** ** Sequences of calls on one engine                                *)
(* ================================================================== *)

Module Characters.

(** No character of the string satisfies the test. *)
Fixpoint free (test : ascii -> bool) (s : string) : bool :=
  match s with
  | EmptyString => true
  | String c r => negb (test c) && free test r
  end.

End Characters.

Module EngineUse.

Import Bayes.

(** A call of a public method of the class. *)
Inductive Call :=
| CallInitialize (condition : string) (priorProbability : Q) (icd10Code : option string)
| CallUpdate (evidence : DiagnosticEvidence)
| CallRanked
| CallGet (condition : string)
| CallGain (potentialEvidence : PotentialEvidence) (now : bool -> Z)
| CallReset.

Section Calls.

Variable log2 : Q -> Q.

Definition perform (call : Call) : Eng unit :=
  match call with
  | CallInitialize condition priorProbability icd10Code =>
      initializeDiagnosis condition priorProbability icd10Code
  | CallUpdate evidence => updateWithEvidence evidence ;;; ret tt
  | CallRanked => getRankedDiagnoses ;;; ret tt
  | CallGet condition => getDiagnosis condition ;;; ret tt
  | CallGain potentialEvidence now =>
      calculateInformationGain log2 potentialEvidence now ;;; ret tt
  | CallReset => reset
  end.

Fixpoint performAll (calls : list Call) : Eng unit :=
  match calls with
  | [] => ret tt
  | call :: rest => perform call ;;; performAll rest
  end.

End Calls.

(** The precondition of [initializeDiagnosis]: a prior strictly between
    0 and 1. *)
Definition properCall (call : Call) : Prop :=
  match call with
  | CallInitialize _ priorProbability _ => 0 < priorProbability /\ priorProbability < 1
  | _ => True
  end.

Definition properCallb (call : Call) : bool :=
  match call with
  | CallInitialize _ priorProbability _ =>
      JsNumber.ltb 0 priorProbability && JsNumber.ltb priorProbability 1
  | _ => true
  end.

(** The product of the adjusted ratios of a log of evidence for a
    condition. *)
Definition ratioProduct (this : Engine) (condition : string)
    (log : list DiagnosticEvidence) : Q :=
  fold_left (fun product evidence => product * adjustedRatio this condition evidence) log 1.

(** The invariants of an engine that the public methods keep. *)
Definition wellKeyed (this : Engine) : Prop :=
  evidenceBase this = evidenceBase newEngine /\
  NoDup (JsMap.keys (diagnoses this)) /\
  Forall (fun entry : string * BayesianDiagnosis => condition (snd entry) = fst entry)
    (diagnoses this).

Definition inRange (this : Engine) : Prop :=
  Forall (fun entry : string * BayesianDiagnosis =>
            let d := snd entry in
            (0 < priorProbability d /\ priorProbability d < 1) /\
            (0 < posteriorProbability d /\ posteriorProbability d < 1) /\
            (evidence d = [] -> posteriorProbability d = priorProbability d))
    (diagnoses this).

Definition accounted (this : Engine) : Prop :=
  Forall (fun entry : string * BayesianDiagnosis =>
            likelihood (snd entry)
            == ratioProduct this (fst entry) (evidence (snd entry)))
    (diagnoses this).

(** A call within the documented ranges: a prior strictly between 0 and
    1, a confidence between 0 and 1. *)
Definition admissibleCall (call : Call) : Prop :=
  match call with
  | CallInitialize _ priorProbability _ => 0 < priorProbability /\ priorProbability < 1
  | CallUpdate evidence => 0 <= confidence evidence /\ confidence evidence <= 1
  | _ => True
  end.

Definition admissibleCallb (call : Call) : bool :=
  match call with
  | CallInitialize _ priorProbability _ =>
      JsNumber.ltb 0 priorProbability && JsNumber.ltb priorProbability 1
  | CallUpdate evidence =>
      JsNumber.geb (confidence evidence) 0 && JsNumber.geb 1 (confidence evidence)
  | _ => true
  end.

(** A fixture: the session of the engine test on accumulated evidence. *)
Definition session : list Call :=
  [CallInitialize "myocardial_infarction" 0.02 (Some "I21.9");
   CallInitialize "pneumonia" 0.05 None;
   CallUpdate (mkEvidence symptom "chest_pain_crushing" (VBoolean true) 1.0 0);
   CallRanked;
   CallUpdate (mkEvidence symptom "diaphoresis" (VBoolean true) 1.0 1);
   CallGet "pneumonia"].

End EngineUse.


(* ================================================================== *)
(** ** The question agent: scoring and selection                       *)
(* ================================================================== *)

(** The methods of [PatientQuestionAgent] that the two revisions of the
    class share word for word: [parseQuestions],
    [generateDefaultQuestions], [prioritizeQuestions],
    [calculateQuestionScore] and [generateQuestions]. *)
Module Questions.

Import Workflow Debate.

(** A question of the reply of the model, read with the types that
    [PatientQuestion] declares for the three keys the code copies. *)
Record ParsedQuestion := mkParsedQuestion {
  pq_category : QuestionCategory;
  pq_question : string;
  pq_priority : Priority
}.

(** The model at the question prompt: the call throws, the reply does
    not parse or has no array [questions], or it holds questions. *)
Inductive QuestionReply :=
| InvokeFailed (message : string)
| NoQuestions
| Asked (questions : list ParsedQuestion).

(** The readings of [Date.now()] and of [new Date()] when the question
    with the given suffix of its identifier is built. *)
Record Clock := mkClock {
  dateNow : string -> Z;
  newDate : string -> Z
}.

Definition questionId (clock : Clock) (suffix : string) : string :=
  ("q_" ++ JsNumber.string_of_Z (dateNow clock suffix) ++ "_" ++ suffix)%string.

Definition calculateQuestionScore (question : PatientQuestion) (state : State) : Q :=
  let score := 0 in
  let score :=
    match priority question with
    | high => score + 3
    | medium => score + 2
    | low => score + 1
    end in
  let score :=
    match currentPhase state with
    | initial_assessment =>
        match category question with
        | cat_symptoms | cat_history => score + 2
        | _ => score
        end
    | information_gathering =>
        match category question with
        | cat_family | cat_social => score + 2
        | _ => score
        end
    | patient_interaction => score + 1
    | _ => score
    end in
  match differentialDiagnoses state with
  | topDiagnosis :: _ =>
      if JsNumber.gtb (probability topDiagnosis) 60 then score + 2 else score
  | [] => score
  end.

Definition prioritizeQuestions (questions : list PatientQuestion) (state : State)
    : list PatientQuestion :=
  let scoredQuestions :=
    map (fun q => (q, calculateQuestionScore q state)) questions in
  map fst (firstn 5 (JsArray.sortDesc snd scoredQuestions)).

(** [!text?.includes(word)] *)
Definition lacks (text : option string) (word : string) : bool :=
  match text with
  | Some t => negb (JsString.includes t word)
  | None => true
  end.

(** [!xs?.length] *)
Definition noLength {A} (xs : option (list A)) : bool :=
  match xs with
  | Some l => negb (nonEmpty l)
  | None => true
  end.

Definition generateDefaultQuestions (state : State) (clock : Clock)
    : list PatientQuestion :=
  let info := availableCaseInfo state in
  let questions := [] in
  let questions :=
    if lacks (historyOfPresentIllness info) "started"
       && lacks (historyOfPresentIllness info) "began"
    then (questions ++
          [mkQuestion (questionId clock "timeline") hypothesis cat_symptoms
             "When did your symptoms first begin, and how have they changed over time?"
             high (newDate clock "timeline")])%list
    else questions in
  let questions :=
    if JsString.includes (JsString.toLowerCase (chiefComplaint info)) "pain"
    then (questions ++
          [mkQuestion (questionId clock "pain") hypothesis cat_symptoms
             "On a scale of 1-10, how would you rate your pain, and what makes it better or worse?"
             high (newDate clock "pain")])%list
    else questions in
  if noLength (medications info)
  then (questions ++
        [mkQuestion (questionId clock "meds") hypothesis cat_medications
           "Are you currently taking any medications, including over-the-counter drugs or supplements?"
           medium (newDate clock "meds")])%list
  else questions.

(** [parsed.questions.map((q, index) => ...)] *)
Fixpoint questionsFrom (index : Z) (parsed : list ParsedQuestion) (clock : Clock)
    : list PatientQuestion :=
  match parsed with
  | [] => []
  | q :: rest =>
      let suffix := JsNumber.string_of_Z index in
      mkQuestion (questionId clock suffix) hypothesis (pq_category q) (pq_question q)
        (pq_priority q) (newDate clock suffix)
      :: questionsFrom (index + 1) rest clock
  end.

Definition parseQuestions (reply : QuestionReply) (state : State) (clock : Clock)
    : list PatientQuestion :=
  match reply with
  | Asked parsed => questionsFrom 0 parsed clock
  | _ => generateDefaultQuestions state clock
  end.

Definition generateQuestions (state : State) (reply : QuestionReply) (clock : Clock)
    : Outcome (list PatientQuestion) :=
  match reply with
  | InvokeFailed message => Thrown message
  | _ => Returned (prioritizeQuestions (parseQuestions reply state clock) state)
  end.

End Questions.


(* ================================================================== *)
(** ** The nodes and the edges of the graph                            *)
(* ================================================================== *)

Module Graph.

Import Workflow Debate.

Definition newline : string := String (ascii_of_nat 10) EmptyString.

(** [xs.join(sep)] *)
Fixpoint join (sep : string) (xs : list string) : string :=
  match xs with
  | [] => ""
  | [x] => x
  | x :: rest => (x ++ sep ++ join sep rest)%string
  end.

(** [questions.map((q, i) => `${i + 1}. ${q.question}`)] *)
Fixpoint numbered (i : Z) (questions : list PatientQuestion) : list string :=
  match questions with
  | [] => []
  | q :: rest =>
      (JsNumber.string_of_Z (i + 1) ++ ". " ++ question q)%string :: numbered (i + 1) rest
  end.

Definition questionList (questions : list PatientQuestion) : string :=
  join newline (numbered 0 questions).

Section Nodes.

(** [patientQuestionAgent.shouldGenerateQuestions] *)
Variable shouldGenerateQuestions : State -> bool.

(** The node [patientInteraction] of the revised graph.  [generated] is
    the outcome of [patientQuestionAgent.generateQuestions], consulted
    only where the node calls it. *)
Definition patientInteraction (state : State) (generated : Outcome (list PatientQuestion))
    : Outcome Update :=
  if nonEmpty (pendingQuestions state) then
    Returned
      (mkUpdate
         (Some (messages state ++
                [AIMessage
                   ("Please answer the following questions to help with your diagnosis:"
                    ++ newline ++ newline ++ questionList (pendingQuestions state))%string])%list)
         None None None None None None None None None
         None (Some true) None None None None None None None None None)
  else if shouldGenerateQuestions state then
    match generated with
    | Thrown message => Thrown message
    | Returned questions =>
        if nonEmpty questions then
          let roundNumber := (interactionRound state + 1)%Z in
          Returned
            (mkUpdate
               (Some (messages state ++
                      [AIMessage
                         ("**Patient Interview - Round " ++ JsNumber.string_of_Z roundNumber
                          ++ "**" ++ newline ++ newline
                          ++ "I need some additional information to help with your diagnosis. Please answer the following questions:"
                          ++ newline ++ newline ++ questionList questions)%string])%list)
               None None None None None None
               (Some patient_interaction)
               None None
               (Some questions) (Some true)
               (Some (questionHistory state ++ questions)%list)
               None
               (Some roundNumber)
               None None None None None None)
        else Returned noUpdate
    end
  else Returned noUpdate.

(** The edges that [createMedicalGraph] declares in the revised graph:
    the node that follows a node in a state, [None] after [__end__].
    The graph is entered at [initialize_case]. *)
Definition createMedicalGraph (node : Node) (state : State) : option Node :=
  match node with
  | node_initialize_case => Some (routeAfterInitialization state)
  | node_medical_debate => Some (routeWorkflow shouldGenerateQuestions state)
  | node_patient_interaction => Some (routePatientInteraction state)
  | node_process_user_response =>
      Some (routeAfterUserResponse shouldGenerateQuestions state)
  | node_diagnostic_tools => Some node_medical_debate
  | node_final_assessment => Some node_end
  | node_end => None
  end.

(** The nodes that a run of the graph can enter, whatever the states. *)
Inductive reachable : Node -> Prop :=
| reach_entry : reachable node_initialize_case
| reach_edge (node next : Node) (state : State) :
    reachable node -> createMedicalGraph node state = Some next -> reachable next.

End Nodes.

(** The graph of medical_graph.ts, before the revision. *)
Module Original.

Section Nodes.

Variable shouldGenerateQuestions : State -> bool.

Definition routeWorkflow (state : State) : Node :=
  if awaitingUserInput state then node_patient_interaction
  else if readyForDiagnosis state || phase_eqb (currentPhase state) final_diagnosis
  then node_final_assessment
  else if JsNumber.geb (cumulativeCost state) (costBudget state) then node_final_assessment
  else if (5 <=? debateRound state)%Z then node_final_assessment
  else if shouldGenerateQuestions state then node_patient_interaction
  else if testsWereRequested state then node_diagnostic_tools
  else node_medical_debate.

Definition createMedicalGraph (node : Node) (state : State) : option Node :=
  match node with
  | node_initialize_case => Some node_medical_debate
  | node_medical_debate => Some (routeWorkflow state)
  | node_patient_interaction => Some (routePatientInteraction state)
  | node_process_user_response => Some node_medical_debate
  | node_diagnostic_tools => Some node_medical_debate
  | node_final_assessment => Some node_end
  | node_end => None
  end.

End Nodes.

End Original.

End Graph.


(* ================================================================== *)
(** ** The rounds of the debate                                        *)
(* ================================================================== *)

Module DebateRounds.

Import Workflow Debate.

Definition getDebateSequence (phase : DiagnosticPhase) : list PhysicianRole :=
  match phase with
  | case_presentation | initial_assessment => [hypothesis; challenger; checklist]
  | information_gathering => [hypothesis; test_chooser; stewardship; challenger]
  | test_selection => [test_chooser; stewardship; challenger; checklist]
  | deliberation => [hypothesis; challenger; stewardship; checklist]
  | final_diagnosis => [hypothesis; checklist; stewardship]
  | _ => [hypothesis; test_chooser; challenger; stewardship; checklist]
  end.

(** [Object.assign(state, updates)]: every key of [updates] overwrites
    the field of the state. *)
Definition assign (state : State) (updates : Update) : State :=
  let put {A} (current : A) (update : option A) :=
    match update with Some x => x | None => current end in
  mkState
    (put (messages state) (u_messages updates))
    (put (differentialDiagnoses state) (u_differentialDiagnoses updates))
    (put (availableCaseInfo state) (u_availableCaseInfo updates))
    (put (revealedInformation state) (u_revealedInformation updates))
    (put (diagnosticTests state) (u_diagnosticTests updates))
    (put (cumulativeCost state) (u_cumulativeCost updates))
    (put (costBudget state) (u_costBudget updates))
    (put (currentPhase state) (u_currentPhase updates))
    (put (debateRound state) (u_debateRound updates))
    (put (agentTurns state) (u_agentTurns updates))
    (put (pendingQuestions state) (u_pendingQuestions updates))
    (put (awaitingUserInput state) (u_awaitingUserInput updates))
    (put (questionHistory state) (u_questionHistory updates))
    (put (userResponses state) (u_userResponses updates))
    (put (interactionRound state) (u_interactionRound updates))
    (put (requiredInformationGathered state) (u_requiredInformationGathered updates))
    (put (confidenceLevel state) (u_confidenceLevel updates))
    (put (readyForDiagnosis state) (u_readyForDiagnosis updates))
    (put (finalDiagnosis state) (u_finalDiagnosis updates))
    (put (biasesDetected state) (u_biasesDetected updates))
    (put (reasoningQuality state) (u_reasoningQuality updates)).

(** [Object.assign(updates, more)] on two partial states. *)
Definition assignUpdate (updates more : Update) : Update :=
  let put {A} (current update : option A) :=
    match update with Some _ => update | None => current end in
  mkUpdate
    (put (u_messages updates) (u_messages more))
    (put (u_differentialDiagnoses updates) (u_differentialDiagnoses more))
    (put (u_availableCaseInfo updates) (u_availableCaseInfo more))
    (put (u_revealedInformation updates) (u_revealedInformation more))
    (put (u_diagnosticTests updates) (u_diagnosticTests more))
    (put (u_cumulativeCost updates) (u_cumulativeCost more))
    (put (u_costBudget updates) (u_costBudget more))
    (put (u_currentPhase updates) (u_currentPhase more))
    (put (u_debateRound updates) (u_debateRound more))
    (put (u_agentTurns updates) (u_agentTurns more))
    (put (u_pendingQuestions updates) (u_pendingQuestions more))
    (put (u_awaitingUserInput updates) (u_awaitingUserInput more))
    (put (u_questionHistory updates) (u_questionHistory more))
    (put (u_userResponses updates) (u_userResponses more))
    (put (u_interactionRound updates) (u_interactionRound more))
    (put (u_requiredInformationGathered updates) (u_requiredInformationGathered more))
    (put (u_confidenceLevel updates) (u_confidenceLevel more))
    (put (u_readyForDiagnosis updates) (u_readyForDiagnosis more))
    (put (u_finalDiagnosis updates) (u_finalDiagnosis more))
    (put (u_biasesDetected updates) (u_biasesDetected more))
    (put (u_reasoningQuality updates) (u_reasoningQuality more)).

(** What the loop of [executeDebateRound] accumulates. *)
Record Round := mkRound {
  roundTurns : list AgentTurn;
  updatedDiagnoses : list DiagnosisHypothesis;
  roundCost : Q;
  roundBiases : list string
}.

Section Debate.

Variable cfg : DebateConfiguration.

(** [agent.generateResponse(state, context, config)] in a round of the
    debate: the context is built from the state, the role, the round
    and the turns of the round so far. *)
Variable respond : PhysicianRole -> State -> Z -> list AgentTurn -> Outcome AgentTurn.

(** The call of the checklist agent in [synthesizeDebateResults]. *)
Variable synthesis : State -> Outcome AgentTurn.

(** The body of [for (const role of sequence)]. *)
Fixpoint debateLoop (state : State) (round : Z) (sequence : list PhysicianRole)
    (acc : Round) : Outcome Round :=
  match sequence with
  | [] => Returned acc
  | role :: rest =>
      if negb (hasAgent cfg role) then debateLoop state round rest acc
      else
        match respond role state round (roundTurns acc) with
        | Thrown message => Thrown message
        | Returned agentTurn =>
            debateLoop state round rest
              (mkRound
                 (roundTurns acc ++ [agentTurn])%list
                 (match diagnosisUpdates agentTurn with
                  | Some updates =>
                      updateDifferentialDiagnoses (updatedDiagnoses acc) updates
                  | None => updatedDiagnoses acc
                  end)
                 (match costAnalysis agentTurn with
                  | Some analysis => roundCost acc + estimatedCost analysis
                  | None => roundCost acc
                  end)
                 (match biasesIdentified agentTurn with
                  | Some biases => (roundBiases acc ++ biases)%list
                  | None => roundBiases acc
                  end))
        end
  end.

Definition executeDebateRound (state : State) (sequence : list PhysicianRole) (round : Z)
    : Outcome Update :=
  match debateLoop state round sequence
          (mkRound [] (differentialDiagnoses state) 0 []) with
  | Thrown message => Thrown message
  | Returned acc =>
      Returned
        (mkUpdate
           (Some (messages state ++
                  [AIMessage
                     ("Debate Round " ++ JsNumber.string_of_Z (round + 1)
                      ++ " completed with "
                      ++ JsNumber.string_of_Z (Z.of_nat (length (roundTurns acc)))
                      ++ " agent contributions.")%string])%list)
           (Some (updatedDiagnoses acc))
           None None None
           (Some (cumulativeCost state + roundCost acc))
           None None
           (Some (round + 1)%Z)
           (Some (agentTurns state ++ roundTurns acc)%list)
           None None None None None None None None None
           (Some (biasesDetected state ++ roundBiases acc)%list)
           None)
  end.

(** [for (let round = 0; round < maxRounds; round++)], with [remaining]
    turns still to run from [round] on. *)
Fixpoint debateRounds (remaining : nat) (round : Z) (state : State) (updates : Update)
    (sequence : list PhysicianRole) : Outcome (State * Update) :=
  match remaining with
  | O => Returned (state, updates)
  | S n =>
      match executeDebateRound state sequence round with
      | Thrown message => Thrown message
      | Returned roundUpdates =>
          let state := assign state roundUpdates in
          let updates := assignUpdate updates roundUpdates in
          if shouldTerminateDebate cfg state then Returned (state, updates)
          else debateRounds n (round + 1) state updates sequence
      end
  end.

Definition orchestrateDebate (state : State) : Outcome Update :=
  let updates := noUpdate in
  let sequence := getDebateSequence (currentPhase state) in
  match debateRounds (Z.to_nat (maxRounds cfg)) 0 state updates sequence with
  | Thrown message => Thrown message
  | Returned (state, updates) =>
      match synthesizeDebateResults cfg state (synthesis state) with
      | Thrown message => Thrown message
      | Returned finalUpdates => Returned (assignUpdate updates finalUpdates)
      end
  end.

End Debate.

End DebateRounds.

(** Instances for the statements on the graph and the debate. *)
Module FlowFixtures.

Import Workflow Debate Questions.

Definition clockZero : Clock := mkClock (fun _ => 0%Z) (fun _ => 0%Z).

Definition sixQuestions : list PatientQuestion :=
  [mkQuestion "a" hypothesis cat_social "Do you smoke?" low 0;
   mkQuestion "b" hypothesis cat_symptoms "Where is the pain?" high 0;
   mkQuestion "c" hypothesis cat_family "Any heart disease in the family?" medium 0;
   mkQuestion "d" hypothesis cat_history "Any earlier episode?" high 0;
   mkQuestion "e" hypothesis cat_allergies "Any allergy?" low 0;
   mkQuestion "f" hypothesis cat_medications "Any medication?" medium 0].

Definition angina : DiagnosisHypothesis :=
  mkHypothesis "angina" 55 ["chest pain"] "exertional" None.

Definition reflux : DiagnosisHypothesis :=
  mkHypothesis "reflux" 30 ["burning"] "after meals" None.

End FlowFixtures.


(* ================================================================== *)
(** ** The analysis that the hypothesis agent prepares                 *)
(* ================================================================== *)

Module JsFormat.

Definition pow10 (digits : nat) : Z := (10 ^ Z.of_nat digits)%Z.

Fixpoint zeros (n : nat) : string :=
  match n with
  | O => ""
  | S k => ("0" ++ zeros k)%string
  end.

(** [x.toFixed(digits)] for a number below 1e21: the closest number
    with [digits] fractional digits, the larger one on a tie, the sign
    first. *)
Definition toFixed (digits : nat) (x : Q) : string :=
  let n := Qfloor (Qabs x * inject_Z (pow10 digits) + (1 # 2)) in
  let sign := if JsNumber.ltb x 0 then "-" else "" in
  match digits with
  | O => (sign ++ JsNumber.string_of_Z n)%string
  | _ =>
      let fraction := JsNumber.string_of_Z (n mod pow10 digits) in
      (sign ++ JsNumber.string_of_Z (n / pow10 digits) ++ "."
       ++ zeros (digits - String.length fraction) ++ fraction)%string
  end.

(** [s.replace(/_/g, ' ')] *)
Fixpoint spaced (s : string) : string :=
  match s with
  | EmptyString => EmptyString
  | String c r => String (if Ascii.eqb c "_" then " "%char else c) (spaced r)
  end.

End JsFormat.

(** [PhysicianAgent.prepareBayesianAnalysis], a method over the engine
    that the agent holds in its field [bayesianEngine]. *)
Module Analysis.

Import Bayes.

(** [condition.toLowerCase().replace(/\s+/g, '_')] *)
Definition conditionKey (condition : string) : string :=
  JsString.replaceSpaceRuns false (JsString.toLowerCase condition).

(** The first loop: the priors of the differential list, or three
    common conditions when the list is empty. *)
Definition initializePriors (state : Workflow.State) : Eng unit :=
  if Workflow.nonEmpty (Workflow.differentialDiagnoses state) then
    forEach (Workflow.differentialDiagnoses state) (fun diagnosis =>
      let priorProbability := Workflow.probability diagnosis / 100 in
      initializeDiagnosis (conditionKey (Workflow.condition diagnosis))
        priorProbability None) ;;;
    ret tt
  else
    initializeDiagnosis "myocardial_infarction" 0.02 None ;;;
    initializeDiagnosis "pneumonia" 0.05 None ;;;
    initializeDiagnosis "gastroenteritis" 0.15 None.

(** [evidence.push({ type, name, value: true, confidence, timestamp:
    new Date() })]; [now i] is the reading of the clock when [i] pieces
    are on the list. *)
Definition push (now : nat -> Z) (evidence : list DiagnosticEvidence)
    (kind : EvidenceType) (name : string) (confidence : Q) : list DiagnosticEvidence :=
  (evidence ++ [mkEvidence kind name (VBoolean true) confidence (now (length evidence))])%list.

(** The evidence that the method reads from the case. *)
Definition collectEvidence (state : Workflow.State) (now : nat -> Z)
    : list DiagnosticEvidence :=
  let info := Workflow.availableCaseInfo state in
  let evidence := [] in
  let chiefComplaint := JsString.toLowerCase (Workflow.chiefComplaint info) in
  let history :=
    match Workflow.historyOfPresentIllness info with
    | Some h => JsString.toLowerCase h
    | None => ""
    end in
  let mentions word :=
    JsString.includes chiefComplaint word || JsString.includes history word in
  let evidence :=
    if mentions "chest pain" then
      if mentions "crushing"
      then push now evidence symptom "chest_pain_crushing" 0.9
      else evidence
    else evidence in
  let evidence :=
    if mentions "fever" then push now evidence symptom "fever" 0.9 else evidence in
  let evidence :=
    if mentions "nausea" then push now evidence symptom "nausea" 0.8 else evidence in
  let evidence :=
    if mentions "cough" then push now evidence symptom "cough" 0.9 else evidence in
  let evidence :=
    if mentions "shortness of breath"
    then push now evidence symptom "shortness_of_breath" 0.9
    else evidence in
  let evidence :=
    fold_left
      (fun evidence testResult =>
         if JsString.includes (JsString.toLowerCase (Workflow.testName testResult)) "troponin"
            && JsString.includes (Workflow.result testResult) "elevated"
         then push now evidence test_result "troponin_elevated" 0.95
         else evidence)
      (Workflow.diagnosticTests state) evidence in
  if JsNumber.geb (Workflow.age (Workflow.demographics info)) 65
  then push now evidence demographic "age_over_65" 1.0
  else evidence.

Definition potentialTests : list PotentialEvidence :=
  [mkPotential test_result "troponin_elevated" (VBoolean true) 0.95;
   mkPotential test_result "chest_xray_infiltrate" (VBoolean true) 0.9;
   mkPotential symptom "diaphoresis" (VBoolean true) 0.8].

Definition newline : string := String (ascii_of_nat 10) EmptyString.

Section Method.

Variable log2 : Q -> Q.

(** [gainNow name outcome] is the reading of the clock inside
    [calculateInformationGain] for the test [name]. *)
Definition prepareBayesianAnalysis (state : Workflow.State) (now : nat -> Z)
    (gainNow : string -> bool -> Z) : Eng string :=
  reset ;;;
  initializePriors state ;;;
  let evidence := collectEvidence state now in
  forEach evidence updateWithEvidence ;;;
  rankedDiagnoses <- getRankedDiagnoses ;;
  let analysis :=
    ("FORMAL BAYESIAN PROBABILITY ANALYSIS:" ++ newline ++ newline)%string in
  let analysis := (analysis ++ "Updated Diagnosis Probabilities:" ++ newline)%string in
  let analysis :=
    fold_left
      (fun analysis diagnosis =>
         let percentage := JsNumber.toFixed1 (posteriorProbability diagnosis * 100) in
         (analysis ++ "- " ++ JsFormat.spaced (condition diagnosis) ++ ": "
          ++ percentage ++ "%" ++ newline)%string)
      rankedDiagnoses analysis in
  let analysis := (analysis ++ newline ++ "Evidence Applied:" ++ newline)%string in
  let analysis :=
    fold_left
      (fun analysis ev =>
         (analysis ++ "- " ++ JsFormat.spaced (name ev) ++ ": "
          ++ stringOfValue (value ev) ++ " (confidence: "
          ++ JsFormat.toFixed 0 (confidence ev * 100) ++ "%)" ++ newline)%string)
      evidence analysis in
  let analysis :=
    (analysis ++ newline ++ "Information Gain Analysis for Potential Tests:"
     ++ newline)%string in
  forAccum potentialTests analysis (fun analysis test =>
    infoGain <- calculateInformationGain log2 test (gainNow (p_name test)) ;;
    ret (analysis ++ "- " ++ JsFormat.spaced (p_name test) ++ ": "
         ++ JsFormat.toFixed 3 infoGain ++ " bits" ++ newline)%string).

End Method.




End Analysis.


(* ================================================================== *)
(** ** The simplified graph (medical_graph_simplified)                 *)
(* ================================================================== *)

Module Simplified.

Import Workflow Debate Graph.

Inductive Step :=
  step_initialize_case | step_generate_questions | step_process_response
| step_medical_analysis | step_final_diagnosis | step_end.

(** [typeof state.messages[0]?.content === 'string' ? ... : "Patient case"] *)
Definition firstMessageText (state : State) : string :=
  match messages state with
  | firstMessage :: _ =>
      match content firstMessage with
      | Text s => s
      | Parts _ => "Patient case"
      end
  | [] => "Patient case"
  end.

Definition initializeCase (state : State) (now : Z) : Update :=
  let caseText := firstMessageText state in
  let caseInfo :=
    mkCaseInformation (caseId now) (mkDemographics 0 "unknown" None)
      (substring 0 200 caseText) (Some caseText)
      (Some []) (Some []) (Some []) (Some []) (Some "") None None in
  mkUpdate
    (Some (messages state ++
           [AIMessage
              "I've received your case information. Let me begin the diagnostic process and ask you some follow-up questions."])%list)
    None (Some caseInfo) None None None (Some 1000) (Some initial_assessment)
    None None (Some []) (Some false) None None (Some 0%Z) None (Some 0.2) (Some false)
    None None None.

(** [{ currentPhase: 'deliberation', awaitingUserInput: false }] *)
Definition proceedToAnalysis : Update :=
  mkUpdate None None None None None None None (Some deliberation) None None
    None (Some false) None None None None None None None None None.

Section Nodes.

Variable shouldGenerateQuestions : State -> bool.

(** The node [generatePatientQuestions]; an error of
    [generateQuestions] is caught inside. *)
Definition generatePatientQuestions (state : State)
    (generated : Outcome (list PatientQuestion)) : Update :=
  if negb (shouldGenerateQuestions state) then proceedToAnalysis
  else
    match generated with
    | Returned questions =>
        if nonEmpty questions then
          let roundNumber := (interactionRound state + 1)%Z in
          mkUpdate
            (Some (messages state ++
                   [AIMessage
                      ("**Patient Interview - Round " ++ JsNumber.string_of_Z roundNumber
                       ++ "**" ++ newline ++ newline
                       ++ "I need some additional information to help with your diagnosis:"
                       ++ newline ++ newline ++ questionList questions
                       ++ newline ++ newline ++ "Please provide your responses.")%string])%list)
            None None None None None None
            (Some patient_interaction)
            None None
            (Some questions) (Some true)
            (Some (questionHistory state ++ questions)%list)
            None
            (Some roundNumber)
            None None None None None None
        else proceedToAnalysis
    | Thrown _ => proceedToAnalysis
    end.

End Nodes.

(** [`${text}`] on an optional string. *)
Definition interpolated (text : option string) : string :=
  match text with Some s => s | None => "undefined" end.

Definition processPatientResponse (state : State) : Update :=
  let userResponse := lastMessageText state in
  let info := availableCaseInfo state in
  let updatedCaseInfo :=
    mkCaseInformation (patientId info) (demographics info) (chiefComplaint info)
      (Some (interpolated (historyOfPresentIllness info) ++ newline ++ newline
             ++ "Patient Response Round " ++ JsNumber.string_of_Z (interactionRound state)
             ++ ": " ++ userResponse)%string)
      (pastMedicalHistory info) (medications info) (allergies info) (familyHistory info)
      (socialHistory info) (reviewOfSystems info) (physicalExam info) in
  mkUpdate
    (Some (messages state ++
           [AIMessage
              "Thank you for the additional information. Let me analyze this with the medical team."])%list)
    None (Some updatedCaseInfo) None None None None (Some information_gathering)
    None None (Some []) (Some false) None None None
    (Some (requiredInformationGathered state ++
           [("round_" ++ JsNumber.string_of_Z (interactionRound state) ++ "_response")%string])%list)
    None None None None None.

Definition routeFromInitialization (_state : State) : Step := step_generate_questions.

Definition routeFromQuestions (state : State) : Step :=
  if awaitingUserInput state && nonEmpty (pendingQuestions state) then step_end
  else step_medical_analysis.

Definition routeFromResponse (state : State) : Step :=
  if phase_eqb (currentPhase state) information_gathering then step_generate_questions
  else step_medical_analysis.

Definition routeFromAnalysis (state : State) : Step :=
  if phase_eqb (currentPhase state) final_diagnosis || readyForDiagnosis state
  then step_final_diagnosis
  else if phase_eqb (currentPhase state) information_gathering then step_generate_questions
  else step_final_diagnosis.

(** The edges that [createSimplifiedMedicalGraph] declares. *)
Definition createSimplifiedMedicalGraph (step : Step) (state : State) : option Step :=
  match step with
  | step_initialize_case => Some (routeFromInitialization state)
  | step_generate_questions => Some (routeFromQuestions state)
  | step_process_response => Some (routeFromResponse state)
  | step_medical_analysis => Some (routeFromAnalysis state)
  | step_final_diagnosis => Some step_end
  | step_end => None
  end.

End Simplified.


(* ================================================================== *)
(** ** Facts about numbers and about the engine                        *)
(* ================================================================== *)

Module NumberFacts.

Lemma gtb_true (a b : Q) : JsNumber.gtb a b = true <-> b < a.
Proof.
  unfold JsNumber.gtb. rewrite negb_true_iff.
  split; intros H.
  - apply Qnot_le_lt. intros L. apply Qle_bool_iff in L. congruence.
  - destruct (Qle_bool a b) eqn:E; [| reflexivity].
    apply Qle_bool_iff in E. lra.
Qed.

Lemma gtb_false (a b : Q) : JsNumber.gtb a b = false <-> a <= b.
Proof.
  unfold JsNumber.gtb. rewrite negb_false_iff. apply Qle_bool_iff.
Qed.

Lemma ltb_true (a b : Q) : JsNumber.ltb a b = true <-> a < b.
Proof. apply gtb_true. Qed.

Lemma ltb_false (a b : Q) : JsNumber.ltb a b = false <-> b <= a.
Proof. apply gtb_false. Qed.

Lemma geb_true (a b : Q) : JsNumber.geb a b = true <-> b <= a.
Proof. apply Qle_bool_iff. Qed.

Lemma geb_false (a b : Q) : JsNumber.geb a b = false <-> a < b.
Proof.
  unfold JsNumber.geb. split; intros H.
  - apply Qnot_le_lt. intros L. apply Qle_bool_iff in L. congruence.
  - destruct (Qle_bool b a) eqn:E; [| reflexivity].
    apply Qle_bool_iff in E. lra.
Qed.

End NumberFacts.

Module BayesFacts.

Import Bayes NumberFacts.


Lemma probabilistic_test (this : Engine) : probabilisticb this = true -> probabilistic this.
Proof.
  unfold probabilisticb, probabilistic. intros H.
  apply Forall_forall. intros entry Hin.
  rewrite forallb_forall in H. specialize (H entry Hin).
  apply andb_true_iff in H. destruct H as [H0 H1].
  apply geb_true in H0. apply ltb_true in H1. split; assumption.
Qed.

Lemma get_In {V} (m : JsMap.t V) (k : string) (v : V) :
  JsMap.get m k = Some v -> In (k, v) m.
Proof.
  induction m as [| [k0 v0] r IH]; simpl; [discriminate |].
  destruct (String.eqb_spec k0 k) as [-> | N].
  - intros [= ->]. left. reflexivity.
  - intros H. right. apply IH, H.
Qed.

Lemma probabilistic_get (this : Engine) (c : string) (d : BayesianDiagnosis) :
  probabilistic this -> JsMap.get (diagnoses this) c = Some d ->
  0 <= posteriorProbability d /\ posteriorProbability d < 1.
Proof.
  intros H Hd. unfold probabilistic in H. rewrite Forall_forall in H.
  apply (H (c, d)), get_In, Hd.
Qed.

Lemma tableWithin_spec low high table c row k lr :
  tableWithin low high table = true ->
  JsMap.get table c = Some row -> JsMap.get row k = Some lr ->
  low <= lr <= high.
Proof.
  intros H Hrow Hcell. unfold tableWithin in H.
  rewrite forallb_forall in H. specialize (H _ (get_In _ _ _ Hrow)).
  cbn [snd] in H. rewrite forallb_forall in H. specialize (H _ (get_In _ _ _ Hcell)).
  cbn [snd] in H. apply andb_true_iff in H. destruct H as [H1 H2].
  apply geb_true in H1. apply geb_true in H2. split; assumption.
Qed.

Lemma newEngine_table_within : tableWithin 0.05 20 (evidenceBase newEngine) = true.
Proof. vm_compute. reflexivity. Qed.

(** The ratios that an engine with the table of the constructor finds. *)
Lemma baseRatio_within this c ev lr :
  evidenceBase this = evidenceBase newEngine ->
  baseRatio this c ev = Some lr -> 0.05 <= lr <= 20.
Proof.
  intros Ht E. unfold baseRatio in E. rewrite Ht in E.
  destruct (JsMap.get (evidenceBase newEngine) c) as [row |] eqn:Er; [| discriminate].
  exact (tableWithin_spec _ _ _ _ _ _ _ newEngine_table_within Er E).
Qed.

(** *** The clamp *)

Lemma clamp_bounds (x : Q) : 0.001 <= clamp x <= 0.999.
Proof.
  unfold clamp.
  destruct (Q.min_spec (Qmax x 0.001) 0.999) as [[L E] | [L E]];
    destruct (Q.max_spec x 0.001) as [[L' E'] | [L' E']];
    rewrite E; try rewrite E' in *; lra.
Qed.

Lemma clamp_inside (x : Q) : 0.001 <= x <= 0.999 -> clamp x == x.
Proof.
  intros [Hl Hu]. unfold clamp.
  destruct (Q.min_spec (Qmax x 0.001) 0.999) as [[L E] | [L E]];
    destruct (Q.max_spec x 0.001) as [[L' E'] | [L' E']];
    rewrite E; try rewrite E' in *; lra.
Qed.

Lemma clamp_above (x p : Q) : p < x -> p < 0.999 -> p < clamp x.
Proof.
  intros Hx Hp. unfold clamp.
  destruct (Q.min_spec (Qmax x 0.001) 0.999) as [[L E] | [L E]];
    destruct (Q.max_spec x 0.001) as [[L' E'] | [L' E']];
    rewrite E; try rewrite E' in *; lra.
Qed.

Lemma clamp_below (x p : Q) : x < p -> 0.001 < p -> clamp x < p.
Proof.
  intros Hx Hp. unfold clamp.
  destruct (Q.min_spec (Qmax x 0.001) 0.999) as [[L E] | [L E]];
    destruct (Q.max_spec x 0.001) as [[L' E'] | [L' E']];
    rewrite E; try rewrite E' in *; lra.
Qed.

#[global] Instance clamp_proper : Proper (Qeq ==> Qeq) clamp.
Proof.
  intros x y E. unfold clamp. rewrite E. reflexivity.
Qed.

(** *** The rule of Bayes in odds form *)

Lemma bayes_closed_form (lr p : Q) :
  ~ p == 1 -> ~ 1 - p + lr * p == 0 ->
  bayes lr p == lr * p / (1 - p + lr * p).
Proof.
  intros Hp Hd. unfold bayes. field. split; [lra |].
  intros E. apply Hd. lra.
Qed.

Lemma bayes_neutral (lr p : Q) : lr == 1 -> ~ p == 1 -> bayes lr p == p.
Proof.
  intros Hlr Hp. rewrite bayes_closed_form; [| assumption | rewrite Hlr; lra].
  rewrite Hlr. field. lra.
Qed.

Lemma bayes_increases (lr p : Q) : 1 < lr -> 0 < p -> p < 1 -> p < bayes lr p.
Proof.
  intros Hlr H0 H1.
  assert (Hd : 0 < 1 - p + lr * p) by nra.
  rewrite bayes_closed_form; [| lra | lra].
  apply Qlt_shift_div_l; [assumption |].
  assert (Hk : 0 < (lr - 1) * (1 - p)) by nra.
  assert (Hm : 0 < p * ((lr - 1) * (1 - p))) by nra.
  lra.
Qed.

Lemma bayes_decreases (lr p : Q) : 0 <= lr -> lr < 1 -> 0 < p -> p < 1 -> bayes lr p < p.
Proof.
  intros Hlr0 Hlr H0 H1.
  assert (Hd : 0 < 1 - p + lr * p) by nra.
  rewrite bayes_closed_form; [| lra | lra].
  apply Qlt_shift_div_r; [assumption |].
  assert (Hk : 0 < (1 - lr) * (1 - p)) by nra.
  assert (Hm : 0 < p * ((1 - lr) * (1 - p))) by nra.
  lra.
Qed.

(** *** Methods that only read *)

Lemma run_readOnly {A} (m : Eng A) (this : Engine) :
  readOnly m -> m this = (result m this, this).
Proof.
  intros H. specialize (H this). unfold after, result in *.
  destruct (m this) as [a e]. simpl in *. congruence.
Qed.

Lemma readOnly_ret {A} (a : A) : readOnly (ret a).
Proof. intros this. reflexivity. Qed.

Lemma readOnly_gets {A} (f : Engine -> A) : readOnly (gets f).
Proof. intros this. reflexivity. Qed.

Lemma readOnly_bind {A B} (m : Eng A) (k : A -> Eng B) :
  readOnly m -> (forall a, readOnly (k a)) -> readOnly (bind m k).
Proof.
  intros Hm Hk this. unfold after, bind.
  rewrite (run_readOnly m this Hm). apply Hk.
Qed.

Lemma readOnly_forEach {A B} (xs : list A) (body : A -> Eng B) :
  (forall x, readOnly (body x)) -> readOnly (forEach xs body).
Proof.
  intros Hb. induction xs as [| x r IH]; simpl.
  - apply readOnly_ret.
  - apply readOnly_bind; [apply Hb |]. intros y.
    apply readOnly_bind; [apply IH |]. intros ys. apply readOnly_ret.
Qed.

Lemma readOnly_forAccum {A B} (xs : list A) (body : B -> A -> Eng B) :
  (forall acc x, readOnly (body acc x)) -> forall acc, readOnly (forAccum xs acc body).
Proof.
  intros Hb. induction xs as [| x r IH]; intros acc; simpl.
  - apply readOnly_ret.
  - apply readOnly_bind; [apply Hb |]. intros acc'. apply IH.
Qed.

Lemma readOnly_calculateLikelihoodRatio c ev : readOnly (calculateLikelihoodRatio c ev).
Proof.
  unfold calculateLikelihoodRatio.
  apply readOnly_bind; [apply readOnly_gets |].
  intros [table |]; [| apply readOnly_ret].
  destruct (JsMap.get table (generateEvidenceKey ev)); apply readOnly_ret.
Qed.

Lemma forEach_readOnly {A B} (xs : list A) (body : A -> Eng B) (this : Engine) :
  (forall x, readOnly (body x)) ->
  forEach xs body this = (map (fun x => result (body x) this) xs, this).
Proof.
  intros Hb. induction xs as [| x r IH]; simpl.
  - reflexivity.
  - unfold bind at 1. rewrite (run_readOnly (body x) this (Hb x)).
    unfold bind at 1. rewrite IH. reflexivity.
Qed.

(** *** The adjusted ratio *)

Lemma adjustedRatio_spec this c ev :
  adjustedRatio this c ev =
  match baseRatio this c ev with
  | Some lr => 1 + (lr - 1) * confidence ev
  | None => 1.0
  end.
Proof.
  unfold adjustedRatio, result, calculateLikelihoodRatio, baseRatio, bind, gets. simpl.
  destruct (JsMap.get (evidenceBase this) c) as [table |]; [| reflexivity].
  destruct (JsMap.get table (generateEvidenceKey ev)); reflexivity.
Qed.

(** *** One call of [updateWithEvidence], without the monad *)

Lemma modifyAt_middle {A} (f : A -> A) (pre : list A) (x : A) (r : list A) :
  JsArray.modifyAt (pre ++ x :: r) (length pre) f = (pre ++ f x :: r)%list.
Proof.
  induction pre as [| y pre IH]; simpl; [reflexivity | rewrite IH; reflexivity].
Qed.

Lemma with_diagnoses_same (this : Engine) : with_diagnoses this (diagnoses this) = this.
Proof. destruct this. reflexivity. Qed.

(** The turn for the entry at a position finds the record of that entry
    in the store, and leaves it updated at the same position. *)
Lemma updateEntry_run ev pre entry r this :
  diagnoses this = (pre ++ entry :: r)%list ->
  updateEntry ev (length pre) entry this =
  (updateOfTurn this ev entry,
   with_diagnoses this (pre ++ entryAfterTurn this ev entry :: r)%list).
Proof.
  intros H. unfold updateEntry, bind at 1.
  rewrite (run_readOnly _ this (readOnly_calculateLikelihoodRatio (fst entry) ev)).
  fold (adjustedRatio this (fst entry) ev).
  unfold bind, readRecord, writeRecord, gets, modify, with_diagnoses. simpl.
  rewrite H, nth_middle, !modifyAt_middle, nth_middle.
  reflexivity.
Qed.

(** The turn of an entry depends on the engine through the table
    only. *)
Lemma adjustedRatio_store this ds c ev :
  adjustedRatio (with_diagnoses this ds) c ev = adjustedRatio this c ev.
Proof. rewrite !adjustedRatio_spec. reflexivity. Qed.

Lemma updateOfTurn_store this ds ev entry :
  updateOfTurn (with_diagnoses this ds) ev entry = updateOfTurn this ev entry.
Proof. unfold updateOfTurn. rewrite adjustedRatio_store. reflexivity. Qed.

Lemma entryAfterTurn_store this ds ev entry :
  entryAfterTurn (with_diagnoses this ds) ev entry = entryAfterTurn this ev entry.
Proof. unfold entryAfterTurn. rewrite adjustedRatio_store. reflexivity. Qed.

Lemma loop_run ev xs : forall pre this,
  diagnoses this = (pre ++ xs)%list ->
  forEachFrom (length pre) xs (updateEntry ev) this =
  (map (updateOfTurn this ev) xs,
   with_diagnoses this (pre ++ map (entryAfterTurn this ev) xs)%list).
Proof.
  induction xs as [| x r IH]; intros pre this H; simpl.
  - rewrite <- H, with_diagnoses_same. reflexivity.
  - unfold bind at 1. rewrite (updateEntry_run ev pre x r this H).
    unfold bind at 1.
    assert (Hl : S (length pre) = length (pre ++ [entryAfterTurn this ev x])%list)
      by (rewrite length_app; simpl; lia).
    rewrite Hl, IH.
    + unfold ret. simpl.
      rewrite (map_ext _ _ (updateOfTurn_store this _ ev)),
        (map_ext _ _ (entryAfterTurn_store this _ ev)).
      rewrite <- app_assoc. reflexivity.
    + simpl. rewrite <- app_assoc. reflexivity.
Qed.

Lemma normalizeProbabilities_after this :
  after normalizeProbabilities this =
  if JsNumber.gtb (totalProbability (diagnoses this)) 1.0
  then with_diagnoses this
         (map (fun entry : string * BayesianDiagnosis =>
                 (fst entry,
                  with_posterior (snd entry)
                    (posteriorProbability (snd entry)
                     * (0.95 / totalProbability (diagnoses this)))))
              (diagnoses this))
  else this.
Proof.
  unfold after, normalizeProbabilities, bind, gets. simpl.
  destruct (JsNumber.gtb (totalProbability (diagnoses this)) 1.0); reflexivity.
Qed.

Lemma updateWithEvidence_run ev this :
  updateWithEvidence ev this =
  (map (updateOfTurn this ev) (diagnoses this),
   after normalizeProbabilities
     (with_diagnoses this (map (entryAfterTurn this ev) (diagnoses this)))).
Proof.
  pose proof (loop_run ev (diagnoses this) [] this eq_refl) as Hloop.
  simpl in Hloop.
  unfold updateWithEvidence, bind at 1, gets, JsMap.entries. unfold bind at 1.
  rewrite Hloop. unfold bind at 1, after.
  destruct (normalizeProbabilities _) as [[] this']. reflexivity.
Qed.

(** *** The store before and after the loop *)

Lemma get_map_entries {V W} (g : string -> V -> W) (m : JsMap.t V) (c : string) :
  JsMap.get (map (fun e : string * V => (fst e, g (fst e) (snd e))) m) c =
  option_map (g c) (JsMap.get m c).
Proof.
  induction m as [| [k v] r IH]; simpl; [reflexivity |].
  destruct (String.eqb_spec k c) as [-> | N]; [reflexivity | apply IH].
Qed.

Lemma fold_left_plus_map {A} (f : A -> Q) (l : list A) (a : Q) :
  fold_left (fun sum x => sum + f x) l a = fold_left Qplus (map f l) a.
Proof.
  revert a. induction l as [| x r IH]; intros a; simpl; [reflexivity | apply IH].
Qed.

Lemma totalProbability_map {A} (f : A -> string * BayesianDiagnosis) (l : list A) :
  totalProbability (map f l) =
  fold_left Qplus (map (fun x => posteriorProbability (snd (f x))) l) 0.
Proof.
  unfold totalProbability, JsMap.values.
  rewrite fold_left_plus_map, !map_map. reflexivity.
Qed.

Lemma sumNew_map {A} (f : A -> BayesianUpdate) (l : list A) :
  sumNew (map f l) = fold_left Qplus (map (fun x => newProbability (f x)) l) 0.
Proof.
  unfold sumNew. rewrite fold_left_plus_map, map_map. reflexivity.
Qed.

(** What the loop leaves in the store sums to what the returned records
    report. *)
Lemma total_after_loop ev this :
  totalProbability (map (entryAfterTurn this ev) (diagnoses this))
  = sumNew (result (updateWithEvidence ev) this).
Proof.
  unfold result. rewrite updateWithEvidence_run. simpl.
  rewrite totalProbability_map, sumNew_map. reflexivity.
Qed.

Lemma updates_of_call ev this :
  result (updateWithEvidence ev) this =
  map (fun entry : string * BayesianDiagnosis =>
         let lr := adjustedRatio this (fst entry) ev in
         mkUpdate (fst entry) (posteriorProbability (snd entry))
           (clamp (bayes lr (posteriorProbability (snd entry)))) ev lr)
      (diagnoses this).
Proof.
  unfold result. rewrite updateWithEvidence_run. reflexivity.
Qed.

(** The store that a call leaves: every record went through its turn of
    the loop, and then through the scaling when the sum of the clamped
    posteriors exceeds one. *)
Lemma store_of_call ev this :
  diagnoses (after (updateWithEvidence ev) this) =
  let total := sumNew (result (updateWithEvidence ev) this) in
  map (fun entry : string * BayesianDiagnosis =>
         (fst entry,
          (fun c d =>
             let lr := adjustedRatio this c ev in
             let q := clamp (bayes lr (posteriorProbability d)) in
             mkDiagnosis (condition d) (priorProbability d)
               (if JsNumber.gtb total 1.0 then q * (0.95 / total) else q)
               (likelihood d * lr) (evidence d ++ [ev]) (icd10Code d))
            (fst entry) (snd entry)))
      (diagnoses this).
Proof.
  unfold after at 1. rewrite updateWithEvidence_run. unfold snd at 1.
  rewrite normalizeProbabilities_after. simpl diagnoses.
  rewrite total_after_loop. cbv zeta.
  destruct (JsNumber.gtb _ 1.0).
  - simpl. rewrite map_map. apply map_ext. intros [c d]. reflexivity.
  - simpl. apply map_ext. intros [c d]. reflexivity.
Qed.

Lemma stored_after_call ev this c :
  JsMap.get (diagnoses (after (updateWithEvidence ev) this)) c =
  let total := sumNew (result (updateWithEvidence ev) this) in
  option_map
    (fun d =>
       let lr := adjustedRatio this c ev in
       let q := clamp (bayes lr (posteriorProbability d)) in
       mkDiagnosis (condition d) (priorProbability d)
         (if JsNumber.gtb total 1.0 then q * (0.95 / total) else q)
         (likelihood d * lr) (evidence d ++ [ev]) (icd10Code d))
    (JsMap.get (diagnoses this) c).
Proof.
  rewrite store_of_call. cbv zeta.
  apply (get_map_entries
           (fun c d =>
              mkDiagnosis (condition d) (priorProbability d)
                (if JsNumber.gtb (sumNew (result (updateWithEvidence ev) this)) 1.0
                 then clamp (bayes (adjustedRatio this c ev) (posteriorProbability d))
                      * (0.95 / sumNew (result (updateWithEvidence ev) this))
                 else clamp (bayes (adjustedRatio this c ev) (posteriorProbability d)))
                (likelihood d * adjustedRatio this c ev) (evidence d ++ [ev])
                (icd10Code d))).
Qed.

(** Scaling by [0.95 / total] with [total > 1] shrinks a positive
    number and keeps it positive. *)
Lemma scaling_shrinks (q total : Q) :
  0 < q -> 1 < total -> 0 < q * (0.95 / total) /\ q * (0.95 / total) < q.
Proof.
  intros Hq Ht.
  assert (Hf : 0 < 0.95 / total) by (apply Qlt_shift_div_l; lra).
  assert (Hg : 0.95 / total < 1) by (apply Qlt_shift_div_r; lra).
  split; nra.
Qed.

End BayesFacts.

(* ================================================================== *)
(** ** Properties of the engine                                        *)
(* ================================================================== *)

Module BayesProperties.

Import Bayes NumberFacts BayesFacts Fixtures.


(** C1, as the code has it.  The engine has the table of the
    constructor and posteriors in [0, 1), the evidence a confidence in
    [0, 1]: the inputs on which the arithmetic of the code stays finite.
    After [updateWithEvidence] returns, every returned record reports a
    probability in [0.001, 0.999]; the posterior stored for a tracked
    condition is positive and at most 0.999; it is at least 0.001 when
    the reported probabilities sum to at most 0.999, so that the
    normalization step does not scale, whatever the rounding of the
    sum. *)
Theorem posterior_bounds_after_update ev this c d' :
  evidenceBase this = evidenceBase newEngine ->
  probabilistic this ->
  0 <= confidence ev <= 1 ->
  JsMap.get (diagnoses (after (updateWithEvidence ev) this)) c = Some d' ->
  let updates := result (updateWithEvidence ev) this in
  Forall (fun u => 0.001 <= newProbability u <= 0.999) updates /\
  0 < posteriorProbability d' <= 0.999 /\
  (sumNew updates <= 0.999 -> 0.001 <= posteriorProbability d' <= 0.999).
Proof.
  intros _ _ _ Hget. cbv zeta. split.
  - rewrite updates_of_call. apply Forall_forall. intros u Hu.
    apply in_map_iff in Hu. destruct Hu as [entry [<- _]]. simpl.
    apply clamp_bounds.
  - rewrite stored_after_call in Hget. cbv zeta in Hget.
    destruct (JsMap.get (diagnoses this) c) as [d |]; [| discriminate].
    simpl in Hget. injection Hget as <-. simpl.
    pose proof (clamp_bounds (bayes (adjustedRatio this c ev) (posteriorProbability d)))
      as [Hl Hu].
    destruct (JsNumber.gtb _ 1.0) eqn:G.
    + apply gtb_true in G.
      assert (G1 : 1 < sumNew (result (updateWithEvidence ev) this)) by lra.
      assert (Hq : 0 < clamp (bayes (adjustedRatio this c ev) (posteriorProbability d)))
        by lra.
      destruct (scaling_shrinks _ _ Hq G1) as [Hp Hs].
      split; [lra |]. intros Hidle. lra.
    + split; [lra |]. intros _. lra.
Qed.

Lemma posterior_bounds_after_update_witness :
  evidenceBase ward = evidenceBase newEngine /\
  probabilistic ward /\
  0 <= confidence fever <= 1 /\
  sumNew (result (updateWithEvidence fever) ward) <= 0.999 /\
  exists d',
    JsMap.get (diagnoses (after (updateWithEvidence fever) ward)) "pneumonia" = Some d' /\
    0.001 <= posteriorProbability d' <= 0.999.
Proof.
  assert (Ht : evidenceBase ward = evidenceBase newEngine) by (vm_compute; reflexivity).
  assert (Hp : probabilistic ward) by (apply probabilistic_test; vm_compute; reflexivity).
  assert (Hc : 0 <= confidence fever <= 1) by (vm_compute; split; discriminate).
  assert (Hidle : sumNew (result (updateWithEvidence fever) ward) <= 0.999)
    by (vm_compute; discriminate).
  split; [exact Ht |]. split; [exact Hp |]. split; [exact Hc |]. split; [exact Hidle |].
  destruct (JsMap.get (diagnoses (after (updateWithEvidence fever) ward)) "pneumonia")
    as [d' |] eqn:Hd'; [| exfalso; vm_compute in Hd'; discriminate Hd'].
  exists d'. split; [reflexivity |].
  exact (proj2 (proj2 (posterior_bounds_after_update fever ward "pneumonia" d'
                         Ht Hp Hc Hd')) Hidle).
Defined.

(** C1 as stated fails: with priors 0.6, 0.6 and 0.001 and an evidence
    that leaves every odds as it was, the clamped posteriors sum to
    1.201, the normalization scales them by 0.95 / 1.201, and the
    posterior stored for the third condition is below 0.001. *)
Lemma posterior_below_bound_after_normalization :
  exists d',
    JsMap.get (diagnoses (after (updateWithEvidence fatigue) crowded)) "gastroenteritis"
      = Some d' /\
    posteriorProbability d' < 0.001.
Proof.
  eexists. split.
  - vm_compute. reflexivity.
  - vm_compute. reflexivity.
Qed.

(** C5.  An engine that holds only myocardial_infarction with prior
    0.02 and receives troponin_elevated = true with confidence 0.95:
    the base ratio is 20, the adjusted ratio 1 + 19 * 0.95 = 19.05, and
    the posterior, returned and stored, is 381/1361, between 0.2799 and
    0.28. *)
Theorem troponin_case (kind : EvidenceType) (observedAt : Z) (code : option string) :
  let this :=
    after (initializeDiagnosis "myocardial_infarction" 0.02 code) newEngine in
  let ev := troponin kind observedAt in
  JsMap.keys (diagnoses this) = ["myocardial_infarction"] /\
  baseRatio this "myocardial_infarction" ev = Some 20.0 /\
  exists u p',
    result (updateWithEvidence ev) this = [u] /\
    storedPosterior (after (updateWithEvidence ev) this) "myocardial_infarction"
      = Some p' /\
    likelihoodRatio u == 1 + 19 * 0.95 /\
    likelihoodRatio u == 19.05 /\
    newProbability u == 381 # 1361 /\
    p' == 381 # 1361 /\
    0.2799 < p' /\ p' < 0.28.
Proof.
  cbv zeta. split; [reflexivity |]. split; [reflexivity |].
  eexists. eexists. split; [vm_compute; reflexivity |].
  split; [vm_compute; reflexivity |].
  repeat split; vm_compute; reflexivity.
Qed.

(** C6, as the code has it.  The engine has the table of the
    constructor and posteriors in [0, 1), the evidence a confidence in
    [0, 1]: the inputs on which the arithmetic of the code stays finite.
    For a tracked condition with posterior [p] before the call and [p']
    stored after it, and with "idle" for a call whose reported
    probabilities sum to at most 0.999, so that the normalization does
    not scale: a base ratio above one with a confidence of at least
    0.001 gives [p < p'] when [p] is positive and below 0.999 by the
    rounding margin and the call is idle; a base ratio below one with a
    confidence of at least 0.001 gives [p' < p] when [p] is above 0.001
    by the rounding margin; an evidence that the table does not know, or
    a confidence of zero, leaves [p'] within the rounding margin of [p]
    when [0.001 <= p <= 0.999] and the call is idle.  The margins keep
    the rounding of the doubles from turning a comparison. *)
Theorem evidence_moves_posterior ev this c d d' :
  evidenceBase this = evidenceBase newEngine ->
  probabilistic this ->
  0 <= confidence ev <= 1 ->
  JsMap.get (diagnoses this) c = Some d ->
  JsMap.get (diagnoses (after (updateWithEvidence ev) this)) c = Some d' ->
  let p := posteriorProbability d in
  let p' := posteriorProbability d' in
  let idle := sumNew (result (updateWithEvidence ev) this) <= 0.999 in
  (forall lr, baseRatio this c ev = Some lr ->
     1 < lr -> 0.001 <= confidence ev ->
     0 < p -> p + roundingMargin <= 0.999 -> idle -> p < p') /\
  (forall lr, baseRatio this c ev = Some lr ->
     lr < 1 -> 0.001 <= confidence ev ->
     0.001 + roundingMargin <= p -> p' < p) /\
  (baseRatio this c ev = None \/ confidence ev == 0 ->
   0.001 <= p <= 0.999 -> idle ->
   p - roundingMargin <= p' <= p + roundingMargin).
Proof.
  intros Htable Hprob [Hc0 Hc1] Hd Hd'. cbv zeta.
  destruct (probabilistic_get this c d Hprob Hd) as [Hp0 Hp1].
  pose proof (baseRatio_within this c ev) as Hwithin.
  rewrite stored_after_call, Hd in Hd'. cbv zeta in Hd'. simpl in Hd'.
  injection Hd' as <-. simpl.
  rewrite adjustedRatio_spec.
  set (total := sumNew (result (updateWithEvidence ev) this)).
  set (p := posteriorProbability d) in *.
  unfold roundingMargin.
  split; [| split].
  - intros lr E Hlr Hc H0 H1 Hidle. rewrite E.
    assert (Hg : JsNumber.gtb total 1.0 = false) by (apply gtb_false; lra).
    rewrite Hg.
    apply clamp_above; [| lra].
    apply bayes_increases; [nra | assumption | lra].
  - intros lr E Hlr1 Hc H0.
    destruct (Hwithin lr Htable E) as [Hlr0 _]. rewrite E.
    assert (Hq : clamp (bayes (1 + (lr - 1) * confidence ev) p) < p).
    { apply clamp_below; [| lra].
      apply bayes_decreases; [nra | nra | lra | assumption]. }
    pose proof (clamp_bounds (bayes (1 + (lr - 1) * confidence ev) p)) as [Hl _].
    destruct (JsNumber.gtb total 1.0) eqn:G; [| assumption].
    apply gtb_true in G. assert (G1 : 1 < total) by lra.
    assert (Hq0 : 0 < clamp (bayes (1 + (lr - 1) * confidence ev) p)) by lra.
    destruct (scaling_shrinks _ _ Hq0 G1) as [_ Hs].
    lra.
  - intros Hneutral [H0 H1] Hidle.
    assert (Hg : JsNumber.gtb total 1.0 = false) by (apply gtb_false; lra).
    rewrite Hg.
    assert (Hp : ~ p == 1) by lra.
    assert (Hsame : clamp (bayes match baseRatio this c ev with
                                 | Some lr => 1 + (lr - 1) * confidence ev
                                 | None => 1.0
                                 end p) == p).
    { rewrite <- (clamp_inside p) at 2 by lra.
      apply clamp_proper.
      destruct Hneutral as [-> | Hc].
      - apply bayes_neutral; [reflexivity | assumption].
      - destruct (baseRatio this c ev) as [lr |].
        + apply bayes_neutral; [rewrite Hc; lra | assumption].
        + apply bayes_neutral; [reflexivity | assumption]. }
    rewrite Hsame. split; lra.
Qed.

Lemma evidence_moves_posterior_witness :
  evidenceBase ward = evidenceBase newEngine /\
  probabilistic ward /\
  0 <= confidence fever <= 1 /\
  (exists d d',
     JsMap.get (diagnoses ward) "pneumonia" = Some d /\
     JsMap.get (diagnoses (after (updateWithEvidence fever) ward)) "pneumonia" = Some d' /\
     posteriorProbability d < posteriorProbability d') /\
  (exists d d',
     JsMap.get (diagnoses ward) "myocardial_infarction" = Some d /\
     JsMap.get (diagnoses (after (updateWithEvidence fever) ward)) "myocardial_infarction"
       = Some d' /\
     posteriorProbability d' < posteriorProbability d) /\
  (exists d d',
     JsMap.get (diagnoses ward) "migraine" = Some d /\
     JsMap.get (diagnoses (after (updateWithEvidence fever) ward)) "migraine" = Some d' /\
     posteriorProbability d - roundingMargin <= posteriorProbability d'
       <= posteriorProbability d + roundingMargin).
Proof.
  assert (Ht : evidenceBase ward = evidenceBase newEngine) by (vm_compute; reflexivity).
  assert (Hpr : probabilistic ward) by (apply probabilistic_test; vm_compute; reflexivity).
  assert (Hc : 0 <= confidence fever <= 1) by (vm_compute; split; discriminate).
  assert (Hidle : sumNew (result (updateWithEvidence fever) ward) <= 0.999)
    by (vm_compute; discriminate).
  split; [exact Ht |]. split; [exact Hpr |]. split; [exact Hc |].
  split; [| split].
  - destruct (JsMap.get (diagnoses ward) "pneumonia") as [d |] eqn:Hd;
      [| vm_compute in Hd; discriminate Hd].
    destruct (JsMap.get (diagnoses (after (updateWithEvidence fever) ward)) "pneumonia")
      as [d' |] eqn:Hd'; [| vm_compute in Hd'; discriminate Hd'].
    exists d, d'. split; [reflexivity |]. split; [reflexivity |].
    assert (Hp : posteriorProbability d = 0.05)
      by (vm_compute in Hd; injection Hd as <-; reflexivity).
    apply (proj1 (evidence_moves_posterior fever ward "pneumonia" d d' Ht Hpr Hc Hd Hd')
             4.0);
      [reflexivity | reflexivity | vm_compute; discriminate
       | rewrite Hp; reflexivity | rewrite Hp; vm_compute; discriminate | exact Hidle].
  - destruct (JsMap.get (diagnoses ward) "myocardial_infarction") as [d |] eqn:Hd;
      [| vm_compute in Hd; discriminate Hd].
    destruct (JsMap.get (diagnoses (after (updateWithEvidence fever) ward))
                "myocardial_infarction")
      as [d' |] eqn:Hd'; [| vm_compute in Hd'; discriminate Hd'].
    exists d, d'. split; [reflexivity |]. split; [reflexivity |].
    assert (Hp : posteriorProbability d = 0.02)
      by (vm_compute in Hd; injection Hd as <-; reflexivity).
    apply (proj1 (proj2 (evidence_moves_posterior fever ward "myocardial_infarction"
                           d d' Ht Hpr Hc Hd Hd')) 0.3);
      [reflexivity | reflexivity | vm_compute; discriminate
       | rewrite Hp; vm_compute; discriminate].
  - destruct (JsMap.get (diagnoses ward) "migraine") as [d |] eqn:Hd;
      [| vm_compute in Hd; discriminate Hd].
    destruct (JsMap.get (diagnoses (after (updateWithEvidence fever) ward)) "migraine")
      as [d' |] eqn:Hd'; [| vm_compute in Hd'; discriminate Hd'].
    exists d, d'. split; [reflexivity |]. split; [reflexivity |].
    assert (Hp : posteriorProbability d = 0.1)
      by (vm_compute in Hd; injection Hd as <-; reflexivity).
    apply (proj2 (proj2 (evidence_moves_posterior fever ward "migraine" d d'
                           Ht Hpr Hc Hd Hd')));
      [left; reflexivity | rewrite Hp; split; discriminate | exact Hidle].
Defined.

(** C6 as stated fails in each of its three parts.  A posterior of
    0.9995 meets troponin_elevated (base ratio 20, confidence 1) and is
    stored as 0.999; a posterior of 0.5 meets diaphoresis (base ratio 3)
    next to a condition at 0.9 and is stored as 0.4318..., the
    normalization having scaled it; a posterior of 0.0005 meets fever
    (base ratio 0.3) and is stored as 0.001; the same posterior meets an
    unknown evidence and is stored as 0.001. *)
Lemma posterior_moves_against_evidence :
  (let this := after (initializeDiagnosis "myocardial_infarction" 0.9995 None) newEngine in
   let ev := mkEvidence test_result "troponin_elevated" (VBoolean true) 1.0 0 in
   baseRatio this "myocardial_infarction" ev = Some 20.0 /\
   storedPosterior this "myocardial_infarction" = Some 0.9995 /\
   exists p', storedPosterior (after (updateWithEvidence ev) this) "myocardial_infarction"
              = Some p' /\ p' < 0.9995) /\
  (let this := after (initializeDiagnosis "myocardial_infarction" 0.5 None ;;;
                      initializeDiagnosis "pneumonia" 0.9 None) newEngine in
   let ev := mkEvidence symptom "diaphoresis" (VBoolean true) 1.0 0 in
   baseRatio this "myocardial_infarction" ev = Some 3.0 /\
   storedPosterior this "myocardial_infarction" = Some 0.5 /\
   exists p', storedPosterior (after (updateWithEvidence ev) this) "myocardial_infarction"
              = Some p' /\ p' < 0.5) /\
  (let this := after (initializeDiagnosis "myocardial_infarction" 0.0005 None) newEngine in
   let ev := mkEvidence symptom "fever" (VBoolean true) 1.0 0 in
   baseRatio this "myocardial_infarction" ev = Some 0.3 /\
   storedPosterior this "myocardial_infarction" = Some 0.0005 /\
   exists p', storedPosterior (after (updateWithEvidence ev) this) "myocardial_infarction"
              = Some p' /\ 0.0005 < p') /\
  (let this := after (initializeDiagnosis "myocardial_infarction" 0.0005 None) newEngine in
   baseRatio this "myocardial_infarction" fatigue = None /\
   storedPosterior this "myocardial_infarction" = Some 0.0005 /\
   exists p', storedPosterior (after (updateWithEvidence fatigue) this)
                "myocardial_infarction" = Some p' /\ ~ p' == 0.0005).
Proof.
  cbv zeta. repeat split; try reflexivity;
    eexists; (split; [vm_compute; reflexivity |]); vm_compute;
    (reflexivity || discriminate).
Qed.

(** *** Information gain *)

Lemma readOnly_calculateEntropy log2 : readOnly (calculateEntropy log2).
Proof.
  unfold calculateEntropy.
  apply readOnly_bind; [apply readOnly_gets | intros ps; apply readOnly_ret].
Qed.

Lemma readOnly_calculateHypotheticalUpdates ev : readOnly (calculateHypotheticalUpdates ev).
Proof.
  unfold calculateHypotheticalUpdates.
  apply readOnly_bind; [apply readOnly_gets |]. intros entries.
  apply readOnly_forEach. intros [c d].
  apply readOnly_bind; [apply readOnly_calculateLikelihoodRatio |].
  intros lr. apply readOnly_ret.
Qed.

(** C9.  [calculateInformationGain] returns with the engine as it found
    it: the belief store, with every belief record, and the likelihood
    table are the same objects with the same contents. *)
Theorem information_gain_leaves_store log2 potentialEvidence now this :
  after (calculateInformationGain log2 potentialEvidence now) this = this.
Proof.
  revert this. change (readOnly (calculateInformationGain log2 potentialEvidence now)).
  unfold calculateInformationGain.
  apply readOnly_bind; [apply readOnly_calculateEntropy |]. intros currentEntropy.
  apply readOnly_bind; [| intros expected; apply readOnly_ret].
  apply readOnly_forAccum. intros expected outcome.
  apply readOnly_bind; [apply readOnly_calculateHypotheticalUpdates |].
  intros hypotheticalUpdates.
  apply readOnly_bind; [unfold calculateEntropyFromUpdates; apply readOnly_ret |].
  intros entropyAfterEvidence.
  apply readOnly_bind; [unfold calculateOutcomeProbability; apply readOnly_ret |].
  intros outcomeWeight. apply readOnly_ret.
Qed.

(** By contrast [updateWithEvidence] writes the store. *)
Lemma updateWithEvidence_writes : ~ readOnly (updateWithEvidence fever).
Proof.
  intros H. specialize (H ward). vm_compute in H. discriminate H.
Qed.

(** The hypothetical records are the records that the real update
    returns. *)
Lemma hypothetical_updates_agree ev this :
  result (calculateHypotheticalUpdates ev) this = result (updateWithEvidence ev) this.
Proof.
  rewrite updates_of_call.
  unfold result, calculateHypotheticalUpdates, bind at 1, gets.
  rewrite forEach_readOnly.
  - simpl. apply map_ext. intros [c d].
    unfold result, bind.
    rewrite (run_readOnly _ this (readOnly_calculateLikelihoodRatio c ev)).
    reflexivity.
  - intros [c d].
    apply readOnly_bind; [apply readOnly_calculateLikelihoodRatio |].
    intros lr. apply readOnly_ret.
Qed.



End BayesProperties.

(* ================================================================== *)
(** ** Single runs on binary64 numbers                                 *)
(* ================================================================== *)

Module Binary64Runs.

Import Binary64.

Local Open Scope float_scope.

(** The troponin case: the adjusted ratio and the posterior as the
    interpreter rounds them. *)
Example troponin_run :
  adjust 20.0 0.95 = 19.050000000000001 /\
  clamp (bayes (adjust 20.0 0.95) 0.02) = 0.2799412196914034.
Proof. split; vm_compute; reflexivity. Qed.

(** Absence of fever against pneumonia at 0.05. *)
Example no_fever_run : clamp (bayes (adjust 0.3 1.0) 0.05) = 0.015544041450777205.
Proof. vm_compute. reflexivity. Qed.

(** A neutral ratio gives back 0.02 exactly, as the engine test expects,
    and 0.6 up to the last digits. *)
Example neutral_run :
  clamp (bayes 1.0 0.02) = 0.02 /\
  clamp (bayes 1.0 0.6) = 0.59999999999999987.
Proof. split; vm_compute; reflexivity. Qed.

(** Priors 0.6, 0.6 and 0.001 under a neutral evidence: the third
    posterior is stored below 0.001. *)
Example crowded_run :
  normalize (map (fun p => clamp (bayes 1.0 p)) [0.6; 0.6; 0.001]) =
  [0.4746044962531224; 0.4746044962531224; 0.00079100749375520419].
Proof. vm_compute. reflexivity. Qed.

(** A posterior of exactly 1 leaves NaN in the store. *)
Example certain_run : is_nan (clamp (bayes (adjust 20.0 0.95) 1.0)) = true.
Proof. vm_compute. reflexivity. Qed.

(** A confidence far outside [0, 1] overflows the odds and leaves NaN
    in the store as well. *)
Example overflow_run : is_nan (clamp (bayes (adjust 20.0 1e305) 0.999)) = true.
Proof. vm_compute. reflexivity. Qed.

(** A confidence below the resolution of a double is lost in the
    adjustment, and the neutral ratio that results moves 0.6 by the
    rounding of the odds. *)
Example faint_run :
  adjust 20.0 1e-18 = 1 /\
  clamp (bayes (adjust 20.0 1e-18) 0.6) = 0.59999999999999987.
Proof. split; vm_compute; reflexivity. Qed.

(** The adjustment rounds: at full confidence the ratios 0.1 and 0.2 of
    the table come back an ulp below, 0.05 an ulp above, and at
    confidence 0.001 the ratio 2 comes back below 1.001. *)
Example adjust_run :
  adjust 0.1 1.0 = 0.099999999999999978 /\
  adjust 0.2 1.0 = 0.19999999999999996 /\
  adjust 0.05 1.0 = 0.050000000000000044 /\
  adjust 2.0 0.001 = 1.0009999999999999.
Proof. repeat split; vm_compute; reflexivity. Qed.

(** At the doubles of the two bounds the clamp holds the posterior where
    it is, whatever the evidence. *)
Example bound_run :
  clamp (bayes (adjust 2.0 1.0) 0.999) = 0.999 /\
  clamp (bayes (adjust 0.3 1.0) 0.001) = 0.001.
Proof. split; vm_compute; reflexivity. Qed.

(** Posteriors 0.204 and 0.796 under a neutral evidence: the rounded
    sum exceeds one, and the normalization scales. *)
Example rounded_sum_run :
  fold_left add (map (fun p => clamp (bayes 1.0 p)) [0.204; 0.796]) 0
    = 1.0000000000000002 /\
  normalize (map (fun p => clamp (bayes 1.0 p)) [0.204; 0.796])
    = map (fun p => p * (0.95 / 1.0000000000000002))
          [0.20399999999999999; 0.79600000000000015].
Proof. split; vm_compute; reflexivity. Qed.

End Binary64Runs.


(* ================================================================== *)
(** ** Properties of the chain of debate                               *)
(* ================================================================== *)

Module ArrayFacts.

Import NumberFacts.

Section Sorting.

Context {A : Type}.
Variable key : A -> Q.

Lemma insertDesc_In (x y : A) (l : list A) :
  In y (JsArray.insertDesc key x l) <-> y = x \/ In y l.
Proof.
  induction l as [| z r IH]; simpl.
  - intuition.
  - destruct (JsNumber.gtb (key z) (key x)); simpl; [rewrite IH |]; intuition.
Qed.

Lemma insertDesc_sorted (x : A) (l : list A) :
  StronglySorted (fun a b => key b <= key a) l ->
  StronglySorted (fun a b => key b <= key a) (JsArray.insertDesc key x l).
Proof.
  induction 1 as [| z r Hs IH Hz]; simpl.
  - repeat constructor.
  - destruct (JsNumber.gtb (key z) (key x)) eqn:G.
    + apply gtb_true in G. constructor; [exact IH |].
      apply Forall_forall. intros y Hy. apply insertDesc_In in Hy.
      destruct Hy as [-> | Hy]; [lra |].
      rewrite Forall_forall in Hz. apply Hz. exact Hy.
    + apply gtb_false in G. constructor.
      * constructor; assumption.
      * constructor; [exact G |].
        rewrite Forall_forall in Hz |- *. intros y Hy.
        specialize (Hz y Hy). lra.
Qed.

Lemma sortDesc_sorted (l : list A) :
  StronglySorted (fun a b => key b <= key a) (JsArray.sortDesc key l).
Proof.
  induction l as [| x r IH]; simpl; [constructor | apply insertDesc_sorted, IH].
Qed.

Lemma sortDesc_In (y : A) (l : list A) : In y (JsArray.sortDesc key l) <-> In y l.
Proof.
  induction l as [| x r IH]; simpl; [reflexivity |].
  rewrite insertDesc_In, IH. intuition.
Qed.

(** The first element of a sorted array has the largest key. *)
Lemma sortDesc_head (l : list A) (top d : A) :
  hd_error (JsArray.sortDesc key l) = Some top ->
  In d (JsArray.sortDesc key l) -> key d <= key top.
Proof.
  pose proof (sortDesc_sorted l) as Hs.
  destruct (JsArray.sortDesc key l) as [| t r]; simpl; [discriminate |].
  intros [= ->] [-> | Hd]; [lra |].
  inversion Hs as [| ? ? _ Hall]; subst.
  rewrite Forall_forall in Hall. apply Hall. exact Hd.
Qed.

End Sorting.

End ArrayFacts.


(* ================================================================== *)
(** ** Properties of the workflow                                      *)
(* ================================================================== *)

Module WorkflowProperties.

Import Workflow NumberFacts CaseFixtures.

Lemma nonEmpty_true {A} (xs : list A) : nonEmpty xs = true <-> xs <> [].
Proof. destruct xs; simpl; split; congruence. Qed.

Lemma phase_eqb_eq (a b : DiagnosticPhase) : phase_eqb a b = true <-> a = b.
Proof. destruct a, b; simpl; split; congruence. Qed.

(** The revised policy waits while questions are pending. *)
Lemma revised_policy_waits (state : State) :
  pendingQuestions state <> [] ->
  PatientQuestionAgentRevised.shouldGenerateQuestions state = false.
Proof.
  intros H. unfold PatientQuestionAgentRevised.shouldGenerateQuestions.
  apply nonEmpty_true in H. rewrite H. reflexivity.
Qed.

(** The revised policy fires below the interaction floor. *)
Lemma revised_policy_floor (state : State) :
  pendingQuestions state = [] -> (interactionRound state < 3)%Z ->
  PatientQuestionAgentRevised.shouldGenerateQuestions state = true.
Proof.
  intros H Hr. unfold PatientQuestionAgentRevised.shouldGenerateQuestions.
  rewrite H. simpl. apply Z.ltb_lt in Hr. rewrite Hr. reflexivity.
Qed.

(** The policy of patient_question_agent, as a disjunction of its four
    triggers. *)
Lemma original_policy_triggers (state : State) :
  PatientQuestionAgent.shouldGenerateQuestions state =
    JsNumber.ltb (confidenceLevel state) 0.6
    || (4 <? length (differentialDiagnoses state))%nat
    || hasInfoRequests state
    || phase_eqb (currentPhase state) information_gathering.
Proof.
  unfold PatientQuestionAgent.shouldGenerateQuestions.
  destruct (JsNumber.ltb _ _), (_ <? _)%nat, (hasInfoRequests _), (phase_eqb _ _),
    (nonEmpty (pendingQuestions state)); reflexivity.
Qed.

(** C4, as the code has it.  The revised policy never fires while
    questions are pending and always fires below three interaction
    rounds when none is pending, whatever the confidence, the diagnosis
    list and the contributions.  The policy of patient_question_agent
    does not consult the interaction round: with no question pending it
    fires exactly on a confidence below 0.6, on more than four
    diagnoses, on a request for information in the last two
    contributions, or in the information gathering phase. *)
Theorem question_policy (state : State) :
  (pendingQuestions state <> [] ->
   PatientQuestionAgentRevised.shouldGenerateQuestions state = false) /\
  (pendingQuestions state = [] -> (interactionRound state < 3)%Z ->
   PatientQuestionAgentRevised.shouldGenerateQuestions state = true) /\
  (pendingQuestions state = [] ->
   PatientQuestionAgent.shouldGenerateQuestions state =
     JsNumber.ltb (confidenceLevel state) 0.6
     || (4 <? length (differentialDiagnoses state))%nat
     || hasInfoRequests state
     || phase_eqb (currentPhase state) information_gathering).
Proof.
  split; [apply revised_policy_waits |].
  split; [apply revised_policy_floor |].
  intros _. apply original_policy_triggers.
Qed.

Lemma question_policy_witness :
  let asked := deliberating [someQuestion] false 0 1000 0.3 false 0 in
  let fresh := deliberating [] false 0 1000 0.95 false 0 in
  pendingQuestions asked <> [] /\
  PatientQuestionAgentRevised.shouldGenerateQuestions asked = false /\
  pendingQuestions fresh = [] /\ (interactionRound fresh < 3)%Z /\
  PatientQuestionAgentRevised.shouldGenerateQuestions fresh = true /\
  PatientQuestionAgent.shouldGenerateQuestions fresh = false.
Proof.
  cbv zeta.
  assert (Hp : pendingQuestions (deliberating [someQuestion] false 0 1000 0.3 false 0) <> [])
    by discriminate.
  assert (He : pendingQuestions (deliberating [] false 0 1000 0.95 false 0) = [])
    by reflexivity.
  assert (Hr : (interactionRound (deliberating [] false 0 1000 0.95 false 0) < 3)%Z)
    by reflexivity.
  split; [exact Hp |].
  split; [exact (proj1 (question_policy _) Hp) |].
  split; [exact He |]. split; [exact Hr |].
  split; [exact (proj1 (proj2 (question_policy _)) He Hr) |].
  rewrite (proj2 (proj2 (question_policy _)) He). reflexivity.
Defined.

(** C4 as stated fails.  With a question pending, no interaction round
    yet and a confidence of 0.9, neither variant of the policy fires,
    although the interaction round is below the minimum; and with a
    question pending and a confidence of 0.5 the policy of
    patient_question_agent fires. *)
Lemma question_policy_under_pending_questions :
  let s := deliberating [someQuestion] false 0 1000 0.9 false 0 in
  let s' := deliberating [someQuestion] false 0 1000 0.5 false 0 in
  pendingQuestions s <> [] /\ (interactionRound s < 3)%Z /\
  PatientQuestionAgent.shouldGenerateQuestions s = false /\
  PatientQuestionAgentRevised.shouldGenerateQuestions s = false /\
  pendingQuestions s' <> [] /\
  PatientQuestionAgent.shouldGenerateQuestions s' = true.
Proof.
  cbv zeta. repeat split; try discriminate; reflexivity.
Qed.

(** *** Routing *)

Section RoutingFacts.

Variable should : State -> bool.

(** C2, as the code has it.  With the budget exhausted the next step is
    never another debate round nor the diagnostic tools: it is
    patient_interaction when input is awaited, when the question policy
    fires, or when the state is ready for diagnosis (or in the final
    phase) below three interaction rounds with a confidence below 0.8;
    otherwise it is final_assessment. *)
Theorem budget_routing (state : State) :
  costBudget state <= cumulativeCost state ->
  routeWorkflow should state =
  if awaitingUserInput state
     || should state
     || ((readyForDiagnosis state || phase_eqb (currentPhase state) final_diagnosis)
         && ((interactionRound state <? 3)%Z && JsNumber.ltb (confidenceLevel state) 0.8))
  then node_patient_interaction
  else node_final_assessment.
Proof.
  intros H. apply geb_true in H. unfold routeWorkflow. rewrite H.
  destruct (awaitingUserInput state); [reflexivity |].
  destruct (should state); [reflexivity |].
  destruct (readyForDiagnosis state || phase_eqb (currentPhase state) final_diagnosis);
    [| reflexivity].
  simpl. destruct ((interactionRound state <? 3)%Z && _); reflexivity.
Qed.

(** Below three interaction rounds, for any question policy: the step
    is final_assessment only if no input is awaited, the policy does not
    fire, and either the state is ready (or in the final phase) with a
    confidence of at least 0.8, or it is not and the budget is
    exhausted; a state that is ready (or in the final phase) with a
    confidence below 0.8 goes to patient_interaction. *)
Lemma floor_routing_any_policy (state : State) :
  (interactionRound state < 3)%Z ->
  (routeWorkflow should state = node_final_assessment ->
   awaitingUserInput state = false /\ should state = false /\
   ((readyForDiagnosis state || phase_eqb (currentPhase state) final_diagnosis = true
     /\ 0.8 <= confidenceLevel state)
    \/ (readyForDiagnosis state || phase_eqb (currentPhase state) final_diagnosis = false
        /\ costBudget state <= cumulativeCost state))) /\
  (readyForDiagnosis state || phase_eqb (currentPhase state) final_diagnosis = true ->
   confidenceLevel state < 0.8 ->
   routeWorkflow should state = node_patient_interaction).
Proof.
  intros Hr. apply Z.ltb_lt in Hr. unfold routeWorkflow. rewrite Hr. simpl.
  split.
  - destruct (awaitingUserInput state); [discriminate |].
    destruct (should state); [discriminate |].
    destruct (readyForDiagnosis state || phase_eqb (currentPhase state) final_diagnosis).
    + destruct (JsNumber.ltb (confidenceLevel state) 0.8) eqn:C; [discriminate |].
      apply ltb_false in C. intros _. repeat split. left. split; [reflexivity | exact C].
    + destruct (JsNumber.geb _ _) eqn:B.
      * apply geb_true in B. intros _. repeat split. right. split; [reflexivity | exact B].
      * destruct (5 <=? debateRound state)%Z; [discriminate |].
        destruct ((0 <? debateRound state)%Z && _); [discriminate |].
        destruct (testsWereRequested state); discriminate.
  - intros Hready Hc. apply ltb_true in Hc. rewrite Hready, Hc.
    destruct (awaitingUserInput state); [reflexivity |].
    destruct (should state); reflexivity.
Qed.

End RoutingFacts.

Lemma budget_routing_witness :
  let s := deliberating [] false 1000 1000 0.9 false 3 in
  costBudget s <= cumulativeCost s /\
  routeWorkflow PatientQuestionAgent.shouldGenerateQuestions s = node_final_assessment /\
  routeWorkflow PatientQuestionAgentRevised.shouldGenerateQuestions s
    = node_patient_interaction.
Proof.
  cbv zeta.
  assert (H : costBudget (deliberating [] false 1000 1000 0.9 false 3)
              <= cumulativeCost (deliberating [] false 1000 1000 0.9 false 3))
    by (vm_compute; discriminate).
  split; [exact H |]. split.
  - rewrite (budget_routing PatientQuestionAgent.shouldGenerateQuestions _ H). reflexivity.
  - rewrite (budget_routing PatientQuestionAgentRevised.shouldGenerateQuestions _ H).
    reflexivity.
Defined.

(** C2 as stated fails: a state that awaits the answer of the patient
    goes to patient_interaction although its cost equals its budget,
    under either variant of the question policy. *)
Lemma exhausted_budget_while_awaiting_input :
  let s := deliberating [someQuestion] true 1000 1000 0.9 false 1 in
  cumulativeCost s == costBudget s /\
  routeWorkflow PatientQuestionAgent.shouldGenerateQuestions s = node_patient_interaction /\
  routeWorkflow PatientQuestionAgentRevised.shouldGenerateQuestions s
    = node_patient_interaction.
Proof.
  cbv zeta. repeat split; reflexivity.
Qed.

(** C3, as the code has it.  Below three interaction rounds: under the
    revised question policy a state with no pending question and no
    awaited input always goes to patient_interaction, whatever the
    confidence; under any question policy the step is final_assessment
    only if no input is awaited, the policy does not fire, and either
    the state is ready (or in the final phase) with a confidence of at
    least 0.8, or it is not and the budget is exhausted; and a state
    that is ready (or in the final phase) with a confidence below 0.8
    goes to patient_interaction. *)
Theorem floor_routing (should : State -> bool) (state : State) :
  (interactionRound state < 3)%Z ->
  (pendingQuestions state = [] ->
   routeWorkflow PatientQuestionAgentRevised.shouldGenerateQuestions state
     = node_patient_interaction) /\
  (routeWorkflow should state = node_final_assessment ->
   awaitingUserInput state = false /\ should state = false /\
   ((readyForDiagnosis state || phase_eqb (currentPhase state) final_diagnosis = true
     /\ 0.8 <= confidenceLevel state)
    \/ (readyForDiagnosis state || phase_eqb (currentPhase state) final_diagnosis = false
        /\ costBudget state <= cumulativeCost state))) /\
  (readyForDiagnosis state || phase_eqb (currentPhase state) final_diagnosis = true ->
   confidenceLevel state < 0.8 ->
   routeWorkflow should state = node_patient_interaction).
Proof.
  intros Hr. split; [| apply floor_routing_any_policy; exact Hr].
  intros Hp. unfold routeWorkflow.
  rewrite (revised_policy_floor state Hp Hr).
  destruct (awaitingUserInput state); reflexivity.
Qed.

Lemma floor_routing_witness :
  let s := deliberating [] false 0 1000 0.95 true 0 in
  let s' := deliberating [] false 0 1000 0.7 true 0 in
  (interactionRound s < 3)%Z /\ pendingQuestions s = [] /\
  routeWorkflow PatientQuestionAgentRevised.shouldGenerateQuestions s
    = node_patient_interaction /\
  (interactionRound s' < 3)%Z /\ confidenceLevel s' < 0.8 /\
  routeWorkflow PatientQuestionAgent.shouldGenerateQuestions s' = node_patient_interaction.
Proof.
  cbv zeta.
  assert (Hr : (interactionRound (deliberating [] false 0 1000 0.95 true 0) < 3)%Z)
    by reflexivity.
  assert (Hr' : (interactionRound (deliberating [] false 0 1000 0.7 true 0) < 3)%Z)
    by reflexivity.
  assert (Hc : confidenceLevel (deliberating [] false 0 1000 0.7 true 0) < 0.8)
    by reflexivity.
  split; [exact Hr |]. split; [reflexivity |].
  split.
  - exact (proj1 (floor_routing PatientQuestionAgentRevised.shouldGenerateQuestions _ Hr)
             eq_refl).
  - split; [exact Hr' |]. split; [exact Hc |].
    exact (proj2 (proj2 (floor_routing PatientQuestionAgent.shouldGenerateQuestions _ Hr'))
             eq_refl Hc).
Defined.

(** C3 as stated fails: in the deliberation phase, with no interaction
    round yet, a state that is ready for diagnosis with a confidence of
    0.9 goes to final_assessment under the policy of
    patient_question_agent; with a question pending it does so under
    the revised policy as well. *)
Lemma confident_state_skips_the_floor :
  let s := deliberating [] false 0 1000 0.9 true 0 in
  let s' := deliberating [someQuestion] false 0 1000 0.9 true 0 in
  interactionRound s = 0%Z /\ currentPhase s = deliberation /\
  routeWorkflow PatientQuestionAgent.shouldGenerateQuestions s = node_final_assessment /\
  interactionRound s' = 0%Z /\ currentPhase s' = deliberation /\
  routeWorkflow PatientQuestionAgent.shouldGenerateQuestions s' = node_final_assessment /\
  routeWorkflow PatientQuestionAgentRevised.shouldGenerateQuestions s'
    = node_final_assessment.
Proof.
  cbv zeta. repeat split; reflexivity.
Qed.

(** *** Case initialization *)

Section Reentry.

(** The reducers of the two channels that the sources do not declare. *)
Variable onRound : Z -> Z -> Z.
Variable onGathered : list string -> list string -> list string.


Lemma applyUpdate_noUpdate (state : State) :
  applyUpdate onRound onGathered state noUpdate = state.
Proof. destruct state. reflexivity. Qed.

Lemma caseId_present (now : Z) : caseId now <> "".
Proof. unfold caseId. simpl. discriminate. Qed.

Lemma truthy_present (s : string) : JsString.truthy s = true <-> s <> "".
Proof. destruct s; simpl; split; congruence. Qed.

Lemma orString_present (value : option string) (fallback : string) :
  fallback <> "" -> orString value fallback <> "".
Proof.
  intros H. unfold orString. destruct value as [s |]; [| exact H].
  destruct (JsString.truthy s) eqn:T; [| exact H]. apply truthy_present. exact T.
Qed.

Lemma extractCaseInformation_present caseText reply now :
  patientId (extractCaseInformation caseText reply now) <> "".
Proof.
  unfold extractCaseInformation.
  destruct (blank caseText); [apply caseId_present |].
  destruct reply as [| | parsed]; simpl;
    [apply caseId_present | apply caseId_present |].
  apply orString_present, caseId_present.
Qed.

(** Whatever the state, the case has an identifier once the update of
    [initializeCase] is applied. *)
Lemma initializeCase_establishes_id state reply now :
  patientId (availableCaseInfo
    (applyUpdate onRound onGathered state (initializeCase state reply now))) <> "".
Proof.
  unfold initializeCase.
  destruct (JsString.truthy (patientId (availableCaseInfo state))) eqn:T.
  - rewrite applyUpdate_noUpdate. apply truthy_present. exact T.
  - destruct (blank (lastMessageText state)); simpl.
    + apply caseId_present.
    + apply extractCaseInformation_present.
Qed.

(** The guard at the head of the node. *)
Lemma initializeCase_guard state reply now :
  patientId (availableCaseInfo state) <> "" ->
  initializeCase state reply now = noUpdate.
Proof.
  intros H. apply truthy_present in H.
  unfold initializeCase. rewrite H. reflexivity.
Qed.

(** C8.  On a state whose case identifier is present, [initializeCase]
    returns the empty update, whatever the oracle and the clock would
    answer; applying it leaves every field of the state, the messages
    among them, as it was, and so does every further call. *)
Theorem initializeCase_reentry state reply now :
  patientId (availableCaseInfo state) <> "" ->
  initializeCase state reply now = noUpdate /\
  applyUpdate onRound onGathered state (initializeCase state reply now) = state /\
  forall reply' now',
    initializeCase
      (applyUpdate onRound onGathered state (initializeCase state reply now))
      reply' now' = noUpdate.
Proof.
  intros H.
  rewrite (initializeCase_guard state reply now H), applyUpdate_noUpdate.
  repeat split. intros reply' now'. apply initializeCase_guard, H.
Qed.

(** Two calls in a row, from any state: the first one leaves a case
    identifier, the second one changes nothing. *)
Lemma initializeCase_twice state reply now reply' now' :
  let state1 :=
    applyUpdate onRound onGathered state (initializeCase state reply now) in
  initializeCase state1 reply' now' = noUpdate /\
  applyUpdate onRound onGathered state1 (initializeCase state1 reply' now') = state1.
Proof.
  cbv zeta.
  pose proof (initializeCase_establishes_id state reply now) as H.
  rewrite (initializeCase_guard _ reply' now' H), applyUpdate_noUpdate.
  split; reflexivity.
Qed.

End Reentry.

Lemma initializeCase_reentry_witness :
  let first := applyUpdate (fun _ x => x) (fun c x => (c ++ x)%list) presented
                 (initializeCase presented Unparsable 1700000000000) in
  patientId (availableCaseInfo first) = "CASE_1700000000000" /\
  currentPhase first = initial_assessment /\
  initializeCase first LlmFailed 1700000000500 = noUpdate /\
  applyUpdate (fun _ x => x) (fun c x => (c ++ x)%list) first
    (initializeCase first LlmFailed 1700000000500) = first.
Proof.
  cbv zeta. split; [reflexivity |]. split; [reflexivity |].
  assert (H : patientId (availableCaseInfo
                (applyUpdate (fun _ x => x) (fun c x => (c ++ x)%list) presented
                   (initializeCase presented Unparsable 1700000000000))) <> "")
    by (vm_compute; discriminate).
  destruct (initializeCase_reentry (fun _ x => x) (fun c x => (c ++ x)%list)
              _ LlmFailed 1700000000500 H) as [E [F _]].
  split; [exact E | exact F].
Defined.

End WorkflowProperties.

Module DebateProperties.

Import Workflow Debate NumberFacts CaseFixtures.

(** C7.  When the checklist agent takes part and its call returns, the
    synthesis returns an update in which [finalDiagnosis] is the first
    element of the differential list, undefined exactly when the list
    is empty; [confidenceLevel] is the probability of that element
    divided by 100, and 0 for the empty list, so it lies in [0, 1] when
    the probability lies in [0, 100]; [readyForDiagnosis] is true
    exactly when that confidence is at least the configured threshold.
    The first element has the largest probability whenever the list
    comes from [updateDifferentialDiagnoses]. *)
Theorem synthesis_picks_top cfg state turn :
  hasAgent cfg checklist = true ->
  exists upd confidence,
    synthesizeDebateResults cfg state (Returned turn) = Returned upd /\
    u_finalDiagnosis upd = Some (hd_error (differentialDiagnoses state)) /\
    (hd_error (differentialDiagnoses state) = None <-> differentialDiagnoses state = []) /\
    u_confidenceLevel upd = Some confidence /\
    confidence =
      match hd_error (differentialDiagnoses state) with
      | Some top => probability top / 100
      | None => 0
      end /\
    (forall top, hd_error (differentialDiagnoses state) = Some top ->
       0 <= probability top <= 100 -> 0 <= confidence <= 1) /\
    (u_readyForDiagnosis upd = Some true <-> confidenceThreshold cfg <= confidence) /\
    (u_readyForDiagnosis upd = Some false <-> confidence < confidenceThreshold cfg) /\
    (forall current updates top d,
       differentialDiagnoses state = updateDifferentialDiagnoses current updates ->
       hd_error (differentialDiagnoses state) = Some top ->
       In d (differentialDiagnoses state) ->
       probability d <= probability top).
Proof.
  intros Hagent. unfold synthesizeDebateResults. rewrite Hagent. simpl negb. cbv iota.
  eexists. eexists. split; [reflexivity |]. simpl.
  split; [destruct (differentialDiagnoses state); reflexivity |].
  split; [destruct (differentialDiagnoses state); simpl; split; congruence |].
  split; [reflexivity |].
  split; [destruct (differentialDiagnoses state); reflexivity |].
  split.
  { intros top Htop [H0 H100].
    destruct (differentialDiagnoses state) as [| t r]; [discriminate |].
    simpl in Htop. injection Htop as ->. simpl.
    split; [apply Qle_shift_div_l; lra | apply Qle_shift_div_r; lra]. }
  split.
  { split.
    - intros [= H]. apply geb_true in H. exact H.
    - intros H. apply geb_true in H. rewrite H. reflexivity. }
  split.
  { split.
    - intros [= H]. apply geb_false in H. exact H.
    - intros H. apply geb_false in H. rewrite H. reflexivity. }
  intros current updates top d E Htop Hd. rewrite E in Htop, Hd.
  unfold updateDifferentialDiagnoses in Htop, Hd.
  exact (ArrayFacts.sortDesc_head probability _ top d Htop Hd).
Qed.

Lemma synthesis_picks_top_witness :
  hasAgent defaultConfiguration checklist = true /\
  exists upd top,
    synthesizeDebateResults defaultConfiguration debated (Returned silentTurn)
      = Returned upd /\
    u_finalDiagnosis upd = Some (Some top) /\
    condition top = "pneumonia" /\
    u_readyForDiagnosis upd = Some true.
Proof.
  assert (Hagent : hasAgent defaultConfiguration checklist = true) by reflexivity.
  split; [exact Hagent |].
  destruct (synthesis_picks_top defaultConfiguration debated silentTurn Hagent)
    as [upd [confidence [Hrun [Hfinal [_ [_ [Hconf [_ [Hready _]]]]]]]]].
  exists upd. eexists. split; [exact Hrun |].
  split; [rewrite Hfinal; vm_compute; reflexivity |].
  split; [reflexivity |].
  apply Hready. rewrite Hconf. vm_compute. discriminate.
Defined.

End DebateProperties.



(* ================================================================== *)
(** ** Further properties of the engine                                *)
(* ================================================================== *)

Module MapFacts.

Section Facts.

Context {V : Type}.

Lemma get_set (m : JsMap.t V) (k k' : string) (v : V) :
  JsMap.get (JsMap.set m k v) k' = if String.eqb k k' then Some v else JsMap.get m k'.
Proof.
  induction m as [| [k0 v0] r IH]; simpl.
  - destruct (String.eqb k k'); reflexivity.
  - destruct (String.eqb_spec k0 k) as [-> | N]; simpl.
    + destruct (String.eqb k k'); reflexivity.
    + rewrite IH. destruct (String.eqb_spec k k') as [<- | N'].
      * apply String.eqb_neq in N. rewrite N. reflexivity.
      * reflexivity.
Qed.

Lemma has_In (m : JsMap.t V) (k : string) :
  JsMap.has m k = true <-> In k (JsMap.keys m).
Proof.
  unfold JsMap.has. induction m as [| [k0 v0] r IH]; simpl.
  - split; [discriminate | tauto].
  - destruct (String.eqb_spec k0 k) as [-> | N].
    + split; auto.
    + rewrite IH. split; [auto | intros [E | H]; [congruence | exact H]].
Qed.

Lemma keys_set (m : JsMap.t V) (k : string) (v : V) :
  JsMap.keys (JsMap.set m k v) =
  if JsMap.has m k then JsMap.keys m else (JsMap.keys m ++ [k])%list.
Proof.
  unfold JsMap.has, JsMap.keys. induction m as [| [k0 v0] r IH]; simpl.
  - reflexivity.
  - destruct (String.eqb_spec k0 k) as [-> | N]; simpl; [reflexivity |].
    rewrite IH. destruct (JsMap.get r k); reflexivity.
Qed.

Lemma set_NoDup (m : JsMap.t V) (k : string) (v : V) :
  NoDup (JsMap.keys m) -> NoDup (JsMap.keys (JsMap.set m k v)).
Proof.
  intros H. rewrite keys_set. destruct (JsMap.has m k) eqn:E; [exact H |].
  apply NoDup_app; [exact H | repeat constructor; intros [] |].
  intros x Hx [<- | []]. apply has_In in Hx. congruence.
Qed.

Lemma set_Forall (P : string * V -> Prop) (m : JsMap.t V) (k : string) (v : V) :
  Forall P m -> P (k, v) -> Forall P (JsMap.set m k v).
Proof.
  intros H Hk. induction m as [| [k0 v0] r IH]; simpl.
  - repeat constructor. exact Hk.
  - inversion H; subst. destruct (String.eqb_spec k0 k) as [-> | N].
    + constructor; assumption.
    + constructor; [assumption | apply IH; assumption].
Qed.

End Facts.

End MapFacts.

Module SortFacts.

Import NumberFacts.

Section Sorting.

Context {A : Type}.
Variable key : A -> Q.

Lemma insertDesc_Permutation (x : A) (l : list A) :
  Permutation (x :: l) (JsArray.insertDesc key x l).
Proof.
  induction l as [| y r IH]; simpl.
  - apply Permutation_refl.
  - destruct (JsNumber.gtb (key y) (key x)).
    + eapply perm_trans; [apply perm_swap |]. apply perm_skip, IH.
    + apply Permutation_refl.
Qed.

Lemma sortDesc_Permutation (l : list A) : Permutation l (JsArray.sortDesc key l).
Proof.
  induction l as [| x r IH]; simpl.
  - apply perm_nil.
  - eapply perm_trans; [apply perm_skip, IH | apply insertDesc_Permutation].
Qed.

(** Elements with the same key keep their order. *)
Lemma insertDesc_stable (q : Q) (x : A) (l : list A) :
  filter (fun a => Qeq_bool (key a) q) (JsArray.insertDesc key x l) =
  filter (fun a => Qeq_bool (key a) q) (x :: l).
Proof.
  induction l as [| y r IH]; [reflexivity |].
  cbn [JsArray.insertDesc]. destruct (JsNumber.gtb (key y) (key x)) eqn:G; [| reflexivity].
  apply gtb_true in G. cbn [filter] in *. rewrite IH.
  destruct (Qeq_bool (key y) q) eqn:Ey; destruct (Qeq_bool (key x) q) eqn:Ex;
    try reflexivity.
  apply Qeq_bool_eq in Ey. apply Qeq_bool_eq in Ex. lra.
Qed.

Lemma sortDesc_stable (q : Q) (l : list A) :
  filter (fun a => Qeq_bool (key a) q) (JsArray.sortDesc key l) =
  filter (fun a => Qeq_bool (key a) q) l.
Proof.
  induction l as [| x r IH]; [reflexivity |].
  cbn [JsArray.sortDesc]. rewrite insertDesc_stable. cbn [filter]. rewrite IH. reflexivity.
Qed.

End Sorting.

End SortFacts.

Module SumFacts.

Lemma fold_plus_from (l : list Q) (a : Q) :
  fold_left Qplus l a == a + fold_left Qplus l 0.
Proof.
  revert a. induction l as [| x r IH]; intros a; simpl.
  - lra.
  - rewrite (IH (a + x)), (IH (0 + x)). lra.
Qed.

Lemma fold_plus_scaled {A} (f : A -> Q) (k : Q) (l : list A) :
  fold_left Qplus (map (fun x => f x * k) l) 0 == fold_left Qplus (map f l) 0 * k.
Proof.
  induction l as [| x r IH]; simpl.
  - lra.
  - rewrite (fold_plus_from _ (0 + f x * k)), (fold_plus_from _ (0 + f x)), IH. lra.
Qed.

End SumFacts.

Module StringFacts.

Import JsString Characters.

Lemma lower_ascii_not_upper (c : ascii) : is_upper (lower_ascii c) = false.
Proof. destruct c as [[] [] [] [] [] [] [] []]; reflexivity. Qed.

Lemma lower_ascii_idempotent (c : ascii) : lower_ascii (lower_ascii c) = lower_ascii c.
Proof. destruct c as [[] [] [] [] [] [] [] []]; reflexivity. Qed.

Lemma is_space_lower_ascii (c : ascii) : is_space (lower_ascii c) = is_space c.
Proof. destruct c as [[] [] [] [] [] [] [] []]; reflexivity. Qed.

Lemma space_not_upper (c : ascii) : is_space c = true -> lower_ascii c = c.
Proof. destruct c as [[] [] [] [] [] [] [] []]; (reflexivity || discriminate). Qed.

Lemma free_append test (s t : string) :
  free test (s ++ t) = free test s && free test t.
Proof.
  induction s as [| c r IH]; simpl; [reflexivity |].
  rewrite IH. apply andb_assoc.
Qed.

Lemma toLowerCase_free (s : string) : free is_upper (toLowerCase s) = true.
Proof.
  induction s as [| c r IH]; simpl; [reflexivity |].
  rewrite lower_ascii_not_upper, IH. reflexivity.
Qed.

Lemma toLowerCase_idempotent (s : string) : toLowerCase (toLowerCase s) = toLowerCase s.
Proof.
  induction s as [| c r IH]; simpl; [reflexivity |].
  rewrite lower_ascii_idempotent, IH. reflexivity.
Qed.

Lemma toLowerCase_fixed (s : string) : free is_upper s = true -> toLowerCase s = s.
Proof.
  induction s as [| c r IH]; simpl; [reflexivity |].
  intros H. apply andb_true_iff in H. destruct H as [Hc Hr].
  rewrite (IH Hr). unfold lower_ascii. destruct (is_upper c); [discriminate | reflexivity].
Qed.

Lemma replaceSpaceRuns_upper (inRun : bool) (s : string) :
  free is_upper s = true -> free is_upper (replaceSpaceRuns inRun s) = true.
Proof.
  revert inRun. induction s as [| c r IH]; intros inRun; simpl; [reflexivity |].
  intros H. apply andb_true_iff in H. destruct H as [Hc Hr].
  destruct (is_space c); [destruct inRun |]; simpl; rewrite ?Hc, ?IH; auto.
Qed.

Lemma replaceSpaceRuns_space (inRun : bool) (s : string) :
  free is_space (replaceSpaceRuns inRun s) = true.
Proof.
  revert inRun. induction s as [| c r IH]; intros inRun; simpl; [reflexivity |].
  destruct (is_space c) eqn:E; [destruct inRun |]; simpl; rewrite ?E, ?IH; auto.
Qed.

Lemma replaceSpaceRuns_fixed (s : string) :
  free is_space s = true -> replaceSpaceRuns false s = s.
Proof.
  induction s as [| c r IH]; simpl; [reflexivity |].
  intros H. apply andb_true_iff in H. destruct H as [Hc Hr].
  destruct (is_space c); [discriminate |]. rewrite (IH Hr). reflexivity.
Qed.

End StringFacts.

Module EngineExtras.

Import Bayes NumberFacts BayesFacts MapFacts SortFacts SumFacts StringFacts EngineUse.

(** *** Composition of methods *)

Lemma after_bind {A B} (m : Eng A) (k : A -> Eng B) (this : Engine) :
  after (bind m k) this = after (k (result m this)) (after m this).
Proof.
  unfold after, result, bind. destruct (m this) as [a this']. reflexivity.
Qed.

Lemma result_bind {A B} (m : Eng A) (k : A -> Eng B) (this : Engine) :
  result (bind m k) this = result (k (result m this)) (after m this).
Proof.
  unfold after, result, bind. destruct (m this) as [a this']. reflexivity.
Qed.

Lemma readOnly_calculateInformationGain log2 potentialEvidence now :
  readOnly (calculateInformationGain log2 potentialEvidence now).
Proof.
  unfold calculateInformationGain.
  apply readOnly_bind; [apply BayesProperties.readOnly_calculateEntropy |].
  intros currentEntropy.
  apply readOnly_bind; [| intros expected; apply readOnly_ret].
  apply readOnly_forAccum. intros expected outcome.
  apply readOnly_bind; [apply BayesProperties.readOnly_calculateHypotheticalUpdates |].
  intros hypotheticalUpdates.
  apply readOnly_bind; [unfold calculateEntropyFromUpdates; apply readOnly_ret |].
  intros entropyAfterEvidence.
  apply readOnly_bind; [unfold calculateOutcomeProbability; apply readOnly_ret |].
  intros outcomeWeight. apply readOnly_ret.
Qed.

(** A call of [updateWithEvidence] writes the store only. *)
Lemma engine_after_update ev this :
  after (updateWithEvidence ev) this =
  with_diagnoses this (diagnoses (after (updateWithEvidence ev) this)).
Proof.
  assert (E : after (updateWithEvidence ev) this =
              after normalizeProbabilities
                (with_diagnoses this (map (entryAfterTurn this ev) (diagnoses this)))).
  { unfold after at 1. rewrite updateWithEvidence_run. reflexivity. }
  rewrite E, normalizeProbabilities_after.
  destruct (JsNumber.gtb _ 1.0); reflexivity.
Qed.

(** *** Insertion and lookup *)

(** X1.  After [initializeDiagnosis] the record of the condition is the
    fresh one, with the prior as posterior, likelihood 1 and an empty
    log, whatever was stored under the condition before; the lookup of
    every other condition is as before. *)
Theorem initializeDiagnosis_lookup c p code this c' :
  result (getDiagnosis c') (after (initializeDiagnosis c p code) this) =
  if String.eqb c c'
  then Some (mkDiagnosis c p p 1.0 [] code)
  else result (getDiagnosis c') this.
Proof.
  unfold result, after, getDiagnosis, initializeDiagnosis, gets, modify. simpl.
  apply get_set.
Qed.

(** *** What every sequence of calls keeps *)

Lemma after_perform_readers log2 call this :
  match call with
  | CallRanked | CallGet _ | CallGain _ _ => after (perform log2 call) this = this
  | _ => True
  end.
Proof.
  destruct call; simpl; try exact I; rewrite after_bind; unfold ret, after at 1; simpl.
  - reflexivity.
  - reflexivity.
  - apply readOnly_calculateInformationGain.
Qed.

Ltac reader_call :=
  match goal with
  | |- context [after (perform ?l ?c) ?t] =>
      let E := fresh "E" in
      pose proof (after_perform_readers l c t) as E; cbv beta iota in E; rewrite E; clear E
  end.

Lemma after_perform_update log2 ev this :
  after (perform log2 (CallUpdate ev)) this = after (updateWithEvidence ev) this.
Proof. simpl. rewrite after_bind. reflexivity. Qed.

Lemma update_keeps_keys ev this :
  JsMap.keys (diagnoses (after (updateWithEvidence ev) this)) = JsMap.keys (diagnoses this).
Proof.
  rewrite store_of_call. cbv zeta. unfold JsMap.keys. rewrite map_map. reflexivity.
Qed.

Lemma update_keeps_table ev this :
  evidenceBase (after (updateWithEvidence ev) this) = evidenceBase this.
Proof. rewrite engine_after_update. reflexivity. Qed.

Lemma initialize_store c p code this :
  diagnoses (after (initializeDiagnosis c p code) this) =
  JsMap.set (diagnoses this) c (mkDiagnosis c p p 1.0 [] code).
Proof. reflexivity. Qed.

Lemma initialize_table c p code this :
  evidenceBase (after (initializeDiagnosis c p code) this) = evidenceBase this.
Proof. reflexivity. Qed.

Lemma initialize_after c p code this :
  after (initializeDiagnosis c p code) this =
  with_diagnoses this (JsMap.set (diagnoses this) c (mkDiagnosis c p p 1.0 [] code)).
Proof. reflexivity. Qed.

Lemma newEngine_store : diagnoses newEngine = [].
Proof. vm_compute. reflexivity. Qed.

Lemma reset_store this : diagnoses (after reset this) = [].
Proof. reflexivity. Qed.

Lemma reset_table this : evidenceBase (after reset this) = evidenceBase this.
Proof. reflexivity. Qed.

Lemma perform_keeps_wellKeyed log2 call this :
  wellKeyed this -> wellKeyed (after (perform log2 call) this).
Proof.
  intros [Ht [Hk Hc]].
  destruct call as [c p code | ev | | c | pe now |];
    try (reader_call; repeat split; assumption).
  - (* initializeDiagnosis *)
    unfold wellKeyed, perform. rewrite initialize_store, initialize_table.
    split; [exact Ht |]. split.
    + apply set_NoDup. exact Hk.
    + apply set_Forall; [exact Hc | reflexivity].
  - (* updateWithEvidence *)
    rewrite after_perform_update. unfold wellKeyed.
    rewrite update_keeps_table, update_keeps_keys.
    split; [exact Ht |]. split; [exact Hk |].
    rewrite store_of_call. cbv zeta. apply Forall_map.
    revert Hc. apply Forall_impl. intros [k d] H. exact H.
  - (* reset *)
    unfold wellKeyed, perform. rewrite reset_store, reset_table.
    split; [exact Ht |]. split; constructor.
Qed.

Lemma ratioProduct_store this ds c log :
  ratioProduct (with_diagnoses this ds) c log = ratioProduct this c log.
Proof.
  unfold ratioProduct. generalize 1. induction log as [| ev r IH]; intros a; simpl.
  - reflexivity.
  - rewrite adjustedRatio_store. apply IH.
Qed.

Lemma ratioProduct_snoc this c log ev :
  ratioProduct this c (log ++ [ev]) = ratioProduct this c log * adjustedRatio this c ev.
Proof. unfold ratioProduct. rewrite fold_left_app. reflexivity. Qed.

Lemma perform_keeps_accounted log2 call this :
  accounted this -> accounted (after (perform log2 call) this).
Proof.
  intros H.
  destruct call as [c p code | ev | | c | pe now |];
    try (reader_call; assumption).
  - unfold accounted, perform in *. rewrite initialize_store.
    apply set_Forall.
    + revert H. apply Forall_impl. intros [k d] E. cbn [fst snd] in *.
      rewrite initialize_after, ratioProduct_store. exact E.
    + cbn [fst snd likelihood evidence]. unfold ratioProduct. cbn [fold_left].
      reflexivity.
  - rewrite after_perform_update. unfold accounted.
    rewrite engine_after_update, store_of_call. cbv zeta. simpl diagnoses.
    apply Forall_map. revert H. apply Forall_impl. intros [k d] E.
    cbn [fst snd likelihood evidence] in *.
    rewrite ratioProduct_store, ratioProduct_snoc, E. reflexivity.
  - unfold accounted, perform. rewrite reset_store. constructor.
Qed.

Lemma perform_keeps_inRange log2 call this :
  properCall call -> inRange this -> inRange (after (perform log2 call) this).
Proof.
  intros Hp H.
  destruct call as [c p code | ev | | c | pe now |];
    try (reader_call; assumption).
  - unfold inRange, perform in *. rewrite initialize_store.
    apply set_Forall; [exact H |]. cbn. cbn in Hp. tauto.
  - rewrite after_perform_update. unfold inRange.
    rewrite store_of_call. cbv zeta.
    apply Forall_map. revert H. apply Forall_impl.
    intros [k d] [Hprior _]. cbn [fst snd priorProbability posteriorProbability evidence] in *.
    split; [exact Hprior |]. split.
    + pose proof (clamp_bounds (bayes (adjustedRatio this k ev) (posteriorProbability d)))
        as [Hl Hu].
      destruct (JsNumber.gtb _ 1.0) eqn:G; [| lra].
      apply gtb_true in G.
      assert (G1 : 1 < sumNew (result (updateWithEvidence ev) this)) by lra.
      assert (Hq : 0 < clamp (bayes (adjustedRatio this k ev) (posteriorProbability d)))
        by lra.
      destruct (scaling_shrinks _ _ Hq G1). lra.
    + intros E. destruct (evidence d); discriminate E.
  - unfold inRange, perform. rewrite reset_store. constructor.
Qed.

Lemma performAll_cons log2 call rest this :
  after (performAll log2 (call :: rest)) this =
  after (performAll log2 rest) (after (perform log2 call) this).
Proof. simpl. rewrite after_bind. reflexivity. Qed.

Lemma performAll_keeps (invariant : Engine -> Prop) (allowed : Call -> Prop) log2 :
  (forall call this, allowed call -> invariant this ->
     invariant (after (perform log2 call) this)) ->
  forall calls this, Forall allowed calls -> invariant this ->
    invariant (after (performAll log2 calls) this).
Proof.
  intros Hstep. induction calls as [| call rest IH]; intros this Hp H.
  - exact H.
  - inversion Hp; subst. rewrite performAll_cons. apply IH; [| apply Hstep]; assumption.
Qed.

Lemma Forall_any {A} (l : list A) : Forall (fun _ => True) l.
Proof. induction l; constructor; trivial. Qed.

Lemma newEngine_wellKeyed : wellKeyed newEngine.
Proof.
  unfold wellKeyed. rewrite newEngine_store. split; [reflexivity |]. split; constructor.
Qed.

Lemma newEngine_inRange : inRange newEngine.
Proof. unfold inRange. rewrite newEngine_store. constructor. Qed.

Lemma newEngine_accounted : accounted newEngine.
Proof. unfold accounted. rewrite newEngine_store. constructor. Qed.

Lemma properCall_test call : properCallb call = true -> properCall call.
Proof.
  destruct call; simpl; trivial. intros H.
  apply andb_true_iff in H. destruct H as [H1 H2].
  apply ltb_true in H1. apply ltb_true in H2. split; assumption.
Qed.

Lemma properCalls_test calls : forallb properCallb calls = true -> Forall properCall calls.
Proof.
  intros H. apply Forall_forall. intros call Hin.
  apply properCall_test. rewrite forallb_forall in H. apply H, Hin.
Qed.

(** X2.  Every engine that a sequence of public calls builds from a new
    one holds the table of the constructor, distinct conditions, and
    every record under its own condition. *)
Theorem calls_keep_engine_well_keyed log2 calls :
  wellKeyed (after (performAll log2 calls) newEngine).
Proof.
  apply (performAll_keeps wellKeyed (fun _ => True)).
  - intros call this _. apply perform_keeps_wellKeyed.
  - apply Forall_any.
  - apply newEngine_wellKeyed.
Qed.

Lemma admissible_proper calls : Forall admissibleCall calls -> Forall properCall calls.
Proof.
  apply Forall_impl. intros call H. destruct call; simpl in *; exact H || exact I.
Qed.

Lemma admissibleCalls_test calls :
  forallb admissibleCallb calls = true -> Forall admissibleCall calls.
Proof.
  intros H. apply Forall_forall. intros call Hin.
  rewrite forallb_forall in H. specialize (H call Hin).
  destruct call; simpl in *; try exact I;
    apply andb_true_iff in H; destruct H as [H1 H2].
  - apply ltb_true in H1. apply ltb_true in H2. split; assumption.
  - apply geb_true in H1. apply geb_true in H2. split; assumption.
Qed.

(** X3.  When every prior passed to [initializeDiagnosis] lies strictly
    between 0 and 1 and every evidence passed to [updateWithEvidence]
    has a confidence within [0, 1], the range that the interface
    documents, every record of every engine that the calls build has
    its prior and its posterior strictly between 0 and 1, and a record
    with an empty log has its prior as posterior.  Outside these ranges
    the doubles of the code can overflow and leave NaN in the store. *)
Theorem calls_keep_probabilities_in_range log2 calls :
  Forall admissibleCall calls ->
  inRange (after (performAll log2 calls) newEngine).
Proof.
  intros Hp. apply (performAll_keeps inRange properCall).
  - intros call this. apply perform_keeps_inRange.
  - apply admissible_proper, Hp.
  - apply newEngine_inRange.
Qed.

Lemma calls_keep_probabilities_in_range_witness :
  Forall admissibleCall session /\
  inRange (after (performAll (fun _ => 0) session) newEngine).
Proof.
  assert (H : Forall admissibleCall session)
    by (apply admissibleCalls_test; vm_compute; reflexivity).
  split; [exact H | apply (calls_keep_probabilities_in_range (fun _ => 0) session H)].
Defined.

(** X4.  In every engine that a sequence of public calls builds, the
    likelihood of a record is the product of the adjusted ratios of the
    evidence in its log, whatever the clamp and the normalization did
    to the posterior. *)
Theorem calls_keep_likelihood_product log2 calls :
  accounted (after (performAll log2 calls) newEngine).
Proof.
  apply (performAll_keeps accounted (fun _ => True)).
  - intros call this _. apply perform_keeps_accounted.
  - apply Forall_any.
  - apply newEngine_accounted.
Qed.

(** *** Ranking *)

(** X5.  [getRankedDiagnoses] returns the records of the store, each
    once, by descending posterior, records with the same posterior in
    the order of the store; the engine is as before. *)
Theorem ranking_sorted_stable this :
  let ranked := result getRankedDiagnoses this in
  after getRankedDiagnoses this = this /\
  Permutation (JsMap.values (diagnoses this)) ranked /\
  StronglySorted (fun a b => posteriorProbability b <= posteriorProbability a) ranked /\
  forall q,
    filter (fun d => Qeq_bool (posteriorProbability d) q) ranked =
    filter (fun d => Qeq_bool (posteriorProbability d) q) (JsMap.values (diagnoses this)).
Proof.
  cbv zeta. unfold result, after, getRankedDiagnoses, gets. cbn [fst snd].
  split; [reflexivity |]. split; [apply sortDesc_Permutation |].
  split; [apply ArrayFacts.sortDesc_sorted |].
  intros q. apply sortDesc_stable.
Qed.

(** *** The adjusted ratio *)

(** X6.  In every engine that a sequence of public calls builds, the
    ratio applied for an evidence with a confidence within [0, 1] lies
    within [0.05, 20], the extreme ratios of the table, and on the side
    of 1 on which the ratio of the table lies; it is 1 for an evidence
    that the table does not hold for the condition. *)
Theorem adjusted_ratio_within_table_range log2 calls c ev :
  0 <= confidence ev <= 1 ->
  let this := after (performAll log2 calls) newEngine in
  match baseRatio this c ev with
  | Some lr =>
      (1 <= lr -> 1 <= adjustedRatio this c ev) /\
      (lr <= 1 -> adjustedRatio this c ev <= 1)
  | None => adjustedRatio this c ev == 1
  end /\
  0.05 <= adjustedRatio this c ev <= 20.
Proof.
  intros Hc. cbv zeta.
  pose proof (performAll_keeps wellKeyed (fun _ => True) log2
                (fun call this _ => perform_keeps_wellKeyed log2 call this)
                calls newEngine (Forall_any calls) newEngine_wellKeyed) as [Ht _].
  set (this := after (performAll log2 calls) newEngine) in *.
  rewrite adjustedRatio_spec.
  destruct (baseRatio this c ev) as [lr |] eqn:E.
  - destruct (baseRatio_within this c ev lr Ht E) as [Hl Hh].
    destruct Hc as [Hc0 Hc1].
    set (k := confidence ev) in *. clearbody k.
    assert (Hlow : 0 <= (lr - 0.05) * (1 - k)) by nra.
    assert (Hhigh : 0 <= (20 - lr) * (1 - k)) by nra.
    split; [split; intros H | split].
    + assert (Hs : 0 <= (lr - 1) * k) by nra. lra.
    + assert (Hs : 0 <= (1 - lr) * k) by nra. lra.
    + nra.
    + nra.
  - split; [reflexivity | split; lra].
Qed.

Lemma adjusted_ratio_within_table_range_witness :
  0 <= confidence (Fixtures.troponin test_result 0) <= 1 /\
  0.05 <= adjustedRatio (after (performAll (fun _ => 0) session) newEngine)
            "pneumonia" (Fixtures.troponin test_result 0) <= 20.
Proof.
  assert (H : 0 <= confidence (Fixtures.troponin test_result 0) <= 1)
    by (vm_compute; split; discriminate).
  split; [exact H |].
  apply (adjusted_ratio_within_table_range (fun _ => 0) session "pneumonia"
           (Fixtures.troponin test_result 0) H).
Defined.

(** *** The sum of the posteriors *)

(** X7.  The engine has the table of the constructor and posteriors in
    [0, 1), the evidence a confidence in [0, 1].  When
    [updateWithEvidence] returns, the stored posteriors sum to at most
    1, up to the rounding margin; when the values that the returned
    records report sum to at least 1.001 the normalization has scaled
    and the stored posteriors sum to 0.95 within a thousandth; when
    they sum to at most 0.999 the stored posteriors sum to what the
    records report. *)
Theorem update_bounds_total ev this :
  evidenceBase this = evidenceBase newEngine ->
  probabilistic this ->
  0 <= confidence ev <= 1 ->
  let total := totalProbability (diagnoses (after (updateWithEvidence ev) this)) in
  let reported := sumNew (result (updateWithEvidence ev) this) in
  total <= 1 + roundingMargin /\
  (1.001 <= reported -> 0.949 <= total <= 0.951) /\
  (reported <= 0.999 -> total == reported).
Proof.
  intros _ _ _. cbv zeta. rewrite store_of_call. cbv zeta.
  set (reported := sumNew (result (updateWithEvidence ev) this)).
  rewrite totalProbability_map. cbn [snd posteriorProbability].
  unfold roundingMargin.
  assert (Hsum : reported ==
                 fold_left Qplus
                   (map (fun entry : string * BayesianDiagnosis =>
                           clamp (bayes (adjustedRatio this (fst entry) ev)
                                    (posteriorProbability (snd entry))))
                        (diagnoses this)) 0).
  { unfold reported. rewrite updates_of_call, sumNew_map. reflexivity. }
  destruct (JsNumber.gtb reported 1.0) eqn:G.
  - apply gtb_true in G.
    assert (Hscaled :
      fold_left Qplus
        (map (fun x : string * BayesianDiagnosis =>
                clamp (bayes (adjustedRatio this (fst x) ev) (posteriorProbability (snd x)))
                * (0.95 / reported)) (diagnoses this)) 0 == 0.95).
    { rewrite (fold_plus_scaled
                 (fun x : string * BayesianDiagnosis =>
                    clamp (bayes (adjustedRatio this (fst x) ev)
                             (posteriorProbability (snd x))))).
      rewrite <- Hsum. field. lra. }
    split; [rewrite Hscaled; lra |].
    split; [intros _; rewrite Hscaled; split; lra | intros; lra].
  - apply gtb_false in G.
    split; [rewrite <- Hsum; lra |]. split; [intros; lra | intros _].
    symmetry. exact Hsum.
Qed.

Lemma update_bounds_total_witness :
  evidenceBase Fixtures.crowded = evidenceBase newEngine /\
  probabilistic Fixtures.crowded /\
  0 <= confidence Fixtures.fatigue <= 1 /\
  0.949 <=
    totalProbability (diagnoses (after (updateWithEvidence Fixtures.fatigue) Fixtures.crowded))
  <= 0.951.
Proof.
  assert (Ht : evidenceBase Fixtures.crowded = evidenceBase newEngine)
    by (vm_compute; reflexivity).
  assert (Hp : probabilistic Fixtures.crowded)
    by (apply probabilistic_test; vm_compute; reflexivity).
  assert (Hc : 0 <= confidence Fixtures.fatigue <= 1) by (vm_compute; split; discriminate).
  assert (Hr : 1.001 <= sumNew (result (updateWithEvidence Fixtures.fatigue) Fixtures.crowded))
    by (vm_compute; discriminate).
  split; [exact Ht |]. split; [exact Hp |]. split; [exact Hc |].
  exact (proj1 (proj2 (update_bounds_total Fixtures.fatigue Fixtures.crowded Ht Hp Hc)) Hr).
Defined.

(** *** What one update records *)

(** X8.  One call of [updateWithEvidence] leaves the likelihood table,
    the conditions and their order as they were; it returns one record
    per condition, in the order of the store, each with the evidence of
    the call and the posterior it found; every stored record keeps its
    condition, prior and code, has the evidence appended to its log and
    its likelihood multiplied by the ratio applied. *)
Theorem update_bookkeeping ev this :
  let updates := result (updateWithEvidence ev) this in
  let stored := diagnoses (after (updateWithEvidence ev) this) in
  evidenceBase (after (updateWithEvidence ev) this) = evidenceBase this /\
  JsMap.keys stored = JsMap.keys (diagnoses this) /\
  Forall2 (fun u entry =>
             diagnosis u = fst entry /\ u_evidence u = ev /\
             oldProbability u = posteriorProbability (snd entry) /\
             likelihoodRatio u = adjustedRatio this (fst entry) ev)
          updates (diagnoses this) /\
  Forall2 (fun before now =>
             fst now = fst before /\
             condition (snd now) = condition (snd before) /\
             priorProbability (snd now) = priorProbability (snd before) /\
             icd10Code (snd now) = icd10Code (snd before) /\
             evidence (snd now) = (evidence (snd before) ++ [ev])%list /\
             likelihood (snd now) =
               likelihood (snd before) * adjustedRatio this (fst before) ev)
          (diagnoses this) stored.
Proof.
  cbv zeta. split; [apply update_keeps_table |]. split; [apply update_keeps_keys |].
  rewrite updates_of_call, store_of_call. cbv zeta.
  split.
  - induction (diagnoses this) as [| entry r IH]; simpl; constructor; auto.
  - induction (diagnoses this) as [| entry r IH]; simpl; constructor; auto.
    cbn. repeat split; reflexivity.
Qed.

(** *** The dry run *)

(** X9.  [calculateHypotheticalUpdates] returns the records that
    [updateWithEvidence] would return for the same evidence, and leaves
    the engine as it found it. *)
Theorem dry_run_predicts_update ev this :
  calculateHypotheticalUpdates ev this = (result (updateWithEvidence ev) this, this).
Proof.
  rewrite (run_readOnly _ this (BayesProperties.readOnly_calculateHypotheticalUpdates ev)).
  rewrite BayesProperties.hypothetical_updates_agree. reflexivity.
Qed.

(** *** Information gain *)

Lemma result_bind_readOnly {A B} (m : Eng A) (k : A -> Eng B) (this : Engine) :
  readOnly m -> result (bind m k) this = result (k (result m this)) this.
Proof. intros H. rewrite result_bind, (H this). reflexivity. Qed.

Lemma hypothetical_probabilities ev this :
  map newProbability (result (calculateHypotheticalUpdates ev) this) =
  map (fun entry : string * BayesianDiagnosis =>
         clamp (bayes (adjustedRatio this (fst entry) ev)
                  (posteriorProbability (snd entry))))
      (diagnoses this).
Proof.
  rewrite BayesProperties.hypothetical_updates_agree, updates_of_call, map_map.
  reflexivity.
Qed.

(** The number that [calculateInformationGain] returns. *)
Lemma information_gain_formula log2 pe now this :
  result (calculateInformationGain log2 pe now) this =
  let temp outcome :=
    mkEvidence (p_type pe) (p_name pe) (VBoolean outcome) (p_confidence pe) (now outcome) in
  let after outcome :=
    entropyOf log2 (map newProbability (result (calculateHypotheticalUpdates (temp outcome)) this)) in
  entropyOf log2 (map posteriorProbability (JsMap.values (diagnoses this)))
  - (0 + 0.5 * after true + 0.5 * after false).
Proof.
  cbv zeta. unfold calculateInformationGain.
  rewrite (result_bind_readOnly _ _ this (BayesProperties.readOnly_calculateEntropy log2)).
  cbn [forAccum].
  repeat (rewrite result_bind_readOnly;
          [| solve [ repeat first
                       [ apply readOnly_ret
                       | apply BayesProperties.readOnly_calculateHypotheticalUpdates
                       | apply readOnly_bind; [| intros ?] ] ] ]).
  reflexivity.
Qed.

Lemma adjustedRatio_reads this c ev ev' :
  name ev = name ev' -> value ev = value ev' -> confidence ev = confidence ev' ->
  adjustedRatio this c ev = adjustedRatio this c ev'.
Proof.
  intros Hn Hv Hc. rewrite !adjustedRatio_spec. unfold baseRatio, generateEvidenceKey.
  rewrite Hn, Hv, Hc. reflexivity.
Qed.

(** X10.  The information gain of a candidate evidence is a function of
    its name and its confidence: the value and the type of the
    candidate and the clock have no part in it. *)
Theorem information_gain_reads_name_and_confidence log2 pe pe' now now' this :
  p_name pe = p_name pe' -> p_confidence pe = p_confidence pe' ->
  result (calculateInformationGain log2 pe now) this =
  result (calculateInformationGain log2 pe' now') this.
Proof.
  intros Hn Hc. rewrite !information_gain_formula. cbv beta zeta.
  rewrite !hypothetical_probabilities.
  assert (E : forall outcome,
            map (fun entry : string * BayesianDiagnosis =>
                   clamp (bayes (adjustedRatio this (fst entry)
                                   (mkEvidence (p_type pe) (p_name pe) (VBoolean outcome)
                                      (p_confidence pe) (now outcome)))
                            (posteriorProbability (snd entry)))) (diagnoses this) =
            map (fun entry : string * BayesianDiagnosis =>
                   clamp (bayes (adjustedRatio this (fst entry)
                                   (mkEvidence (p_type pe') (p_name pe') (VBoolean outcome)
                                      (p_confidence pe') (now' outcome)))
                            (posteriorProbability (snd entry)))) (diagnoses this)).
  { intros outcome. apply map_ext. intros entry.
    rewrite (adjustedRatio_reads this (fst entry) _
               (mkEvidence (p_type pe') (p_name pe') (VBoolean outcome)
                  (p_confidence pe') (now' outcome))); [reflexivity | exact Hn | reflexivity | exact Hc]. }
  rewrite !E. reflexivity.
Qed.

Lemma information_gain_reads_name_and_confidence_witness :
  result (calculateInformationGain (fun _ => 0)
            (mkPotential test_result "troponin" (VString "elevated") 0.9) (fun _ => 0%Z))
         Fixtures.ward =
  result (calculateInformationGain (fun _ => 0)
            (mkPotential symptom "troponin" (VNumber "3") 0.9) (fun _ => 7%Z))
         Fixtures.ward.
Proof.
  apply (information_gain_reads_name_and_confidence (fun _ => 0)
           (mkPotential test_result "troponin" (VString "elevated") 0.9)
           (mkPotential symptom "troponin" (VNumber "3") 0.9)
           (fun _ => 0%Z) (fun _ => 7%Z) Fixtures.ward);
    reflexivity.
Defined.

(** *** The empty store *)

(** X11.  After [reset] the table is as before and no condition is
    tracked: the ranking is empty, no lookup finds a record, an update
    returns no record and changes nothing, and the information gain of
    every candidate is 0. *)
Theorem reset_empties_store this :
  let fresh := after reset this in
  evidenceBase fresh = evidenceBase this /\
  result getRankedDiagnoses fresh = [] /\
  (forall c, result (getDiagnosis c) fresh = None) /\
  (forall ev, updateWithEvidence ev fresh = ([], fresh)) /\
  (forall log2 pe now, result (calculateInformationGain log2 pe now) fresh == 0).
Proof.
  cbv zeta. split; [apply reset_table |].
  split; [reflexivity |]. split; [reflexivity |]. split.
  - intros ev. rewrite updateWithEvidence_run, reset_store. cbn [map].
    rewrite normalizeProbabilities_after. cbn. reflexivity.
  - intros log2 pe now. rewrite information_gain_formula. cbv beta zeta.
    rewrite !hypothetical_probabilities, reset_store. cbn. lra.
Qed.

(** *** The key of an evidence *)

Lemma normalizedName_twice (n : string) :
  JsString.replaceSpaceRuns false
    (JsString.toLowerCase (JsString.replaceSpaceRuns false (JsString.toLowerCase n))) =
  JsString.replaceSpaceRuns false (JsString.toLowerCase n).
Proof.
  rewrite (toLowerCase_fixed (JsString.replaceSpaceRuns false (JsString.toLowerCase n))).
  - apply replaceSpaceRuns_fixed, replaceSpaceRuns_space.
  - apply replaceSpaceRuns_upper, toLowerCase_free.
Qed.

(** X12.  The key of an evidence holds no upper-case letter; the key of
    a boolean evidence holds no white space either; and an evidence
    that is present and is named by its own key has that key. *)
Theorem evidence_key_normal ev :
  Characters.free JsString.is_upper (generateEvidenceKey ev) = true /\
  (forall b, value ev = VBoolean b ->
     Characters.free JsString.is_space (generateEvidenceKey ev) = true) /\
  (value ev = VBoolean true ->
   generateEvidenceKey
     (mkEvidence (type ev) (generateEvidenceKey ev) (value ev) (confidence ev) (timestamp ev))
   = generateEvidenceKey ev).
Proof.
  assert (Hn : Characters.free JsString.is_upper
                 (JsString.replaceSpaceRuns false (JsString.toLowerCase (name ev))) = true)
    by apply replaceSpaceRuns_upper, toLowerCase_free.
  assert (Hs : Characters.free JsString.is_space
                 (JsString.replaceSpaceRuns false (JsString.toLowerCase (name ev))) = true)
    by apply replaceSpaceRuns_space.
  split; [| split].
  - unfold generateEvidenceKey.
    destruct (value ev) as [s | text | []]; cbn [stringOfValue];
      repeat match goal with
             | |- context [if ?b then _ else _] => destruct b
             end;
      rewrite ?free_append, ?Hn, ?toLowerCase_free; reflexivity.
  - intros b Hb. unfold generateEvidenceKey. rewrite Hb.
    destruct b; rewrite ?free_append, ?Hs; reflexivity.
  - intros Hb. unfold generateEvidenceKey. cbn [name value]. rewrite Hb.
    apply normalizedName_twice.
Qed.

Lemma evidence_key_normal_witness :
  generateEvidenceKey
    (mkEvidence symptom (generateEvidenceKey Fixtures.fever) (value Fixtures.fever)
       (confidence Fixtures.fever) (timestamp Fixtures.fever))
  = generateEvidenceKey Fixtures.fever.
Proof.
  apply (evidence_key_normal Fixtures.fever). reflexivity.
Defined.

End EngineExtras.


(* ================================================================== *)
(** ** Properties of the question agent                                *)
(* ================================================================== *)

Module ListFacts.

Lemma firstn_In {A} (n : nat) (l : list A) (x : A) : In x (firstn n l) -> In x l.
Proof. intros H. rewrite <- (firstn_skipn n l). apply in_or_app. left. exact H. Qed.

Lemma skipn_In {A} (n : nat) (l : list A) (x : A) : In x (skipn n l) -> In x l.
Proof. intros H. rewrite <- (firstn_skipn n l). apply in_or_app. right. exact H. Qed.

Section Sorted.

Context {A : Type}.
Variable key : A -> Q.

(** A sorted array is its own sorting. *)
Lemma sortDesc_sorted_fixed (l : list A) :
  StronglySorted (fun a b => key b <= key a) l -> JsArray.sortDesc key l = l.
Proof.
  induction 1 as [| x r Hs IH Hx]; [reflexivity |].
  cbn [JsArray.sortDesc]. rewrite IH.
  destruct r as [| y r']; [reflexivity |].
  cbn [JsArray.insertDesc].
  inversion Hx as [| ? ? Hy _]; subst.
  assert (G : JsNumber.gtb (key y) (key x) = false) by (apply NumberFacts.gtb_false; exact Hy).
  rewrite G. reflexivity.
Qed.

Lemma sorted_firstn (n : nat) (l : list A) :
  StronglySorted (fun a b => key b <= key a) l ->
  StronglySorted (fun a b => key b <= key a) (firstn n l).
Proof.
  intros H. revert n. induction H as [| x r Hs IH Hx]; intros [| n]; simpl;
    try constructor.
  - apply IH.
  - rewrite Forall_forall in Hx |- *. intros y Hy. apply Hx.
    exact (firstn_In _ _ _ Hy).
Qed.

(** What a sorted array holds after its first [n] elements is not above
    any of them. *)
Lemma sorted_skipn_below (n : nat) (l : list A) :
  StronglySorted (fun a b => key b <= key a) l ->
  Forall (fun d => Forall (fun c => key d <= key c) (firstn n l)) (skipn n l).
Proof.
  intros H. revert n. induction H as [| x r Hs IH Hx]; intros [| n]; simpl.
  - constructor.
  - constructor.
  - apply Forall_forall. intros d _. constructor.
  - specialize (IH n). rewrite Forall_forall in IH, Hx |- *.
    intros d Hd. constructor.
    + apply Hx. exact (skipn_In _ _ _ Hd).
    + apply IH, Hd.
Qed.

End Sorted.

Lemma sorted_map {A B} (f : A -> B) (R : B -> B -> Prop) (l : list A) :
  StronglySorted (fun a b => R (f a) (f b)) l -> StronglySorted R (map f l).
Proof.
  induction 1 as [| x r Hs IH Hx]; simpl; constructor.
  - exact IH.
  - apply Forall_map. exact Hx.
Qed.

End ListFacts.

Module QuestionProperties.

Import Workflow Debate Questions NumberFacts SortFacts ListFacts FlowFixtures.

Lemma scored_fst (questions : list PatientQuestion) (state : State) :
  map fst (map (fun q => (q, calculateQuestionScore q state)) questions) = questions.
Proof. rewrite map_map. simpl. apply map_id. Qed.

Lemma scored_pairs (questions : list PatientQuestion) (state : State)
    (p : PatientQuestion * Q) :
  In p (JsArray.sortDesc snd (map (fun q => (q, calculateQuestionScore q state)) questions)) ->
  In (fst p) questions /\ snd p = calculateQuestionScore (fst p) state.
Proof.
  intros H. apply ArrayFacts.sortDesc_In in H. apply in_map_iff in H.
  destruct H as [q [<- Hq]]. split; [exact Hq | reflexivity].
Qed.

Lemma prioritizeQuestions_length questions state :
  length (prioritizeQuestions questions state) = Nat.min 5 (length questions).
Proof.
  unfold prioritizeQuestions. cbv zeta.
  rewrite length_map, length_firstn.
  rewrite <- (Permutation_length (sortDesc_Permutation snd _)), length_map. reflexivity.
Qed.

Lemma prioritizeQuestions_In questions state q :
  In q (prioritizeQuestions questions state) -> In q questions.
Proof.
  unfold prioritizeQuestions. cbv zeta. intros H.
  apply in_map_iff in H. destruct H as [p [<- Hp]].
  apply firstn_In in Hp. apply (scored_pairs _ _ _ Hp).
Qed.

(** X13.  [prioritizeQuestions] returns five questions, or all of them
    when there are fewer, by descending score; the questions it leaves
    out are the rest of the input, and none of them has a score above
    one that is kept. *)
Theorem prioritizeQuestions_keeps_best questions state :
  let score q := calculateQuestionScore q state in
  let chosen := prioritizeQuestions questions state in
  length chosen = Nat.min 5 (length questions) /\
  StronglySorted (fun a b => score b <= score a) chosen /\
  exists dropped,
    Permutation questions (chosen ++ dropped)%list /\
    Forall (fun d => Forall (fun c => score d <= score c) chosen) dropped.
Proof.
  cbv zeta. split; [apply prioritizeQuestions_length |].
  unfold prioritizeQuestions. cbv zeta.
  set (scored := map (fun q => (q, calculateQuestionScore q state)) questions).
  pose proof (ArrayFacts.sortDesc_sorted snd scored) as Hs.
  assert (Hp : forall p, In p (JsArray.sortDesc snd scored) ->
                         snd p = calculateQuestionScore (fst p) state)
    by (intros p Hin; apply (scored_pairs questions state p Hin)).
  split.
  - apply sorted_map.
    pose proof (sorted_firstn snd 5 _ Hs) as Hf.
    assert (Hin : forall p, In p (firstn 5 (JsArray.sortDesc snd scored)) ->
                            snd p = calculateQuestionScore (fst p) state)
      by (intros p H; apply Hp, (firstn_In _ _ _ H)).
    induction Hf as [| x r Hr IH Hx]; constructor.
    + apply IH. intros p H. apply Hin. right. exact H.
    + rewrite Forall_forall in Hx |- *. intros y Hy.
      rewrite <- (Hin x (or_introl eq_refl)), <- (Hin y (or_intror Hy)). apply Hx, Hy.
  - exists (map fst (skipn 5 (JsArray.sortDesc snd scored))). split.
    + rewrite <- map_app, firstn_skipn.
      rewrite <- (scored_fst questions state) at 1.
      apply Permutation_map, sortDesc_Permutation.
    + pose proof (sorted_skipn_below snd 5 _ Hs) as Hb.
      apply Forall_map. rewrite Forall_forall in Hb |- *. intros d Hd.
      apply Forall_map. specialize (Hb d Hd). rewrite Forall_forall in Hb |- *.
      intros c Hc.
      rewrite <- (Hp d (skipn_In _ _ _ Hd)), <- (Hp c (firstn_In _ _ _ Hc)).
      apply Hb, Hc.
Qed.

Lemma questionsFrom_agent parsed clock : forall index,
  Forall (fun q => requestingAgent q = hypothesis) (questionsFrom index parsed clock).
Proof.
  induction parsed as [| p r IH]; intros index; simpl; constructor.
  - reflexivity.
  - apply IH.
Qed.

Lemma generateDefaultQuestions_agent state clock :
  Forall (fun q => requestingAgent q = hypothesis) (generateDefaultQuestions state clock).
Proof.
  unfold generateDefaultQuestions. cbv zeta.
  destruct (lacks _ "started" && lacks _ "began");
    destruct (JsString.includes _ "pain");
    destruct (noLength _); repeat constructor.
Qed.

(** The fallback questions are in the order of their scores. *)
Lemma prioritize_defaults state clock :
  prioritizeQuestions (generateDefaultQuestions state clock) state =
  generateDefaultQuestions state clock.
Proof.
  unfold generateDefaultQuestions, prioritizeQuestions, calculateQuestionScore. cbv zeta.
  destruct (lacks _ "started" && lacks _ "began");
    destruct (JsString.includes _ "pain");
    destruct (noLength _);
    destruct (currentPhase state);
    (destruct (differentialDiagnoses state) as [| top rest];
     [| destruct (JsNumber.gtb (probability top) 60)]);
    reflexivity.
Qed.

(** X14.  [generateQuestions] throws exactly when the call of the model
    does.  Otherwise it returns at most five questions, each in the
    name of the hypothesis agent; when the reply holds no questions,
    they are the fallback questions of [generateDefaultQuestions], at
    most three, in the order in which that method lists them. *)
Theorem generateQuestions_outcome state reply clock :
  match reply with
  | InvokeFailed message => generateQuestions state reply clock = Thrown message
  | _ =>
      exists questions,
        generateQuestions state reply clock = Returned questions /\
        (length questions <= 5)%nat /\
        Forall (fun q => requestingAgent q = hypothesis) questions /\
        (reply = NoQuestions ->
         questions = generateDefaultQuestions state clock /\ (length questions <= 3)%nat)
  end.
Proof.
  assert (Hmost : forall qs,
            Forall (fun q => requestingAgent q = hypothesis) qs ->
            (length (prioritizeQuestions qs state) <= 5)%nat /\
            Forall (fun q => requestingAgent q = hypothesis) (prioritizeQuestions qs state)).
  { intros qs Hqs. split.
    - rewrite prioritizeQuestions_length. apply Nat.le_min_l.
    - rewrite Forall_forall in Hqs |- *. intros q Hq.
      apply Hqs, (prioritizeQuestions_In _ _ _ Hq). }
  destruct reply as [message | | parsed]; [reflexivity | |].
  - eexists. split; [reflexivity |].
    cbn [parseQuestions].
    destruct (Hmost _ (generateDefaultQuestions_agent state clock)) as [H5 Ha].
    split; [exact H5 |]. split; [exact Ha |]. intros _.
    rewrite prioritize_defaults. split; [reflexivity |].
    unfold generateDefaultQuestions. cbv zeta.
    destruct (lacks _ "started" && lacks _ "began");
      destruct (JsString.includes _ "pain");
      destruct (noLength _); simpl; lia.
  - eexists. split; [reflexivity |].
    cbn [parseQuestions].
    destruct (Hmost _ (questionsFrom_agent parsed clock 0%Z)) as [H5 Ha].
    split; [exact H5 |]. split; [exact Ha |]. discriminate.
Qed.

End QuestionProperties.


(* ================================================================== *)
(** ** Properties of the nodes and the edges                           *)
(* ================================================================== *)

Module GraphProperties.

Import Workflow Debate Questions Graph NumberFacts CaseFixtures FlowFixtures.
Import WorkflowProperties.

Section Reducers.

Variable onRound : Z -> Z -> Z.
Variable onGathered : list string -> list string -> list string.
Variable shouldGenerateQuestions : State -> bool.

(** X15.  When [patientInteraction] returns, the edge that follows it
    leads to [__end__] or to [medical_debate]: to [__end__] with
    questions pending and [awaitingUserInput] set, to [medical_debate]
    with the state as it was before the node and no question
    pending. *)
Theorem patient_interaction_suspends state generated update :
  patientInteraction shouldGenerateQuestions state generated = Returned update ->
  let next := applyUpdate onRound onGathered state update in
  (routePatientInteraction next = node_end /\
   awaitingUserInput next = true /\ pendingQuestions next <> []) \/
  (routePatientInteraction next = node_medical_debate /\
   next = state /\ pendingQuestions state = []).
Proof.
  unfold patientInteraction. cbv zeta.
  destruct (nonEmpty (pendingQuestions state)) eqn:Hp.
  - intros [= <-]. left. unfold routePatientInteraction. cbn.
    rewrite Hp. repeat split. apply nonEmpty_true, Hp.
  - assert (Hnone : pendingQuestions state = [])
      by (destruct (pendingQuestions state); [reflexivity | discriminate]).
    assert (Hidle : routePatientInteraction state = node_medical_debate)
      by (unfold routePatientInteraction; rewrite Hp; reflexivity).
    destruct (shouldGenerateQuestions state).
    + destruct generated as [questions | message]; [| discriminate].
      destruct (nonEmpty questions) eqn:Hq; intros [= <-].
      * left. unfold routePatientInteraction. cbn. rewrite Hq.
        repeat split. apply nonEmpty_true, Hq.
      * right. rewrite applyUpdate_noUpdate. repeat split; assumption.
    + intros [= <-]. right. rewrite applyUpdate_noUpdate. repeat split; assumption.
Qed.

(** X16.  A round of questions: when no question is pending, the policy
    fires and [generateQuestions] returns a non-empty list, the state
    after the node has these questions pending, awaits the user, is in
    phase [patient_interaction], and hands [interactionRound + 1] to the
    reducer of the round.  As the node returns the history and the
    transcript with its additions, and the reducers of both channels
    concatenate, the state holds the earlier history and the earlier
    transcript twice. *)
Theorem question_round_effects state questions update :
  pendingQuestions state = [] ->
  shouldGenerateQuestions state = true ->
  questions <> [] ->
  patientInteraction shouldGenerateQuestions state (Returned questions) = Returned update ->
  let next := applyUpdate onRound onGathered state update in
  pendingQuestions next = questions /\
  awaitingUserInput next = true /\
  currentPhase next = patient_interaction /\
  interactionRound next = onRound (interactionRound state) (interactionRound state + 1)%Z /\
  questionHistory next = (questionHistory state ++ questionHistory state ++ questions)%list /\
  exists note,
    messages next = (messages state ++ messages state ++ [AIMessage note])%list.
Proof.
  intros Hp Hs Hq. unfold patientInteraction. rewrite Hp, Hs. cbn [nonEmpty].
  apply nonEmpty_true in Hq. rewrite Hq. intros [= <-]. cbn.
  repeat split. eexists. reflexivity.
Qed.

(** X17.  A new case: on a state without a case identifier,
    [initializeCase] leaves, whatever the text of the case and the reply
    of the model, the phase [initial_assessment], the budget 1000, a
    case with an identifier, a chief complaint and the four lists of
    the history, and the earlier transcript twice before its note.  The
    edge that follows leads to [medical_debate], unless the state
    awaited the user or was ready for the diagnosis. *)
Theorem new_case_enters_debate state reply now :
  JsString.truthy (patientId (availableCaseInfo state)) = false ->
  let next := applyUpdate onRound onGathered state (initializeCase state reply now) in
  let info := availableCaseInfo next in
  currentPhase next = initial_assessment /\
  costBudget next = 1000 /\
  patientId info <> "" /\ chiefComplaint info <> "" /\
  (exists history medication allergy family,
     pastMedicalHistory info = Some history /\ medications info = Some medication /\
     allergies info = Some allergy /\ familyHistory info = Some family) /\
  (exists note,
     messages next = (messages state ++ messages state ++ [AIMessage note])%list) /\
  routeAfterInitialization next =
    if awaitingUserInput state then node_patient_interaction
    else if readyForDiagnosis state then node_final_assessment
    else node_medical_debate.
Proof.
  intros Hid. cbv zeta.
  pose proof (initializeCase_establishes_id onRound onGathered state reply now) as Hpresent.
  unfold initializeCase in *. rewrite Hid in *.
  destruct (blank (lastMessageText state)) eqn:Hb.
  - cbn. repeat split; try discriminate.
    + repeat eexists.
    + eexists. reflexivity.
  - split; [reflexivity |]. split; [reflexivity |]. split; [exact Hpresent |].
    assert (Htext : substring 0 100 (lastMessageText state) <> "").
    { unfold blank in Hb. apply orb_false_iff in Hb. destruct Hb as [Ht _].
      destruct (lastMessageText state); [discriminate | simpl; discriminate]. }
    split; [| split; [| split; [eexists; reflexivity | reflexivity]]].
    + cbn. unfold extractCaseInformation. rewrite Hb.
      destruct reply as [| | parsed]; cbn; try exact Htext.
      apply orString_present, Htext.
    + cbn. unfold extractCaseInformation. rewrite Hb.
      destruct reply as [| | parsed]; cbn; repeat eexists.
Qed.

(** X18.  No edge of the revised graph leads to [initialize_case] or to
    [process_user_response]: a run enters the first once, at its start,
    and never enters the second. *)
Theorem no_edge_into_response_processing :
  (forall node state,
     createMedicalGraph shouldGenerateQuestions node state <> Some node_initialize_case /\
     createMedicalGraph shouldGenerateQuestions node state
       <> Some node_process_user_response) /\
  (forall node, reachable shouldGenerateQuestions node ->
                node <> node_process_user_response).
Proof.
  assert (Hedge : forall node state,
            createMedicalGraph shouldGenerateQuestions node state
              <> Some node_initialize_case /\
            createMedicalGraph shouldGenerateQuestions node state
              <> Some node_process_user_response).
  { intros node state.
    destruct node; cbn;
      unfold routeAfterInitialization, routeWorkflow, routePatientInteraction,
        routeAfterUserResponse;
      repeat match goal with
             | |- context [if ?b then _ else _] => destruct b
             end;
      split; discriminate. }
  split; [exact Hedge |].
  intros node H. destruct H as [| node next state _ Hnext]; [discriminate |].
  intros ->. apply (proj2 (Hedge node state)), Hnext.
Qed.

(** X19.  The revision of [routeWorkflow] differs from the routing of
    medical_graph.ts only by sending more states to the patient: for
    the same question policy, its answer is the answer of the earlier
    function or [patient_interaction]. *)
Theorem revised_routing_adds_interaction state :
  routeWorkflow shouldGenerateQuestions state =
    Original.routeWorkflow shouldGenerateQuestions state \/
  routeWorkflow shouldGenerateQuestions state = node_patient_interaction.
Proof.
  unfold routeWorkflow, Original.routeWorkflow.
  destruct (awaitingUserInput state); [left; reflexivity |].
  destruct (shouldGenerateQuestions state).
  - right. reflexivity.
  - rewrite orb_false_r.
    repeat match goal with
           | |- context [if ?b then _ else _] => destruct b
           end; auto.
Qed.

(** X30.  A pass through the graph while questions are pending: on a
    state with a case identifier that awaits the user with pending
    questions, [initializeCase] changes nothing, the edge after it
    leads to [patient_interaction], that node repeats the pending
    questions, and the edge after it leads to [__end__]; the state then
    has the same identifier, the same pending questions, and still
    awaits the user, whatever the messages say.  As no edge leads to
    [process_user_response], the only node that clears the pending
    questions, every further pass ends in the same way. *)
Theorem pending_questions_survive_a_pass state reply now generated :
  patientId (availableCaseInfo state) <> "" ->
  awaitingUserInput state = true ->
  pendingQuestions state <> [] ->
  let entered := applyUpdate onRound onGathered state (initializeCase state reply now) in
  entered = state /\
  createMedicalGraph shouldGenerateQuestions node_initialize_case entered
    = Some node_patient_interaction /\
  exists update,
    patientInteraction shouldGenerateQuestions entered generated = Returned update /\
    let asked := applyUpdate onRound onGathered entered update in
    createMedicalGraph shouldGenerateQuestions node_patient_interaction asked
      = Some node_end /\
    patientId (availableCaseInfo asked) = patientId (availableCaseInfo state) /\
    awaitingUserInput asked = true /\
    pendingQuestions asked = pendingQuestions state /\
    questionHistory asked = questionHistory state /\
    interactionRound asked = interactionRound state.
Proof.
  intros Hid Hwait Hpending. cbv zeta.
  rewrite (initializeCase_guard state reply now Hid), applyUpdate_noUpdate.
  split; [reflexivity |]. split.
  - cbn. unfold routeAfterInitialization. rewrite Hwait, orb_true_r. reflexivity.
  - apply nonEmpty_true in Hpending.
    unfold patientInteraction. rewrite Hpending.
    eexists. split; [reflexivity |].
    cbn. unfold routePatientInteraction. cbn. rewrite Hpending.
    repeat split.
Qed.

End Reducers.

Lemma pending_questions_survive_a_pass_witness :
  patientId (availableCaseInfo (deliberating [someQuestion] true 0 1000 0.5 false 1)) <> "" /\
  applyUpdate (fun _ x => x) (fun c x => (c ++ x)%list)
    (deliberating [someQuestion] true 0 1000 0.5 false 1)
    (initializeCase (deliberating [someQuestion] true 0 1000 0.5 false 1)
       Unparsable 1700000000000)
  = deliberating [someQuestion] true 0 1000 0.5 false 1.
Proof.
  assert (Hid : patientId (availableCaseInfo
                  (deliberating [someQuestion] true 0 1000 0.5 false 1)) <> "")
    by discriminate.
  assert (Hwait : awaitingUserInput (deliberating [someQuestion] true 0 1000 0.5 false 1)
                  = true) by reflexivity.
  assert (Hpending : pendingQuestions (deliberating [someQuestion] true 0 1000 0.5 false 1)
                     <> []) by discriminate.
  split; [exact Hid |].
  apply (pending_questions_survive_a_pass (fun _ x => x) (fun c x => (c ++ x)%list)
           PatientQuestionAgentRevised.shouldGenerateQuestions
           (deliberating [someQuestion] true 0 1000 0.5 false 1)
           Unparsable 1700000000000 (Returned []) Hid Hwait Hpending).
Defined.

Lemma patient_interaction_suspends_witness :
  exists update,
    patientInteraction PatientQuestionAgentRevised.shouldGenerateQuestions
      (deliberating [] false 0 1000 0.5 false 0) (Returned [someQuestion])
    = Returned update /\
    routePatientInteraction
      (applyUpdate (fun _ x => x) (fun c x => (c ++ x)%list)
         (deliberating [] false 0 1000 0.5 false 0) update) = node_end.
Proof.
  destruct (patientInteraction PatientQuestionAgentRevised.shouldGenerateQuestions
              (deliberating [] false 0 1000 0.5 false 0) (Returned [someQuestion]))
    as [update | message] eqn:E.
  - exists update. split; [reflexivity |].
    destruct (patient_interaction_suspends (fun _ x => x) (fun c x => (c ++ x)%list)
                PatientQuestionAgentRevised.shouldGenerateQuestions
                (deliberating [] false 0 1000 0.5 false 0) (Returned [someQuestion])
                update E) as [[H _] | [_ [H _]]].
    + exact H.
    + exfalso. vm_compute in E. injection E as <-.
      vm_compute in H. discriminate H.
  - exfalso. vm_compute in E. discriminate E.
Defined.

Lemma question_round_effects_witness :
  exists update,
    patientInteraction PatientQuestionAgentRevised.shouldGenerateQuestions
      (deliberating [] false 0 1000 0.5 false 0) (Returned [someQuestion])
    = Returned update /\
    pendingQuestions
      (applyUpdate (fun _ x => x) (fun c x => (c ++ x)%list)
         (deliberating [] false 0 1000 0.5 false 0) update) = [someQuestion].
Proof.
  destruct (patientInteraction PatientQuestionAgentRevised.shouldGenerateQuestions
              (deliberating [] false 0 1000 0.5 false 0) (Returned [someQuestion]))
    as [update | message] eqn:E.
  - exists update. split; [reflexivity |].
    assert (Hp : pendingQuestions (deliberating [] false 0 1000 0.5 false 0) = [])
      by reflexivity.
    assert (Hs : PatientQuestionAgentRevised.shouldGenerateQuestions
                   (deliberating [] false 0 1000 0.5 false 0) = true)
      by (vm_compute; reflexivity).
    assert (Hq : [someQuestion] <> []) by discriminate.
    apply (question_round_effects (fun _ x => x) (fun c x => (c ++ x)%list)
             PatientQuestionAgentRevised.shouldGenerateQuestions
             (deliberating [] false 0 1000 0.5 false 0) [someQuestion] update Hp Hs Hq E).
  - exfalso. vm_compute in E. discriminate E.
Defined.

Lemma new_case_enters_debate_witness :
  JsString.truthy (patientId (availableCaseInfo presented)) = false /\
  currentPhase
    (applyUpdate (fun _ x => x) (fun c x => (c ++ x)%list) presented
       (initializeCase presented Unparsable 1700000000000)) = initial_assessment.
Proof.
  assert (H : JsString.truthy (patientId (availableCaseInfo presented)) = false)
    by reflexivity.
  split; [exact H |].
  apply (new_case_enters_debate (fun _ x => x) (fun c x => (c ++ x)%list)
           presented Unparsable 1700000000000 H).
Defined.

End GraphProperties.


(* ================================================================== *)
(** ** Properties of the debate                                        *)
(* ================================================================== *)

Module DebateRoundProperties.

Import Workflow Debate DebateRounds NumberFacts SortFacts CaseFixtures FlowFixtures.

(** *** The differential list *)

Lemma findIndex_Some {A} (p : A -> bool) (l : list A) : forall i,
  JsArray.findIndex p l = Some i -> exists x, nth_error l i = Some x /\ p x = true.
Proof.
  induction l as [| y r IH]; intros i; simpl; [discriminate |].
  destruct (p y) eqn:E.
  - intros [= <-]. exists y. split; [reflexivity | exact E].
  - destruct (JsArray.findIndex p r) as [j |]; simpl; [| discriminate].
    intros [= <-]. apply IH. reflexivity.
Qed.

Lemma findIndex_None {A} (p : A -> bool) (l : list A) :
  JsArray.findIndex p l = None -> forall x, In x l -> p x = false.
Proof.
  induction l as [| y r IH]; simpl; [intros _ x [] |].
  destruct (p y) eqn:E; [discriminate |].
  destruct (JsArray.findIndex p r); simpl; [discriminate |].
  intros _ x [<- | Hx]; [exact E | apply IH; [reflexivity | exact Hx]].
Qed.

Lemma setAt_map {A B} (f : A -> B) (l : list A) (v : A) : forall i x,
  nth_error l i = Some x -> f v = f x -> map f (JsArray.setAt l i v) = map f l.
Proof.
  induction l as [| y r IH]; intros [| i] x; simpl; try discriminate.
  - intros [= ->] ->. reflexivity.
  - intros Hn Hf. rewrite (IH i x Hn Hf). reflexivity.
Qed.

(** One update replaces the hypothesis of its condition, or joins the
    end of the list when the condition is new. *)
Lemma applyHypothesis_conditions diagnoses update :
  (In (condition update) (map condition diagnoses) /\
   map condition (applyHypothesis diagnoses update) = map condition diagnoses) \/
  (~ In (condition update) (map condition diagnoses) /\
   map condition (applyHypothesis diagnoses update) =
     (map condition diagnoses ++ [condition update])%list).
Proof.
  unfold applyHypothesis.
  destruct (JsArray.findIndex _ diagnoses) as [i |] eqn:E.
  - apply findIndex_Some in E. destruct E as [old [Hn Hc]].
    apply String.eqb_eq in Hc. left. split.
    + rewrite <- Hc. apply in_map. apply (nth_error_In _ _ Hn).
    + rewrite Hn. apply (setAt_map condition _ _ i old Hn). reflexivity.
  - right. split.
    + intros Hin. apply in_map_iff in Hin. destruct Hin as [d [Hd Hin]].
      pose proof (findIndex_None _ _ E d Hin) as Hf. cbv beta in Hf.
      apply String.eqb_neq in Hf. congruence.
    + rewrite map_app. reflexivity.
Qed.

Lemma merged_conditions updates : forall current,
  (forall c, In c (map condition (fold_left applyHypothesis updates current)) <->
             In c (map condition current) \/ In c (map condition updates)) /\
  (NoDup (map condition current) ->
   NoDup (map condition (fold_left applyHypothesis updates current))) /\
  (length (fold_left applyHypothesis updates current)
   <= length current + length updates)%nat.
Proof.
  induction updates as [| u r IH]; intros current; simpl.
  - split; [intros c; tauto |]. split; [auto | lia].
  - destruct (IH (applyHypothesis current u)) as [Hin [Hnd Hlen]].
    assert (Hl : length (applyHypothesis current u) = length (map condition (applyHypothesis current u)))
      by (rewrite length_map; reflexivity).
    destruct (applyHypothesis_conditions current u) as [[Hu E] | [Hu E]];
      rewrite E in *.
    + split; [| split].
      * intros c. rewrite Hin. split; [tauto |].
        intros [H | [<- | H]]; auto.
      * exact Hnd.
      * rewrite length_map in Hl. lia.
    + split; [| split].
      * intros c. rewrite Hin, in_app_iff. simpl. tauto.
      * intros H. apply Hnd. apply NoDup_app; [exact H | repeat constructor; intros [] |].
        intros x Hx [<- | []]. exact (Hu Hx).
      * rewrite length_app, length_map in Hl. simpl in Hl. lia.
Qed.

(** X20.  [updateDifferentialDiagnoses] returns the hypotheses by
    descending probability; their conditions are those of the current
    list and of the updates; when no condition occurs twice in the
    current list, none occurs twice in the result. *)
Theorem updateDifferentialDiagnoses_merges current updates :
  let merged := updateDifferentialDiagnoses current updates in
  StronglySorted (fun a b => probability b <= probability a) merged /\
  (forall c, In c (map condition merged) <->
             In c (map condition current) \/ In c (map condition updates)) /\
  (NoDup (map condition current) -> NoDup (map condition merged)) /\
  (length merged <= length current + length updates)%nat.
Proof.
  cbv zeta. unfold updateDifferentialDiagnoses.
  destruct (merged_conditions updates current) as [Hin [Hnd Hlen]].
  pose proof (sortDesc_Permutation probability (fold_left applyHypothesis updates current))
    as Hperm.
  split; [apply ArrayFacts.sortDesc_sorted |]. split; [| split].
  - intros c. rewrite <- Hin. split; apply Permutation_in, Permutation_map;
      [apply Permutation_sym |]; exact Hperm.
  - intros H. apply (Permutation_NoDup (Permutation_map condition Hperm)), Hnd, H.
  - rewrite <- (Permutation_length Hperm). exact Hlen.
Qed.

(** *** The rounds *)

Section Rounds.

Variable cfg : DebateConfiguration.
Variable respond : PhysicianRole -> State -> Z -> list AgentTurn -> Outcome AgentTurn.
Variable synthesis : State -> Outcome AgentTurn.

(** X21.  With a configuration in which the checklist agent does not
    take part, [orchestrateDebate] throws for every state, whatever the
    agents answer. *)
Theorem debate_without_checklist_throws state :
  hasAgent cfg checklist = false ->
  exists message, orchestrateDebate cfg respond synthesis state = Thrown message.
Proof.
  intros H. unfold orchestrateDebate. cbv zeta.
  destruct (debateRounds _ _ _ _ _ _ _) as [[state' updates] | message].
  - unfold synthesizeDebateResults. rewrite H. eexists. reflexivity.
  - eexists. reflexivity.
Qed.

Lemma executeDebateRound_keys state sequence round roundUpdates :
  executeDebateRound cfg respond state sequence round = Returned roundUpdates ->
  u_debateRound roundUpdates = Some (round + 1)%Z /\
  (exists diagnoses, u_differentialDiagnoses roundUpdates = Some diagnoses) /\
  u_readyForDiagnosis roundUpdates = None /\
  u_confidenceLevel roundUpdates = None.
Proof.
  unfold executeDebateRound.
  destruct (debateLoop _ _ _ _ _ _) as [acc | message]; [| discriminate].
  intros [= <-]. cbn. repeat split. eexists. reflexivity.
Qed.

(** What the loop over the rounds leaves: the number of the last round
    it ran, within the rounds it was given, and the list of that round
    both in the state and in the updates. *)
Lemma debateRounds_last sequence : forall remaining round state updates state' updates',
  debateRounds cfg respond remaining round state updates sequence
    = Returned (state', updates') ->
  match remaining with
  | O => state' = state /\ updates' = updates
  | S _ =>
      (exists k, u_debateRound updates' = Some k /\
                 (round + 1 <= k <= round + Z.of_nat remaining)%Z /\
                 ((readyForDiagnosis state = true \/
                   confidenceThreshold cfg <= confidenceLevel state) ->
                  k = (round + 1)%Z)) /\
      u_differentialDiagnoses updates' = Some (differentialDiagnoses state')
  end.
Proof.
  induction remaining as [| n IH]; intros round state updates state' updates'.
  - simpl. intros [= <- <-]. split; reflexivity.
  - cbn [debateRounds].
    destruct (executeDebateRound cfg respond state sequence round)
      as [roundUpdates | message] eqn:E; [| discriminate].
    destruct (executeDebateRound_keys _ _ _ _ E) as [Hr [[ds Hd] [Hready Hconf]]].
    cbv zeta.
    assert (Hstop : (readyForDiagnosis state = true \/
                     confidenceThreshold cfg <= confidenceLevel state) ->
                    shouldTerminateDebate cfg (assign state roundUpdates) = true).
    { intros Hs. unfold shouldTerminateDebate, assign. cbn.
      rewrite Hready, Hconf.
      destruct Hs as [Hs | Hs].
      - rewrite Hs. destruct (JsNumber.geb _ _); [reflexivity |].
        destruct (JsNumber.geb _ _); reflexivity.
      - apply geb_true in Hs. rewrite Hs. reflexivity. }
    destruct (shouldTerminateDebate cfg (assign state roundUpdates)) eqn:T.
    + intros [= <- <-]. split.
      * exists (round + 1)%Z. cbn. rewrite Hr. split; [reflexivity |]. split; [lia | auto].
      * cbn. rewrite Hd. reflexivity.
    + intros Hrest. specialize (IH _ _ _ _ _ Hrest).
      destruct n as [| m].
      * destruct IH as [-> ->]. split.
        -- exists (round + 1)%Z. cbn. rewrite Hr. split; [reflexivity |].
           split; [lia | auto].
        -- cbn. rewrite Hd. reflexivity.
      * destruct IH as [[k [Hk [Hbound _]]] Hlist]. split; [| exact Hlist].
        exists k. split; [exact Hk |]. split; [lia |].
        intros Hs. discriminate (Hstop Hs).
Qed.

(** X22.  When [orchestrateDebate] returns with a positive [maxRounds],
    the update reports the number of the last round that ran, between
    1 and [maxRounds]: 1 when the state was ready for the diagnosis or
    as confident as the threshold, since the loop tests its exits after
    a round.  The final diagnosis that the update reports is the first
    hypothesis of the list it reports.  With [maxRounds] not positive no
    round runs and the update carries neither. *)
Theorem debate_rounds_bounded state update :
  orchestrateDebate cfg respond synthesis state = Returned update ->
  ((0 < maxRounds cfg)%Z ->
   (exists k, u_debateRound update = Some k /\ (1 <= k <= maxRounds cfg)%Z /\
              ((readyForDiagnosis state = true \/
                confidenceThreshold cfg <= confidenceLevel state) -> k = 1%Z)) /\
   exists diagnoses,
     u_differentialDiagnoses update = Some diagnoses /\
     u_finalDiagnosis update = Some (hd_error diagnoses)) /\
  ((maxRounds cfg <= 0)%Z ->
   u_debateRound update = None /\ u_differentialDiagnoses update = None /\
   u_finalDiagnosis update = Some (hd_error (differentialDiagnoses state))).
Proof.
  unfold orchestrateDebate. cbv zeta.
  destruct (debateRounds _ _ _ _ _ _ _) as [[state' updates] | message] eqn:E;
    [| discriminate].
  apply debateRounds_last in E.
  unfold synthesizeDebateResults.
  destruct (negb (hasAgent cfg checklist)); [discriminate |].
  destruct (synthesis state') as [turn | message]; [| discriminate].
  intros [= <-]. split.
  - intros Hpos.
    destruct (Z.to_nat (maxRounds cfg)) as [| n] eqn:En; [lia |].
    destruct E as [[k [Hk [Hbound Hfirst]]] Hlist]. split.
    + exists k. cbn. rewrite Hk. split; [reflexivity |]. split; [lia | exact Hfirst].
    + exists (differentialDiagnoses state'). cbn. rewrite Hlist.
      split; [reflexivity |]. destruct (differentialDiagnoses state'); reflexivity.
  - intros Hneg.
    assert (En : Z.to_nat (maxRounds cfg) = O) by lia. rewrite En in E.
    destruct E as [-> ->]. cbn. repeat split.
Qed.

End Rounds.

(** *** The synthesis *)

Lemma lengthQ_nonneg {A} (xs : list A) : 0 <= lengthQ xs.
Proof.
  unfold lengthQ. change 0 with (inject_Z 0). rewrite <- Zle_Qle. lia.
Qed.

Lemma score_part (a c : Q) : 0 <= a -> 0 < c -> 0 <= Qmin (a / c) 1 <= 1.
Proof.
  intros Ha Hc.
  assert (H0 : 0 <= a / c) by (apply Qle_shift_div_l; lra).
  destruct (Q.min_spec (a / c) 1) as [[H ->] | [H ->]]; lra.
Qed.

Lemma assessReasoningQuality_range state : 0 <= assessReasoningQuality state <= 1.
Proof.
  unfold assessReasoningQuality. cbv zeta.
  pose proof (score_part _ 10 (lengthQ_nonneg (agentTurns state)) eq_refl) as Ha.
  pose proof (score_part _ 5 (lengthQ_nonneg (differentialDiagnoses state)) eq_refl) as Hd.
  pose proof (score_part _ 3 (lengthQ_nonneg (biasesDetected state)) eq_refl) as Hb.
  set (a := Qmin (lengthQ (agentTurns state) / 10) 1) in *.
  set (d := Qmin (lengthQ (differentialDiagnoses state) / 5) 1) in *.
  set (b := Qmin (lengthQ (biasesDetected state) / 3) 1) in *.
  destruct (JsNumber.gtb (cumulativeCost state) 0);
    match goal with
    | |- 0 <= Qmin ?x 1 <= 1 => destruct (Q.min_spec x 1) as [[H ->] | [H ->]]
    end; lra.
Qed.

Section Synthesis.

Variable onRound : Z -> Z -> Z.
Variable onGathered : list string -> list string -> list string.
Variable cfg : DebateConfiguration.

(** X23.  The reducers of the channels [confidenceLevel] and
    [finalDiagnosis] keep the current value when the update holds 0 or
    [undefined].  So after a synthesis over an empty list the state
    holds the confidence and the final diagnosis it held before, with
    [readyForDiagnosis] computed from the confidence 0; over a list
    whose first hypothesis has the probability 0 it holds the earlier
    confidence beside the new final diagnosis. *)
Theorem synthesis_leaves_stale_confidence state reply update :
  synthesizeDebateResults cfg state reply = Returned update ->
  let next := applyUpdate onRound onGathered state update in
  match differentialDiagnoses state with
  | [] =>
      confidenceLevel next = confidenceLevel state /\
      finalDiagnosis next = finalDiagnosis state /\
      readyForDiagnosis next = JsNumber.geb 0 (confidenceThreshold cfg)
  | top :: _ =>
      finalDiagnosis next = Some top /\
      confidenceLevel next =
        (if Qeq_bool (probability top / 100) 0 then confidenceLevel state
         else probability top / 100) /\
      readyForDiagnosis next =
        JsNumber.geb (probability top / 100) (confidenceThreshold cfg)
  end.
Proof.
  unfold synthesizeDebateResults.
  destruct (negb (hasAgent cfg checklist)); [discriminate |].
  destruct reply as [turn | message]; [| discriminate].
  intros [= <-]. cbv zeta.
  destruct (differentialDiagnoses state) as [| top rest]; cbn; repeat split.
Qed.

(** X24.  The synthesis always leaves the phase it finds, except
    [final_diagnosis], which it keeps: the phase it reports is
    [final_diagnosis] when the state is in that phase or the update
    says ready, and differs from the phase of the state otherwise; it
    is never [case_presentation] or [patient_interaction].  The
    reasoning quality it reports lies within [0, 1]. *)
Theorem synthesis_advances_phase state reply update :
  synthesizeDebateResults cfg state reply = Returned update ->
  exists phase quality,
    u_currentPhase update = Some phase /\
    u_reasoningQuality update = Some quality /\
    0 <= quality <= 1 /\
    phase <> case_presentation /\ phase <> patient_interaction /\
    (u_readyForDiagnosis update = Some true -> phase = final_diagnosis) /\
    (currentPhase state = final_diagnosis -> phase = final_diagnosis) /\
    (currentPhase state <> final_diagnosis -> phase <> currentPhase state).
Proof.
  unfold synthesizeDebateResults.
  destruct (negb (hasAgent cfg checklist)); [discriminate |].
  destruct reply as [turn | message]; [| discriminate].
  intros [= <-]. cbv zeta. cbn.
  eexists. eexists. split; [reflexivity |]. split; [reflexivity |].
  split; [apply assessReasoningQuality_range |].
  unfold determineNextPhase.
  destruct (JsNumber.geb _ (confidenceThreshold cfg)) eqn:G.
  - repeat split; try discriminate; auto.
  - destruct (currentPhase state); try destruct (JsNumber.gtb _ 0.6);
      repeat split; try discriminate; try congruence.
Qed.

End Synthesis.

Lemma debate_without_checklist_throws_witness :
  exists message,
    orchestrateDebate (mkConfiguration 2 0.8 1000 [hypothesis; challenger])
      (fun _ _ _ _ => Returned silentTurn) (fun _ => Returned silentTurn) debated
    = Thrown message.
Proof.
  assert (H : hasAgent (mkConfiguration 2 0.8 1000 [hypothesis; challenger]) checklist
              = false) by reflexivity.
  apply (debate_without_checklist_throws
           (mkConfiguration 2 0.8 1000 [hypothesis; challenger])
           (fun _ _ _ _ => Returned silentTurn) (fun _ => Returned silentTurn)
           debated H).
Defined.

Lemma debate_rounds_bounded_witness :
  exists update,
    orchestrateDebate defaultConfiguration
      (fun _ _ _ _ => Returned silentTurn) (fun _ => Returned silentTurn) debated
    = Returned update /\
    exists k, u_debateRound update = Some k /\ (1 <= k <= 2)%Z.
Proof.
  destruct (orchestrateDebate defaultConfiguration
              (fun _ _ _ _ => Returned silentTurn) (fun _ => Returned silentTurn) debated)
    as [update | message] eqn:E.
  - exists update. split; [reflexivity |].
    destruct (debate_rounds_bounded defaultConfiguration
                (fun _ _ _ _ => Returned silentTurn) (fun _ => Returned silentTurn)
                debated update E) as [[[k [Hk [Hb _]]] _] _]; [reflexivity |].
    exists k. split; [exact Hk | exact Hb].
  - exfalso. vm_compute in E. discriminate E.
Defined.

Lemma synthesis_leaves_stale_confidence_witness :
  exists update,
    synthesizeDebateResults defaultConfiguration
      (deliberating [] false 0 1000 0.9 true 3) (Returned silentTurn) = Returned update /\
    confidenceLevel
      (applyUpdate (fun _ x => x) (fun c x => (c ++ x)%list)
         (deliberating [] false 0 1000 0.9 true 3) update) = 0.9.
Proof.
  destruct (synthesizeDebateResults defaultConfiguration
              (deliberating [] false 0 1000 0.9 true 3) (Returned silentTurn))
    as [update | message] eqn:E.
  - exists update. split; [reflexivity |].
    apply (synthesis_leaves_stale_confidence (fun _ x => x) (fun c x => (c ++ x)%list)
             defaultConfiguration (deliberating [] false 0 1000 0.9 true 3)
             (Returned silentTurn) update E).
  - exfalso. vm_compute in E. discriminate E.
Defined.

Lemma synthesis_advances_phase_witness :
  exists update phase,
    synthesizeDebateResults defaultConfiguration debated (Returned silentTurn)
    = Returned update /\
    u_currentPhase update = Some phase /\ phase <> currentPhase debated.
Proof.
  destruct (synthesizeDebateResults defaultConfiguration debated (Returned silentTurn))
    as [update | message] eqn:E.
  - destruct (synthesis_advances_phase defaultConfiguration debated (Returned silentTurn)
                update E) as [phase [quality [Hp [_ [_ [_ [_ [_ [_ Hd]]]]]]]]].
    exists update, phase. split; [reflexivity |]. split; [exact Hp |].
    apply Hd. discriminate.
  - exfalso. vm_compute in E. discriminate E.
Defined.

End DebateRoundProperties.


(* ================================================================== *)
(** ** Properties of the prepared analysis                             *)
(* ================================================================== *)

Module AnalysisProperties.

Import Bayes NumberFacts BayesFacts MapFacts EngineUse EngineExtras Analysis.
Import CaseFixtures.

Lemma bind_modify {A} (f : Engine -> Engine) (k : unit -> Eng A) (this : Engine) :
  bind (modify f) k this = k tt (f this).
Proof. reflexivity. Qed.

(** X25.  [prepareBayesianAnalysis] starts by [reset], so neither the
    text it returns nor the engine it leaves depends on the beliefs
    that an earlier case left in the engine: two engines with the same
    likelihood table give the same result. *)
Theorem analysis_forgets_earlier_case log2 state now gainNow this other :
  evidenceBase this = evidenceBase other ->
  prepareBayesianAnalysis log2 state now gainNow this =
  prepareBayesianAnalysis log2 state now gainNow other.
Proof.
  intros H. unfold prepareBayesianAnalysis, reset.
  rewrite !bind_modify. unfold with_diagnoses. rewrite H. reflexivity.
Qed.

Lemma analysis_forgets_earlier_case_witness :
  prepareBayesianAnalysis (fun _ => 0) debated (fun _ => 0%Z) (fun _ _ => 0%Z) Fixtures.ward =
  prepareBayesianAnalysis (fun _ => 0) debated (fun _ => 0%Z) (fun _ _ => 0%Z)
    Fixtures.crowded.
Proof.
  assert (H : evidenceBase Fixtures.ward = evidenceBase Fixtures.crowded)
    by (vm_compute; reflexivity).
  apply (analysis_forgets_earlier_case (fun _ => 0) debated (fun _ => 0%Z)
           (fun _ _ => 0%Z) Fixtures.ward Fixtures.crowded H).
Defined.

(** *** The engine that the method leaves *)




Section Invariant.

Variable invariant : Engine -> Prop.
Hypothesis update_keeps : forall ev this,
  invariant this -> invariant (after (updateWithEvidence ev) this).


End Invariant.












End AnalysisProperties.


(* ================================================================== *)
(** ** Properties of the simplified graph                              *)
(* ================================================================== *)

Module SimplifiedProperties.

Import Workflow Debate Graph Simplified WorkflowProperties.

Section Reducers.

Variable onRound : Z -> Z -> Z.
Variable onGathered : list string -> list string -> list string.
Variable shouldGenerateQuestions : State -> bool.

(** X27.  The node [generatePatientQuestions] never throws, and the edge
    [routeFromQuestions] that follows it has two outcomes.  It leads to
    [__end__] exactly when the policy fired and [generateQuestions]
    returned a non-empty list: these questions are then pending, the
    state awaits the user and is in phase [patient_interaction].  In
    every other case, an error of [generateQuestions] among them, it
    leads to [medical_analysis] in phase [deliberation], not awaiting
    the user, with the pending questions as they were. *)
Theorem question_node_suspends_or_proceeds state generated :
  let next :=
    applyUpdate onRound onGathered state
      (generatePatientQuestions shouldGenerateQuestions state generated) in
  (routeFromQuestions next = step_end /\
   shouldGenerateQuestions state = true /\
   generated = Returned (pendingQuestions next) /\
   pendingQuestions next <> [] /\
   awaitingUserInput next = true /\
   currentPhase next = patient_interaction) \/
  (routeFromQuestions next = step_medical_analysis /\
   (shouldGenerateQuestions state = false \/ generated = Returned [] \/
    exists message, generated = Thrown message) /\
   pendingQuestions next = pendingQuestions state /\
   awaitingUserInput next = false /\
   currentPhase next = deliberation).
Proof.
  cbv zeta. unfold generatePatientQuestions.
  destruct (shouldGenerateQuestions state) eqn:Hs; cbn [negb].
  - destruct generated as [questions | message].
    + destruct questions as [| q r].
      * right. cbn. repeat split. right. left. reflexivity.
      * left. cbn. repeat split. discriminate.
    + right. cbn. repeat split. right. right. exists message. reflexivity.
  - right. cbn. repeat split. left. reflexivity.
Qed.

(** X28.  After the node [processPatientResponse] the state has no
    pending question, does not await the user, and holds the same case
    with the text of the last message appended to the history of the
    present illness; the edge [routeFromResponse] then always leads to
    [generate_questions], its other branch is never taken. *)
Theorem response_node_returns_to_questions state :
  let next := applyUpdate onRound onGathered state (processPatientResponse state) in
  routeFromResponse next = step_generate_questions /\
  pendingQuestions next = [] /\
  awaitingUserInput next = false /\
  patientId (availableCaseInfo next) = patientId (availableCaseInfo state) /\
  chiefComplaint (availableCaseInfo next) = chiefComplaint (availableCaseInfo state) /\
  historyOfPresentIllness (availableCaseInfo next) =
    Some (interpolated (historyOfPresentIllness (availableCaseInfo state))
          ++ newline ++ newline ++ "Patient Response Round "
          ++ JsNumber.string_of_Z (interactionRound state) ++ ": "
          ++ lastMessageText state)%string.
Proof.
  cbv zeta. unfold processPatientResponse, routeFromResponse. cbn. repeat split.
Qed.

End Reducers.

(** X29.  No edge of the simplified graph leads to [initialize_case] or
    to [process_response], and none leads from [medical_analysis] back
    to itself: after an analysis the run asks the patient again or
    ends with the final diagnosis. *)
Theorem simplified_graph_edges step state :
  createSimplifiedMedicalGraph step state <> Some step_initialize_case /\
  createSimplifiedMedicalGraph step state <> Some step_process_response /\
  (step = step_medical_analysis ->
   createSimplifiedMedicalGraph step state = Some step_generate_questions \/
   createSimplifiedMedicalGraph step state = Some step_final_diagnosis).
Proof.
  destruct step; cbn;
    unfold routeFromInitialization, routeFromQuestions, routeFromResponse,
      routeFromAnalysis;
    repeat match goal with
           | |- context [if ?b then _ else _] => destruct b
           end;
    repeat split; try discriminate; auto.
Qed.

End SimplifiedProperties.
